(** * rsastore: order ledger, payment matcher and download tokens

    A shallow embedding of the payment-reconciliation core of the
    store server (the Express application, [database.js] and the order
    routine of [bot-whatsapp.js]), followed by the properties of it that
    the specification states.

    Conventions of the embedding.
    - A JavaScript string is a [string] whose characters are code units
      in the range 0..255.
    - A JavaScript number that the handlers compute with is an integer
      (amounts, stock, minutes, milliseconds); [NaN] and the two
      infinities are kept as values of their own because [parseInt]
      produces them and [=== 0] and the SQL binding treat them
      specially.  What [parseInt] reads is rounded to the nearest
      double.  Numbers with a fraction are outside the model.
    - The SQLite store is a record of row lists in table order, and a
      statement handed to the driver is executed in program order once
      the callback that issued it has returned; a callback that throws
      leaves the statements it has queued unexecuted.  Constraint
      violations that depend on the data (UNIQUE, PRIMARY KEY) are
      modelled; input/output faults of the store are not.
    - The clock ([Date.now()], [CURRENT_TIMESTAMP]) and the values that
      come from generators or from the network are explicit inputs. *)

From Stdlib Require Import ZArith List String Ascii Bool Lia.
From Stdlib Require OrderedTypeEx.
From stdpp Require Import base option list gmap strings.

Local Open Scope string_scope.
Local Open Scope list_scope.
Local Open Scope Z_scope.

(* ===================================================================== *)
(** * Part I: definitions                                                 *)
(* ===================================================================== *)

(** ** JavaScript values and numbers *)

(** A field of a JSON body or of a query row, as far as the handlers
    look at it.  Objects and arrays do not occur in the fields read.
    [JNum n] is the number that the integer numeral [n] denotes. *)
Inductive jsval : Type :=
| JUndefined
| JNull
| JBool (b : bool)
| JNum (n : Z)
| JStr (s : string).

(** A number that may be [NaN] or an infinity. *)
Inductive jsnumber : Type :=
| NaN
| Num (z : Z)
| Infinite (negative : bool).

(** What running a piece of callback code gives: a value, or an
    exception that nothing catches. *)
Inductive completion (A : Type) : Type :=
| Returned (a : A)
| Thrown (error : string).
Arguments Returned {A} a.
Arguments Thrown {A} error.

(** [if (v)]: the truthiness of a value. *)
Definition truthy (v : jsval) : bool :=
  match v with
  | JUndefined | JNull => false
  | JBool b => b
  | JNum n => negb (n =? 0)
  | JStr s => negb (String.eqb s "")
  end.

(** [if (s)] on a string. *)
Definition nonempty (s : string) : bool := negb (String.eqb s "").

(** [s || null] as written in the parameter lists of the INSERTs. *)
Definition or_null (s : string) : option string :=
  if nonempty s then Some s else None.

(** Truthiness of a nullable TEXT column read back from a row. *)
Definition truthy_text (o : option string) : bool :=
  match o with
  | Some s => nonempty s
  | None => false
  end.

(** ** Characters, [parseInt] and the amount pattern *)

Definition code (c : ascii) : Z := Z.of_N (N_of_ascii c).

(** White space as [\s] and [parseInt] see it, among code units below 256. *)
Definition is_js_space (c : ascii) : bool :=
  let n := code c in
  ((9 <=? n) && (n <=? 13)) || (n =? 32) || (n =? 160).

(** [\d]. *)
Definition is_digit (c : ascii) : bool :=
  let n := code c in (48 <=? n) && (n <=? 57).

(** The class [[\d\.,]] of the amount pattern. *)
Definition is_amount_char (c : ascii) : bool :=
  is_digit c || (code c =? 46) || (code c =? 44).

(** The class [[.,]] removed by [replace(/[.,]/g, '')]. *)
Definition is_separator (c : ascii) : bool :=
  (code c =? 46) || (code c =? 44).

(** The value of a character as a digit in a radix up to 36. *)
Definition digit_value (c : ascii) : option Z :=
  let n := code c in
  if (48 <=? n) && (n <=? 57) then Some (n - 48)
  else if (97 <=? n) && (n <=? 122) then Some (n - 87)
  else if (65 <=? n) && (n <=? 90) then Some (n - 55)
  else None.

Fixpoint skip_while (p : ascii -> bool) (s : string) : string :=
  match s with
  | String c s' => if p c then skip_while p s' else s
  | EmptyString => EmptyString
  end.

Fixpoint take_while (p : ascii -> bool) (s : string) : string :=
  match s with
  | String c s' => if p c then String c (take_while p s') else EmptyString
  | EmptyString => EmptyString
  end.

Fixpoint remove_chars (p : ascii -> bool) (s : string) : string :=
  match s with
  | String c s' => if p c then remove_chars p s' else String c (remove_chars p s')
  | EmptyString => EmptyString
  end.

(** The longest prefix of digits of the radix, read as a number;
    [acc] is [None] until a digit has been seen. *)
Fixpoint read_digits (radix : Z) (s : string) (acc : option Z) : option Z :=
  match s with
  | String c s' =>
      match digit_value c with
      | Some d =>
          if d <? radix
          then read_digits radix s' (Some (radix * default 0 acc + d))
          else acc
      | None => acc
      end
  | EmptyString => acc
  end.

(** The sign that [parseInt] strips, and the rest. *)
Definition strip_sign (s : string) : Z * string :=
  match s with
  | String "-" s' => (-1, s')
  | String "+" s' => (1, s')
  | _ => (1, s)
  end.

(** The double nearest to the integer [a], which is not negative: an
    integer below 2^53 is a double; above, 53 bits are kept and the
    rest is rounded, a tie to the even side. *)
Definition nearest_double (a : Z) : Z :=
  if a <? 2 ^ 53 then a
  else
    let e := Z.log2 a - 52 in
    let q := a / 2 ^ e in
    let r := a mod 2 ^ e in
    let half := 2 ^ (e - 1) in
    if (half <? r) || ((r =? half) && Z.odd q) then (q + 1) * 2 ^ e else q * 2 ^ e.

(** The Number value of an integer given by sign and magnitude; what
    rounds to 2^1024 or more is an infinity. *)
Definition to_number (negative : bool) (a : Z) : jsnumber :=
  let v := nearest_double a in
  if 2 ^ 1024 <=? v then Infinite negative
  else Num (if negative then - v else v).

(** [parseInt(s, 10)] on a string. *)
Definition parseInt10_string (s : string) : jsnumber :=
  let '(sign, body) := strip_sign (skip_while is_js_space s) in
  match read_digits 10 body None with
  | Some v => to_number (sign <? 0) v
  | None => NaN
  end.

(** [parseInt(s)] on a string, without a radix: a [0x] or [0X] prefix
    selects base sixteen. *)
Definition parseInt_string (s : string) : jsnumber :=
  let '(sign, body) := strip_sign (skip_while is_js_space s) in
  let '(radix, digits) :=
    match body with
    | String "0" (String "x" r) => (16, r)
    | String "0" (String "X" r) => (16, r)
    | _ => (10, body)
    end in
  match read_digits radix digits None with
  | Some v => to_number (sign <? 0) v
  | None => NaN
  end.

(** The largest power of ten that is at most [v], from [p] upwards. *)
Fixpoint power_of_ten_below (fuel : nat) (v p : Z) : Z :=
  match fuel with
  | O => p
  | S fuel' => if 10 * p <=? v then power_of_ten_below fuel' v (10 * p) else p
  end.

(** The first digit that [String(v)] prints for a double [v] of 10^21
    or more, where the exponent notation is used.  The digits printed
    are the shortest that read back as [v]: a single digit when [d]
    times a power of ten rounds to [v], and else digits that begin as
    the decimal digits of [v] itself do. *)
Definition printed_leading_digit (v : Z) : Z :=
  let p := power_of_ten_below 310 v 1 in
  let d := v / p in
  if nearest_double ((d + 1) * p) =? v
  then (if d =? 9 then 1 else d + 1)
  else d.

(** [parseInt(v, 10)] on a value: the argument is first turned into a
    string.  A number below 10^21 prints as decimal digits that read
    back as the number; from 10^21 on it prints as [d.ddde+21], of which
    [parseInt] reads the first digit; an infinity, [true], [false],
    [null] and [undefined] print as words. *)
Definition parseInt10 (v : jsval) : jsnumber :=
  match v with
  | JNum n =>
      match to_number (n <? 0) (Z.abs n) with
      | Num z =>
          if Z.abs z <? 10 ^ 21 then Num z
          else Num (Z.sgn z * printed_leading_digit (Z.abs z))
      | NaN | Infinite _ => NaN
      end
  | JStr s => parseInt10_string s
  | JBool _ | JNull | JUndefined => NaN
  end.

(** The pattern [/Rp\s*([\d\.,]+)/] tried at the start of [s]; the
    result is the capture group.  The two classes are disjoint, so the
    greedy white-space run never has to give characters back. *)
Definition amount_pattern_here (s : string) : option string :=
  match s with
  | String "R" (String "p" r) =>
      let cap := take_while is_amount_char (skip_while is_js_space r) in
      if nonempty cap then Some cap else None
  | _ => None
  end.

(** [text.match(/Rp\s*([\d\.,]+)/)]: the leftmost match. *)
Fixpoint amount_pattern (s : string) : option string :=
  match amount_pattern_here s with
  | Some cap => Some cap
  | None =>
      match s with
      | String _ s' => amount_pattern s'
      | EmptyString => None
      end
  end.

(** ** Time: the clock, [CURRENT_TIMESTAMP] and [toISOString] *)

(** Days since 1970-01-01 to the proleptic Gregorian (year, month, day). *)
Definition civil_from_days (days : Z) : Z * Z * Z :=
  let z := days + 719468 in
  let era := z / 146097 in
  let doe := z - era * 146097 in
  let yoe := (doe - doe / 1460 + doe / 36524 - doe / 146096) / 365 in
  let doy := doe - (365 * yoe + yoe / 4 - yoe / 100) in
  let mp := (5 * doy + 2) / 153 in
  let d := doy - (153 * mp + 2) / 5 + 1 in
  let m := if mp <? 10 then mp + 3 else mp - 9 in
  let y := yoe + era * 400 in
  (if m <=? 2 then y + 1 else y, m, d).

Definition digit_char (d : Z) : ascii := ascii_of_N (Z.to_N (48 + d mod 10)).

(** [n] written with exactly [width] decimal digits (the low ones). *)
Fixpoint pad (width : nat) (n : Z) : string :=
  match width with
  | O => EmptyString
  | S w => pad w (n / 10) +:+ String (digit_char n) EmptyString
  end.

Definition ms_per_day : Z := 86400000.

(** The calendar date of an instant in UTC, as [YYYY-MM-DD]; years
    outside 0..9999 take the sign and six digits of [toISOString]. *)
Definition utc_date (ms : Z) : string :=
  let '(y, m, d) := civil_from_days (ms / ms_per_day) in
  let year :=
    if (0 <=? y) && (y <=? 9999) then pad 4 y
    else (if y <? 0 then "-" else "+") +:+ pad 6 (Z.abs y) in
  year +:+ "-" +:+ pad 2 m +:+ "-" +:+ pad 2 d.

(** The time of day of an instant in UTC, as [HH:MM:SS]. *)
Definition utc_time (ms : Z) : string :=
  let s := (ms mod ms_per_day) / 1000 in
  pad 2 (s / 3600) +:+ ":" +:+ pad 2 (s / 60 mod 60) +:+ ":" +:+ pad 2 (s mod 60).

(** SQLite's [CURRENT_TIMESTAMP] at the instant [ms] (milliseconds since
    the epoch): the text [YYYY-MM-DD HH:MM:SS], in UTC. *)
Definition CURRENT_TIMESTAMP (ms : Z) : string :=
  utc_date ms +:+ " " +:+ utc_time ms.

(** The largest magnitude of a valid [Date]. *)
Definition max_date : Z := 8640000000000000.

(** [new Date(ms).toISOString()]: the text [YYYY-MM-DDTHH:MM:SS.sssZ],
    or a RangeError when the date is invalid. *)
Definition toISOString (t : jsnumber) : completion string :=
  match t with
  | Num ms =>
      if (- max_date <=? ms) && (ms <=? max_date)
      then Returned (utc_date ms +:+ "T" +:+ utc_time ms +:+ "."
                       +:+ pad 3 (ms mod 1000) +:+ "Z")
      else Thrown "RangeError: Invalid time value"
  | NaN | Infinite _ => Thrown "RangeError: Invalid time value"
  end.

(** Comparison of two TEXT values under SQLite's BINARY collation. *)
Definition text_lt (a b : string) : bool := String.ltb a b.

(** ** The relational store ([database.js]) *)

(** A row of [products]; only the columns that the modelled handlers
    read or write are kept. *)
Module Product.
Record row : Type := mk {
  id : string;
  name : string;
  price : Z;
  stock : Z;
  file_path : option string;
  download_link : option string;
  is_active : bool
}.
End Product.

(** A row of [orders].  [created_at] and [paid_at] hold the text that
    [CURRENT_TIMESTAMP] wrote.  The surrogate [id] column is read by
    none of the handlers and is left out. *)
Module Order.
Record row : Type := mk {
  invoice_number : string;
  product_id : string;
  product_name : string;
  product_price : Z;
  unique_code : Z;
  total_amount : Z;
  customer_email : option string;
  customer_whatsapp : option string;
  customer_telegram : option string;
  status : string;
  payment_method : string;
  qris_string : option string;
  created_at : string;
  paid_at : option string
}.
End Order.

(** A row of [download_tokens].  The column [expires_at] keeps the text
    of [toISOString()], and the download handler reads it back with
    [new Date(text)], which gives the instant that was printed; the row
    is modelled with that instant, in milliseconds since the epoch. *)
Module Token.
Record row : Type := mk {
  token : string;
  invoice_number : string;
  product_id : string;
  created_at : string;
  expires_at : Z;
  is_used : bool;
  download_count : Z;
  last_download_at : option string
}.
End Token.

Record database : Type := mkDB {
  products : list Product.row;
  orders : list Order.row;
  download_tokens : list Token.row;
  settings : gmap string string
}.

(** [getSettings]: all rows of [settings] as one object. *)
Definition getSettings (db : database) : gmap string string := settings db.

(** [settings.key || fallback]. *)
Definition setting_or (s : gmap string string) (key fallback : string) : string :=
  match s !! key with
  | Some v => if nonempty v then v else fallback
  | None => fallback
  end.

Definition set_orders (db : database) (os : list Order.row) : database :=
  mkDB (products db) os (download_tokens db) (settings db).

Definition set_products (db : database) (ps : list Product.row) : database :=
  mkDB ps (orders db) (download_tokens db) (settings db).

Definition set_download_tokens (db : database) (ts : list Token.row) : database :=
  mkDB (products db) (orders db) ts (settings db).

(** ** Generators of [utils.js] *)

(** Modelled from the spec: [generateUniqueCode] of [utils.js], of which
    the repository shows only the callers.  The specification describes
    its result as a random integer between 1 and 999, both included; the
    draw is the input [entropy]. *)
Definition generateUniqueCode (entropy : Z) : Z := 1 + entropy mod 999.

(** What one order creation takes from outside the store: the clock, the
    invoice number that [generateInvoiceNumber()] returned, the random
    draw behind the unique code, and the answer of the QRIS service
    ([None] when the call failed). *)
Record creation_env : Type := mkCreationEnv {
  c_now : Z;
  c_invoiceNumber : string;
  c_entropy : Z;
  c_qris : option string
}.

(** ** Order creation *)

(** The [sanitize] module, as an interface: the checkout handler only
    tests its results for emptiness and stores them.  A result that
    JavaScript treats as false is the empty string here. *)
Class Sanitize : Type := {
  sanitizeEmail : option string -> string;
  sanitizePhone : option string -> string;
  sanitizeText : option string -> Z -> string
}.

(** The order object that the checkout page and the bot show. *)
Module OrderView.
Record t : Type := mk {
  invoice_number : string;
  product_name : string;
  product_price : Z;
  unique_code : Z;
  total_amount : Z;
  qris_string : option string
}.
End OrderView.

Record checkout_request : Type := mkCheckoutRequest {
  productId : string;
  customer_email : option string;
  customer_whatsapp : option string;
  customer_telegram : option string
}.

Inductive checkout_reply : Type :=
| SendStatus (status_code : Z) (body : string)
| RenderCheckout (order : OrderView.t).

(** [SELECT * FROM products WHERE id = ? AND is_active = 1]. *)
Definition active_product (pid : string) (db : database) : option Product.row :=
  List.find (fun p => String.eqb (Product.id p) pid && Product.is_active p)
            (products db).

(** The QRIS string of a new order: the answer of the service, or the
    configured base string when the call failed. *)
Definition qris_for (env : creation_env) (s : gmap string string) : option string :=
  match c_qris env with
  | Some q => Some q
  | None => s !! "qris_base_string"
  end.

(** [INSERT INTO orders ...]: refused when the invoice number is taken
    (the column is UNIQUE). *)
Definition insert_order (o : Order.row) (db : database) : option database :=
  if List.existsb (fun o' => String.eqb (Order.invoice_number o') (Order.invoice_number o))
                  (orders db)
  then None
  else Some (set_orders db (orders db ++ [o])).

(** The row written by both order routines; [telegram] is [None] for
    the bot, whose INSERT does not name the column. *)
Definition new_order (env : creation_env) (s : gmap string string)
    (p : Product.row) (email whatsapp telegram : option string) : Order.row :=
  let uniqueCode := generateUniqueCode (c_entropy env) in
  let totalAmount := Product.price p + uniqueCode in
  Order.mk (c_invoiceNumber env) (Product.id p) (Product.name p) (Product.price p)
           uniqueCode totalAmount email whatsapp telegram
           "pending" "qris" (qris_for env s)
           (CURRENT_TIMESTAMP (c_now env)) None.

Definition view_of (o : Order.row) : OrderView.t :=
  OrderView.mk (Order.invoice_number o) (Order.product_name o) (Order.product_price o)
               (Order.unique_code o) (Order.total_amount o) (Order.qris_string o).

(** [app.post('/checkout/:productId')]. *)
Definition checkout `{Sanitize} (env : creation_env) (req : checkout_request)
    (db : database) : database * checkout_reply :=
  let email := sanitizeEmail (customer_email req) in
  let whatsapp := sanitizePhone (customer_whatsapp req) in
  let telegram := sanitizeText (customer_telegram req) 100 in
  if negb (nonempty email) then (db, SendStatus 400 "Email is required")
  else
    match active_product (productId req) db with
    | None => (db, SendStatus 400 "Product not available")
    | Some product =>
        if Product.stock product <=? 0
        then (db, SendStatus 400 "Product not available")
        else
          let o := new_order env (getSettings db) product
                     (or_null email) (or_null whatsapp) (or_null telegram) in
          match insert_order o db with
          | Some db' => (db', RenderCheckout (view_of o))
          | None => (db, SendStatus 500 "Server error during checkout")
          end
    end.

(** [createOrder] of the WhatsApp bot: the product is the one kept in
    the chat session, and a refused INSERT is rethrown to the caller. *)
Definition createOrder (env : creation_env) (product : Product.row)
    (customerEmail customerWhatsapp : string) (db : database)
    : database * completion OrderView.t :=
  let o := new_order env (getSettings db) product
             (or_null customerEmail) (or_null customerWhatsapp) None in
  match insert_order o db with
  | Some db' => (db', Returned (view_of o))
  | None => (db, Thrown "SQLITE_CONSTRAINT: UNIQUE constraint failed: orders.invoice_number")
  end.

(** ** The cleanup sweep *)

(** The WHERE clause of the sweep: [status = 'pending' AND created_at < ?].
    The column holds the text that [CURRENT_TIMESTAMP] wrote and the
    parameter is the text of [toISOString()]; neither reads as a number,
    so SQLite compares the two as TEXT, byte by byte. *)
Definition expired_pending (oneHourAgo : string) (o : Order.row) : bool :=
  String.eqb (Order.status o) "pending" && text_lt (Order.created_at o) oneHourAgo.

(** [cleanupExpiredOrders], run at the instant [now]. *)
Definition cleanupExpiredOrders (now : Z) (db : database) : database :=
  match toISOString (Num (now - 60 * 60 * 1000)) with
  | Returned oneHourAgo =>
      set_orders db (List.filter (fun o => negb (expired_pending oneHourAgo o)) (orders db))
  | Thrown _ => db
  end.

(** ** The payment webhook *)

(** The fields of the notification body that the handler reads. *)
Record notification : Type := mkNotification {
  amountDetected : jsval;
  amount : jsval;
  text : jsval
}.

(** What one delivery takes from outside the store: the clock and the
    string that [generateDownloadToken()] returned. *)
Record webhook_env : Type := mkWebhookEnv {
  w_now : Z;
  w_token : string
}.

Inductive webhook_reply : Type :=
| Json (status_code : Z) (status message : string) (invoice : option string)
| Uncaught (error : string).

(** The API-key test: [settings.webhook_api_key && apiKey !== settings.webhook_api_key]. *)
Definition key_rejected (s : gmap string string) (apiKey : option string) : bool :=
  match s !! "webhook_api_key" with
  | Some key => nonempty key && negb (bool_decide (apiKey = Some key))
  | None => false
  end.

(** The block "Extract amount from notification".  A [text] that is
    true but not a string has no [match] method. *)
Definition extractAmount (n : notification) : completion jsnumber :=
  if truthy (amountDetected n) then Returned (parseInt10 (amountDetected n))
  else if truthy (amount n) then Returned (parseInt10 (amount n))
  else if truthy (text n) then
    match text n with
    | JStr s =>
        match amount_pattern s with
        | Some cap => Returned (parseInt10_string (remove_chars is_separator cap))
        | None => Returned (Num 0)
        end
    | _ => Thrown "TypeError: notification.text.match is not a function"
    end
  else Returned (Num 0).

(** The WHERE clause [total_amount = ? AND status = 'pending'].  A [NaN]
    parameter is bound as NULL, which equals nothing, and no integer of
    the column equals an infinity. *)
Definition pending_with_amount (a : jsnumber) (o : Order.row) : bool :=
  match a with
  | Num z => (Order.total_amount o =? z) && String.eqb (Order.status o) "pending"
  | NaN | Infinite _ => false
  end.

(** [ORDER BY created_at DESC LIMIT 1]: a row whose [created_at] no
    other row exceeds; SQL leaves the choice among equal ones open, the
    model takes the first of them in table order. *)
Fixpoint latest (rows : list Order.row) : option Order.row :=
  match rows with
  | [] => None
  | o :: rest =>
      match latest rest with
      | Some o' => if text_lt (Order.created_at o) (Order.created_at o') then Some o' else Some o
      | None => Some o
      end
  end.

(** "Find pending order with exact amount". *)
Definition find_pending_order (a : jsnumber) (db : database) : option Order.row :=
  latest (List.filter (pending_with_amount a) (orders db)).

(** An order row after [SET status = 'paid', paid_at = CURRENT_TIMESTAMP]. *)
Definition paid (now : Z) (o : Order.row) : Order.row :=
  Order.mk (Order.invoice_number o) (Order.product_id o) (Order.product_name o)
           (Order.product_price o) (Order.unique_code o) (Order.total_amount o)
           (Order.customer_email o) (Order.customer_whatsapp o)
           (Order.customer_telegram o)
           "paid" (Order.payment_method o) (Order.qris_string o)
           (Order.created_at o) (Some (CURRENT_TIMESTAMP now)).

(** One row under [UPDATE orders SET status = 'paid', paid_at =
    CURRENT_TIMESTAMP WHERE invoice_number = ?]. *)
Definition pay_row (now : Z) (invoice : string) (o : Order.row) : Order.row :=
  if String.eqb (Order.invoice_number o) invoice then paid now o else o.

Definition mark_paid (now : Z) (invoice : string) (db : database) : database :=
  set_orders db (map (pay_row now invoice) (orders db)).

(** One row under [UPDATE products SET stock = stock - 1 WHERE id = ? AND stock > 0]. *)
Definition decrease_row (pid : string) (p : Product.row) : Product.row :=
  if String.eqb (Product.id p) pid && (0 <? Product.stock p)
  then Product.mk (Product.id p) (Product.name p) (Product.price p)
                  (Product.stock p - 1)
                  (Product.file_path p) (Product.download_link p) (Product.is_active p)
  else p.

Definition decrease_stock (pid : string) (db : database) : database :=
  set_products db (map (decrease_row pid) (products db)).

(** [parseInt(settings.token_expiry_minutes || '60')]. *)
Definition expiryMinutes (s : gmap string string) : jsnumber :=
  parseInt_string (setting_or s "token_expiry_minutes" "60").

(** [new Date(Date.now() + expiryMinutes * 60 * 1000).toISOString()],
    as the instant that the text denotes. *)
Definition expiresAt (now : Z) (minutes : jsnumber) : completion Z :=
  match minutes with
  | Num m =>
      let t := now + m * 60 * 1000 in
      match toISOString (Num t) with
      | Returned _ => Returned t
      | Thrown e => Thrown e
      end
  | NaN | Infinite _ => Thrown "RangeError: Invalid time value"
  end.

(** [INSERT INTO download_tokens (token, invoice_number, product_id,
    expires_at)]: refused when the token exists (PRIMARY KEY), which the
    handler only logs. *)
Definition insert_token (now expires : Z) (tok invoice pid : string)
    (db : database) : database :=
  if List.existsb (fun t => String.eqb (Token.token t) tok) (download_tokens db)
  then db
  else set_download_tokens db
         (download_tokens db ++
          [Token.mk tok invoice pid (CURRENT_TIMESTAMP now) expires false 0 None]).

(** The handler after the API-key test.  The callback of the query
    hands the two UPDATEs to the driver, computes the expiry, hands over
    the INSERT and answers; the three statements run, in this order,
    after the callback has returned.  When [toISOString] throws, the
    callback ends there: nothing is answered and the UPDATEs that were
    handed over are not run, so the store stays as it was. *)
Definition process_payment (env : webhook_env) (n : notification)
    (db : database) : database * webhook_reply :=
  match extractAmount n with
  | Thrown e => (db, Uncaught e)
  | Returned (Num 0) => (db, Json 200 "success" "No amount detected" None)
  | Returned a =>
      match find_pending_order a db with
      | None => (db, Json 200 "success" "No matching order" None)
      | Some order =>
          let db1 := mark_paid (w_now env) (Order.invoice_number order) db in
          let db2 := decrease_stock (Order.product_id order) db1 in
          match expiresAt (w_now env) (expiryMinutes (getSettings db)) with
          | Thrown e => (db, Uncaught e)
          | Returned expires =>
              (insert_token (w_now env) expires (w_token env)
                            (Order.invoice_number order) (Order.product_id order) db2,
               Json 200 "success" "Payment processed" (Some (Order.invoice_number order)))
          end
      end
  end.

(** [app.post('/webhook/payment')]; [apiKey] is the [x-api-key] header. *)
Definition webhook_payment (env : webhook_env) (apiKey : option string)
    (n : notification) (db : database) : database * webhook_reply :=
  if key_rejected (getSettings db) apiKey
  then (db, Json 401 "error" "Unauthorized" None)
  else process_payment env n db.

(** ** The download handler *)

Inductive download_reply : Type :=
| RedirectExpired
| Forbidden (body : string)
| RedirectTo (link : string)
| SendFile (file_path product_name : string)
| NotFound (body : string).

(** The rows of [download_tokens dt JOIN orders o ON dt.invoice_number =
    o.invoice_number JOIN products p ON dt.product_id = p.id WHERE
    dt.token = ?]. *)
Definition token_join (tok : string) (db : database)
    : list (Token.row * Order.row * Product.row) :=
  flat_map (fun dt =>
    flat_map (fun o =>
      map (fun p => (dt, o, p))
          (List.filter (fun p => String.eqb (Product.id p) (Token.product_id dt))
                       (products db)))
      (List.filter (fun o => String.eqb (Order.invoice_number o) (Token.invoice_number dt))
                   (orders db)))
    (List.filter (fun dt => String.eqb (Token.token dt) tok) (download_tokens db)).

(** One row under [UPDATE download_tokens SET download_count =
    download_count + 1, last_download_at = CURRENT_TIMESTAMP, is_used = 1
    WHERE token = ?]. *)
Definition count_row (now : Z) (tok : string) (t : Token.row) : Token.row :=
  if String.eqb (Token.token t) tok
  then Token.mk (Token.token t) (Token.invoice_number t) (Token.product_id t)
                (Token.created_at t) (Token.expires_at t)
                true (Token.download_count t + 1) (Some (CURRENT_TIMESTAMP now))
  else t.

Definition count_download (now : Z) (tok : string) (db : database) : database :=
  set_download_tokens db (map (count_row now tok) (download_tokens db)).

(** What is sent once the checks have passed: the external link when
    the product has one, else the local file. *)
Definition deliver (p : Product.row) : download_reply :=
  match Product.download_link p, Product.file_path p with
  | Some link, fp =>
      if nonempty link then RedirectTo link
      else if truthy_text fp then SendFile (default "" fp) (Product.name p)
      else NotFound "Download file not found"
  | None, fp =>
      if truthy_text fp then SendFile (default "" fp) (Product.name p)
      else NotFound "Download file not found"
  end.

(** [app.get('/download/:token')], at the instant [now]. *)
Definition download (now : Z) (tok : string) (db : database)
    : database * download_reply :=
  match head (token_join tok db) with
  | None => (db, RedirectExpired)
  | Some (tokenData, o, p) =>
      if Token.expires_at tokenData <? now then (db, RedirectExpired)
      else if negb (String.eqb (Order.status o) "paid")
      then (db, Forbidden "Order is not paid yet")
      else (count_download now tok db, deliver p)
  end.

(** ** Runs of the system *)

(** One request or timer event, for the handlers modelled above. *)
Inductive event : Type :=
| Checkout (env : creation_env) (req : checkout_request)
| BotOrder (env : creation_env) (product : Product.row) (email whatsapp : string)
| Webhook (env : webhook_env) (apiKey : option string) (n : notification)
| Sweep (now : Z)
| Download (now : Z) (tok : string).

Definition step `{Sanitize} (e : event) (db : database) : database :=
  match e with
  | Checkout env req => fst (checkout env req db)
  | BotOrder env product email whatsapp => fst (createOrder env product email whatsapp db)
  | Webhook env apiKey n => fst (webhook_payment env apiKey n db)
  | Sweep now => cleanupExpiredOrders now db
  | Download now tok => fst (download now tok db)
  end.

(** The store after a list of events, oldest first. *)
Definition run `{Sanitize} (es : list event) (db : database) : database :=
  fold_left (fun d e => step e d) es db.

(** A sanitizer that lets every field through, for the examples. *)
Definition passthrough : Sanitize :=
  {| sanitizeEmail := fun v => default "" v;
     sanitizePhone := fun v => default "" v;
     sanitizeText := fun v _ => default "" v |}.

(** ** Vocabulary of the statements *)

(** The status code of a reply, when there is one. *)
Definition status_code_of (r : webhook_reply) : option Z :=
  match r with
  | Json c _ _ _ => Some c
  | Uncaught _ => None
  end.

(** Every character of [s] satisfies [p]. *)
Fixpoint all_chars (p : ascii -> bool) (s : string) : bool :=
  match s with
  | String c s' => p c && all_chars p s'
  | EmptyString => true
  end.

(** [s] does not begin with a character that satisfies [p]. *)
Definition stops (p : ascii -> bool) (s : string) : bool :=
  match s with
  | String c _ => negb (p c)
  | EmptyString => true
  end.

(** The number that a string of decimal digits denotes. *)
Fixpoint decimal_from (acc : Z) (s : string) : Z :=
  match s with
  | String c s' => decimal_from (10 * acc + (code c - 48)) s'
  | EmptyString => acc
  end.

Definition decimal_value (s : string) : Z := decimal_from 0 s.

Definition not_R (c : ascii) : bool := negb (code c =? 82).


Definition stock_ok (p : Product.row) : Prop := 0 <= Product.stock p.

(** A list of redemptions, each an instant and a token string, applied
    oldest first. *)
Definition redeem_all (rs : list (Z * string)) (db : database) : database :=
  fold_left (fun d r => fst (download (fst r) (snd r) d)) rs db.

(** A joined row with the counters of the token advanced by one download. *)
Definition counted (now : Z) (tok : string)
    (r : Token.row * Order.row * Product.row) : Token.row * Order.row * Product.row :=
  let '(dt, o, p) := r in (count_row now tok dt, o, p).

(** ** The calendar, for statements about timestamps *)

(** Calendar dates (year, month, day) in their order. *)
Definition date_ltb (a b : Z * Z * Z) : bool :=
  let '(y1, m1, d1) := a in
  let '(y2, m2, d2) := b in
  (y1 <? y2) || ((y1 =? y2) && ((m1 <? m2) || ((m1 =? m2) && (d1 <? d2)))).

(** The month and the day of a date are those of a calendar. *)
Definition date_in_range (a : Z * Z * Z) : bool :=
  let '(y, m, d) := a in
  (1 <=? m) && (m <=? 12) && (1 <=? d) && (d <=? 31).

(** [f] holds of the [fuel] integers from [z] on. *)
Fixpoint all_from (fuel : nat) (z : Z) (f : Z -> bool) : bool :=
  match fuel with
  | O => true
  | S k => f z && all_from k (z + 1) f
  end.

(** The year of a day within a 400-year era, as [civil_from_days]
    computes it. *)
Definition year_of_era (doe : Z) : Z :=
  (doe - doe / 1460 + doe / 36524 - doe / 146096) / 365.

(** The first day, within the era, of the year [yoe] of the era. *)
Definition year_start (yoe : Z) : Z := 365 * yoe + yoe / 4 - yoe / 100 + yoe / 400.

(** A date from the era, the year of the era and the day of that year
    (years begin on March 1), as [civil_from_days] assembles it. *)
Definition assemble (era yoe doy : Z) : Z * Z * Z :=
  let mp := (5 * doy + 2) / 153 in
  let d := doy - (153 * mp + 2) / 5 + 1 in
  let m := if mp <? 10 then mp + 3 else mp - 9 in
  let y := yoe + era * 400 in
  (if m <=? 2 then y + 1 else y, m, d).

(** [year_of_era] is right on the first and on the last day of a year. *)
Definition year_ends_ok (yoe : Z) : bool :=
  (year_of_era (year_start yoe) =? yoe) && (year_of_era (year_start (yoe + 1) - 1) =? yoe).

(** The text of a calendar date with a four-digit year. *)
Definition date_text (a : Z * Z * Z) : string :=
  let '(y, m, d) := a in pad 4 y +:+ "-" +:+ pad 2 m +:+ "-" +:+ pad 2 d.

Definition four_digit_year (a : Z * Z * Z) : bool :=
  let '(y, _, _) := a in (0 <=? y) && (y <=? 9999).

(** The text of the second [s] of a day. *)
Definition time_text (s : Z) : string :=
  pad 2 (s / 3600) +:+ ":" +:+ pad 2 (s / 60 mod 60) +:+ ":" +:+ pad 2 (s mod 60).

(** Instants whose UTC year has four digits: from 0000-01-01 to the end
    of 9999-12-31. *)
Definition four_digit_instant (ms : Z) : Prop :=
  -62167219200000 <= ms < 253402300800000.

(** ** Sample data for the scenarios *)

Module Sample.

Definition ebook : Product.row :=
  Product.mk "P1" "E-Book" 50000 5 (Some "uploads/ebook.pdf") None true.

Definition store_settings : gmap string string :=
  <["webhook_api_key" := "secret"]> (<["token_expiry_minutes" := "60"]> ∅).

(** A pending order for [ebook] with unique code 123. *)
Definition order_at (invoice created : string) : Order.row :=
  Order.mk invoice "P1" "E-Book" 50000 123 50123
           (Some "buyer@example.com") None None
           "pending" "qris" None created None.

(** 2024-01-01 12:00:00 UTC, in milliseconds since the epoch. *)
Definition noon : Z := 1704110400000.

Definition minutes (m : Z) : Z := m * 60 * 1000.

(** Two pending orders that share the total 50123. *)
Definition twin_db : database :=
  mkDB [ebook]
       [order_at "INV-0001" "2024-01-01 11:40:00";
        order_at "INV-0002" "2024-01-01 11:45:00"]
       [] store_settings.

Definition payment_50123 : notification :=
  mkNotification (JNum 50123) JUndefined JUndefined.

End Sample.

Module SampleRun.
Import Sample.

Definition shop : database := mkDB [ebook] [] [] store_settings.

Definition buy : checkout_request :=
  mkCheckoutRequest "P1" (Some "buyer@example.com") None None.

(** A checkout whose draw gives the unique code 123, and the payment
    of its total five minutes later. *)
Definition history : list event :=
  [ Checkout (mkCreationEnv (noon - minutes 10) "INV-0001" 122 None) buy;
    Webhook (mkWebhookEnv (noon - minutes 5) "tok-1") (Some "secret") payment_50123 ].

End SampleRun.

Module SampleToken.
Import Sample.

(** A token for a pending order; it expires at noon. *)
Definition unpaid_db : database :=
  mkDB [ebook]
       [order_at "INV-0001" "2024-01-01 11:40:00"]
       [Token.mk "tok-1" "INV-0001" "P1" "2024-01-01 11:00:00" noon false 0 None]
       store_settings.

(** The token and its pending order after the product row was
    removed. *)
Definition orphan_db : database :=
  mkDB []
       [order_at "INV-0001" "2024-01-01 11:40:00"]
       [Token.mk "tok-1" "INV-0001" "P1" "2024-01-01 11:00:00" noon false 0 None]
       store_settings.

(** The same token for the same order once paid. *)
Definition paid_db : database :=
  mkDB [ebook]
       [paid (noon - minutes 60) (order_at "INV-0001" "2024-01-01 10:40:00")]
       [Token.mk "tok-1" "INV-0001" "P1" "2024-01-01 11:00:00" noon false 0 None]
       store_settings.

End SampleToken.

Module SampleSweep.
Import Sample.

(** A store with one pending order, created at the instant [created]. *)
Definition with_pending_order (created : Z) : database :=
  mkDB [ebook] [order_at "INV-0001" (CURRENT_TIMESTAMP created)] [] store_settings.

(** A store with one paid order, created at the instant [created]. *)
Definition with_paid_order (created : Z) : database :=
  mkDB [ebook] [paid (created + minutes 5) (order_at "INV-0001" (CURRENT_TIMESTAMP created))]
       [] store_settings.

(** 2024-01-02 00:15:00 UTC. *)
Definition after_midnight : Z := noon + minutes (12 * 60 + 15).

End SampleSweep.

Module SampleCheckout.
Import Sample.

(** A checkout that gives a phone number and a chat handle, no email. *)
Definition without_email : checkout_request :=
  mkCheckoutRequest "P1" None (Some "6281234567890") (Some "@buyer").

Definition env : creation_env := mkCreationEnv (noon - minutes 10) "INV-0001" 122 None.

End SampleCheckout.

Module SampleWebhook.
Import Sample.

(** One pending order of total 50123. *)
Definition single_db : database :=
  mkDB [ebook] [order_at "INV-0001" "2024-01-01 11:50:00"] [] store_settings.

(** The same store with no API key configured. *)
Definition open_db : database :=
  mkDB [ebook] [order_at "INV-0001" "2024-01-01 11:50:00"] [] ∅.

(** The store of [single_db] after the token lifetime was set to a
    text that is no number. *)
Definition bad_expiry_db : database :=
  mkDB [ebook] [order_at "INV-0001" "2024-01-01 11:50:00"] []
       (<["token_expiry_minutes" := "abc"]> store_settings).

Definition at_noon : webhook_env := mkWebhookEnv noon "tok-1".
Definition later : webhook_env := mkWebhookEnv (noon + minutes 1) "tok-2".

Definition amount_75000 : notification :=
  mkNotification JUndefined (JStr "75000") JUndefined.

Definition text_50123 : notification :=
  mkNotification JUndefined JUndefined (JStr "Pembayaran Rp 50.123 diterima").

Definition nothing : notification :=
  mkNotification JUndefined JUndefined JUndefined.

End SampleWebhook.

(* ===================================================================== *)
(** * Part I, continued: the rest of the server and of the bot           *)
(* ===================================================================== *)

(** ** More string operations of JavaScript *)

(** [toLowerCase] on one code unit below 256: the letters A to Z, and
    the accented capitals 192 to 222 except the multiplication sign. *)
Definition lower_char (c : ascii) : ascii :=
  let n := code c in
  if ((65 <=? n) && (n <=? 90)) || ((192 <=? n) && (n <=? 222) && negb (n =? 215))
  then ascii_of_N (Z.to_N (n + 32))
  else c.

Fixpoint toLowerCase (s : string) : string :=
  match s with
  | String c s' => String (lower_char c) (toLowerCase s')
  | EmptyString => EmptyString
  end.

(** [trimEnd()], [trim()]. *)
Fixpoint trimEnd (s : string) : string :=
  match s with
  | String c s' =>
      let r := trimEnd s' in
      if is_js_space c && negb (nonempty r) then EmptyString else String c r
  | EmptyString => EmptyString
  end.

Definition trim (s : string) : string := trimEnd (skip_while is_js_space s).

(** [s.split(c)[0]]: the part before the first [c]. *)
Definition before_first (c : ascii) (s : string) : string :=
  take_while (fun x => negb (Ascii.eqb x c)) s.

(** [s.startsWith(p)]. *)
Definition startsWith (p s : string) : bool := String.prefix p s.

(** ** The number that a payment notification is sent to ([bot-whatsapp.js]) *)

(** [replace(/\D/g, '')]. *)
Definition digits_only (s : string) : string :=
  remove_chars (fun c => negb (is_digit c)) s.

(** The block "Format phone number" of [sendPaymentNotification], which
    the test endpoint repeats: digits only, a leading 0 replaced by 62,
    and 62 put in front of what does not begin with it. *)
Definition format_phone (customer_whatsapp : string) : string :=
  let phoneNumber := digits_only customer_whatsapp in
  let phoneNumber :=
    match phoneNumber with
    | String "0" rest => "62" +:+ rest
    | _ => phoneNumber
    end in
  if startsWith "62" phoneNumber then phoneNumber else "62" +:+ phoneNumber.

(** The chat that [sendPaymentNotification] writes to: none when the
    client is not connected or the order has no number. *)
Definition notification_chat (connected : bool) (o : Order.row) : option string :=
  if negb connected then None
  else match Order.customer_whatsapp o with
       | Some w => if nonempty w then Some (format_phone w +:+ "@c.us") else None
       | None => None
       end.

(** ** The settings helpers of [database.js] *)

Definition set_settings (db : database) (s : gmap string string) : database :=
  mkDB (products db) (orders db) (download_tokens db) s.

(** [getSetting]: the value handed to the callback, [None] for null. *)
Definition getSetting (key : string) (db : database) : option string :=
  settings db !! key.

(** [updateSetting]: [UPDATE settings SET value = ? WHERE key = ?], which
    touches no row when the key is absent. *)
Definition updateSetting (key value : string) (db : database) : database :=
  match settings db !! key with
  | Some _ => set_settings db (<[key := value]> (settings db))
  | None => db
  end.

(** The rows of [defaultSettings] in [initDatabase]. *)
Definition defaultSettings : list (string * string) :=
  [ ("store_name", "RSA Store");
    ("store_description", "Toko Digital Terpercaya");
    ("store_whatsapp", "6281234567890");
    ("store_email", "admin@rsastore.com");
    ("store_telegram", "@RSAStore");
    ("operating_hours_weekday", "Senin - Jumat: 09:00 - 21:00 WIB");
    ("operating_hours_weekend", "Sabtu - Minggu: 10:00 - 18:00 WIB");
    ("operating_hours_support", "Support Email: 24/7");
    ("qris_base_string", "00020101021126570011ID.DANA.WWW011893600915366813362702096681336270303UMI51440014ID.CO.QRIS.WWW0215ID10243259493930303UMI5204481453033605802ID5909RSA Store6015Kota Yogyakarta610555161");
    ("qris_merchant_name", "RSA Store");
    ("webhook_api_key", "CHANGE_THIS_SECRET_KEY");
    ("smtp_host", "smtp.gmail.com");
    ("smtp_port", "587");
    ("smtp_username", "");
    ("smtp_password", "");
    ("smtp_from_name", "RSA Store");
    ("smtp_active", "0");
    ("token_expiry_minutes", "60") ].

(** [INSERT OR IGNORE INTO settings (key, value) VALUES (?, ?)]. *)
Definition insert_or_ignore (s : gmap string string) (row : string * string)
    : gmap string string :=
  match s !! fst row with
  | Some _ => s
  | None => <[fst row := snd row]> s
  end.

(** [initDatabase], on the tables of the model: [CREATE TABLE IF NOT
    EXISTS] keeps the rows there are, and the default settings are
    inserted where their key is free. *)
Definition initDatabase (db : database) : database :=
  set_settings db (fold_left insert_or_ignore defaultSettings (settings db)).

(** ** The pages and the status API of the shop *)

Inductive page_reply : Type :=
| PageStatus (status_code : Z) (body : string)
| PageCheckout (product : Product.row).

(** [app.get('/checkout/:productId')]. *)
Definition checkout_page (productId : string) (db : database) : page_reply :=
  match active_product productId db with
  | None => PageStatus 404 "Product not found"
  | Some product =>
      if Product.stock product <=? 0
      then PageStatus 400 "Product out of stock"
      else PageCheckout product
  end.

(** [SELECT ... FROM orders WHERE invoice_number = ?], first row. *)
Definition order_by_invoice (invoice : string) (db : database) : option Order.row :=
  List.find (fun o => String.eqb (Order.invoice_number o) invoice) (orders db).

Inductive status_reply : Type :=
| StatusJson (status_code : Z) (status : string).

(** [app.get('/api/order-status/:invoiceNumber')]. *)
Definition order_status (invoiceNumber : string) (db : database) : status_reply :=
  match order_by_invoice invoiceNumber db with
  | Some row => StatusJson 200 (Order.status row)
  | None => StatusJson 404 "not_found"
  end.

(** ** Invoice recovery *)

(** The one more function of the [sanitize] module that recovery uses. *)
Class SanitizeInvoice : Type := {
  sanitizeInvoiceNumber : option string -> string
}.

Module Recover.
Record request : Type := mk {
  invoice_number : option string;
  customer_email : option string;
  customer_whatsapp : option string;
  customer_telegram : option string
}.
End Recover.

(** The page that recovery renders: the order with its new token, or an
    error text; or no page, when the callback throws. *)
Inductive recover_reply : Type :=
| RecoverError (error : string)
| RecoverLink (order : Order.row) (download_token : string)
| RecoverUncaught (error : string).

(** [a && b && a.toLowerCase() === b.toLowerCase()], [b] a column. *)
Definition same_ignoring_case (given : string) (kept : option string) : bool :=
  nonempty given && truthy_text kept &&
  String.eqb (toLowerCase given) (toLowerCase (default "" kept)).

(** [a && b && a === b]. *)
Definition same_exactly (given : string) (kept : option string) : bool :=
  nonempty given && truthy_text kept && String.eqb given (default "" kept).

(** "Verify at least one contact method matches". *)
Definition contact_verified (email whatsapp telegram : string) (o : Order.row) : bool :=
  same_ignoring_case email (Order.customer_email o)
  || same_exactly whatsapp (Order.customer_whatsapp o)
  || same_ignoring_case telegram (Order.customer_telegram o).

(** [app.post('/recover')]; the environment gives the clock and the
    string that [generateDownloadToken()] returned. *)
Definition recover `{Sanitize} `{SanitizeInvoice} (env : webhook_env)
    (req : Recover.request) (db : database) : database * recover_reply :=
  let invoice := sanitizeInvoiceNumber (Recover.invoice_number req) in
  let email := sanitizeEmail (Recover.customer_email req) in
  let whatsapp := sanitizePhone (Recover.customer_whatsapp req) in
  let telegram := sanitizeText (Recover.customer_telegram req) 100 in
  if negb (nonempty invoice) then (db, RecoverError "Invoice number is required")
  else
    match order_by_invoice invoice db with
    | None => (db, RecoverError "Order not found")
    | Some order =>
        if negb (contact_verified email whatsapp telegram order)
        then (db, RecoverError "Contact information does not match order records")
        else if negb (String.eqb (Order.status order) "paid")
        then (db, RecoverError "Order is not paid yet. Please complete payment first.")
        else
          match expiresAt (w_now env) (expiryMinutes (getSettings db)) with
          | Thrown e => (db, RecoverUncaught e)
          | Returned expires =>
              if List.existsb (fun t => String.eqb (Token.token t) (w_token env))
                              (download_tokens db)
              then (db, RecoverError "Error generating download link")
              else (insert_token (w_now env) expires (w_token env)
                                 (Order.invoice_number order) (Order.product_id order) db,
                    RecoverLink order (w_token env))
          end
    end.

Definition passthrough_invoice : SanitizeInvoice :=
  {| sanitizeInvoiceNumber := fun v => default "" v |}.


(** The default value of a key, first row first. *)
Definition default_of (key : string) : option string :=
  snd <$> List.find (fun row => String.eqb (fst row) key) defaultSettings.

(** ** All the operations on the store *)

(** The events of before, recovery, and the two writers of settings. *)
Inductive action : Type :=
| Core (e : event)
| RecoverLinkFor (env : webhook_env) (req : Recover.request)
| UpdateSetting (key value : string)
| InitDatabase.

Definition act `{Sanitize} `{SanitizeInvoice} (a : action) (db : database) : database :=
  match a with
  | Core e => step e db
  | RecoverLinkFor env req => fst (recover env req db)
  | UpdateSetting key value => updateSetting key value db
  | InitDatabase => initDatabase db
  end.

(** The store after a list of actions, oldest first. *)
Definition play `{Sanitize} `{SanitizeInvoice} (acts : list action) (db : database)
    : database :=
  fold_left (fun d a => act a d) acts db.


(** ** Vocabulary of the further statements *)

(** Every token belongs to an order that is there and paid. *)
Definition tokens_for_paid_orders (db : database) : Prop :=
  forall t, In t (download_tokens db) ->
    exists o, In o (orders db) /\
              Order.invoice_number o = Token.invoice_number t /\
              Order.status o = "paid".

(** The keys that the schema declares unique are unique. *)
Definition unique_keys (db : database) : Prop :=
  List.NoDup (map Order.invoice_number (orders db)) /\
  List.NoDup (map Token.token (download_tokens db)).

(** [SELECT * FROM products WHERE id = ?], first row. *)
Definition product_by_id (pid : string) (db : database) : option Product.row :=
  List.find (fun p => String.eqb (Product.id p) pid) (products db).


(** What one statement of a handler does to the two tables [orders] and
    [download_tokens]; the handlers are sequences of these. *)
Inductive row_change (db db' : database) : Prop :=
| rows_kept :
    orders db' = orders db -> download_tokens db' = download_tokens db ->
    row_change db db'
| order_added (o : Order.row) :
    orders db' = orders db ++ [o] -> download_tokens db' = download_tokens db ->
    Order.status o = "pending" ->
    ~ In (Order.invoice_number o) (map Order.invoice_number (orders db)) ->
    row_change db db'
| order_paid (now : Z) (invoice : string) :
    orders db' = map (pay_row now invoice) (orders db) ->
    download_tokens db' = download_tokens db ->
    row_change db db'
| orders_swept (keep : Order.row -> bool) :
    orders db' = List.filter keep (orders db) ->
    download_tokens db' = download_tokens db ->
    (forall o, Order.status o <> "pending" -> keep o = true) ->
    row_change db db'
| token_counted (now : Z) (tok : string) :
    orders db' = orders db ->
    download_tokens db' = map (count_row now tok) (download_tokens db) ->
    row_change db db'
| token_added (t : Token.row) (o : Order.row) :
    orders db' = orders db -> download_tokens db' = download_tokens db ++ [t] ->
    ~ In (Token.token t) (map Token.token (download_tokens db)) ->
    In o (orders db) -> Order.status o = "paid" ->
    Order.invoice_number o = Token.invoice_number t ->
    row_change db db'.


(** The same product with no more stock than before. *)
Definition same_product_less_stock (p p' : Product.row) : Prop :=
  Product.id p' = Product.id p /\ Product.name p' = Product.name p /\
  Product.price p' = Product.price p /\ Product.file_path p' = Product.file_path p /\
  Product.download_link p' = Product.download_link p /\
  Product.is_active p' = Product.is_active p /\
  Product.stock p' <= Product.stock p.

(** The actions that the routes open to customers and to the payment
    gateway can cause; the other two belong to the administration. *)
Definition customer_action (a : action) : bool :=
  match a with
  | Core _ | RecoverLinkFor _ _ => true
  | UpdateSetting _ _ | InitDatabase => false
  end.

(** What [/download/:token] answers for a new token of a paid order
    whose product is [found]. *)
Definition link_answer (expires now : Z) (found : option Product.row) : download_reply :=
  match found with
  | Some p => if expires <? now then RedirectExpired else deliver p
  | None => RedirectExpired
  end.


(* ===================================================================== *)
(** * Part I, continued: the conversation of the WhatsApp bot            *)
(* ===================================================================== *)

(** [s.includes(needle)]. *)
Fixpoint includes (needle s : string) : bool :=
  String.prefix needle s ||
  match s with
  | String _ s' => includes needle s'
  | EmptyString => false
  end.

Module Category.
Record row : Type := mk {
  id : Z;
  name : string
}.
End Category.

(** The queries of the module [bot-controller] that the conversation
    keeps results of; the module is not part of the sources, so they
    are taken as they come.  Its other functions only build message
    texts. *)
Class BotController : Type := {
  getCategories : database -> list Category.row;
  getProductsByCategory : Z -> database -> list Product.row;
  searchProducts : string -> database -> list Product.row
}.

(** [session.data]: every update replaces the object as a whole, with
    some of these four fields. *)
Record session_data : Type := mkData {
  d_categories : option (list Category.row);
  d_category : option Category.row;
  d_products : option (list Product.row);
  d_product : option Product.row
}.

Definition no_data : session_data := mkData None None None None.

Module Session.
Record t : Type := mk {
  state : string;
  data : session_data;
  lastActivity : Z
}.
End Session.

(** [userSessions], a [Map] from chat ids. *)
Abbreviation sessions := (gmap string Session.t).

(** [getUserSession]: the session of the chat, made on first use. *)
Definition getUserSession (now : Z) (userId : string) (ss : sessions)
    : sessions * Session.t :=
  match ss !! userId with
  | Some s => (ss, s)
  | None =>
      let s := Session.mk "menu" no_data now in
      (<[userId := s]> ss, s)
  end.

(** [updateUserSession(userId, { state, data })]; every call in the
    file gives both fields. *)
Definition updateUserSession (now : Z) (userId state : string) (data : session_data)
    (ss : sessions) : sessions :=
  let '(ss, _) := getUserSession now userId ss in
  <[userId := Session.mk state data now]> ss.

Definition session_timeout : Z := 30 * 60 * 1000.

(** The body of the [setInterval] that clears old sessions. *)
Definition clear_old_sessions (now : Z) (ss : sessions) : sessions :=
  filter (fun kv => ~ (now - Session.lastActivity (snd kv) > session_timeout)) ss.

(** The messages that the conversation sends, one constructor for each
    [client.sendMessage] of the handlers; the texts themselves are left
    out, what a text is built from is kept. *)
Inductive outgoing : Type :=
| Welcome
| Help
| OrderAnswer
| CategoriesList (categories : list Category.row)
| AskSearch
| AskInvoice
| ProductsList (products : list Product.row) (category : string)
| InvalidChoice
| ProductDetail (product : Product.row)
| AskBuy
| OutOfStock
| AskEmail
| TypeBuy
| InvalidEmail
| CheckoutExpired
| Processing
| Invoice (order : OrderView.t)
| QrImage (order : OrderView.t)
| Failed
| SearchTooShort
| SearchEmpty (query : string)
| SearchResults (query : string) (products : list Product.row).

(** What handling one message takes from outside: the inputs of
    [createOrder], whether the QR library can draw an image, and what
    the other handlers and the timer do to the sessions while this
    handler waits at an [await].  The clock is read once, at [c_now]. *)
Record bot_env : Type := mkBotEnv {
  b_order : creation_env;
  b_image : bool;
  b_meanwhile : sessions -> sessions
}.

(** The sessions as a handler finds them when the sends and queries it
    awaited have completed. *)
Definition resumed (env : bot_env) (ss : sessions) : sessions := b_meanwhile env ss.

(** [generateQRISImage(order.qris_string, ...)]: there is no image of
    an absent or empty text. *)
Definition generateQRISImage (env : bot_env) (order : OrderView.t) : bool :=
  truthy_text (OrderView.qris_string order) && b_image env.

(** [parseInt(text.trim()) - 1] as an index into [items]: the item when
    [choice >= 0 && choice < items.length]. *)
Definition chosen {A : Type} (text : string) (items : list A) : option A :=
  match parseInt_string (trim text) with
  | Num n =>
      let choice := n - 1 in
      if (0 <=? choice) && (choice <? Z.of_nat (List.length items))
      then nth_error items (Z.to_nat choice)
      else None
  | NaN | Infinite _ => None
  end.

(** In the handlers below every [client.sendMessage] and every query of
    the controller is taken to succeed; a failure of one is caught by
    [handleMessage], which logs it and does nothing more.  A handler
    reads the session when its message arrives and writes it after the
    sends and queries that it awaits: the write goes to the sessions as
    they are then, [resumed env ss]. *)

Definition handleMenuState `{BotController} (env : bot_env) (userId text : string)
    (db : database) (ss : sessions) : sessions * list outgoing :=
  let now := c_now (b_order env) in
  let choice := trim text in
  if String.eqb choice "1" || String.eqb choice "katalog" then
    let categories := getCategories db in
    (updateUserSession now userId "category_list"
       (mkData (Some categories) None None None) (resumed env ss),
     [CategoriesList categories])
  else if String.eqb choice "2" || String.eqb choice "cari" then
    (updateUserSession now userId "search" no_data (resumed env ss), [AskSearch])
  else if String.eqb choice "3" then (ss, [AskInvoice])
  else (ss, [Welcome]).

Definition handleCategorySelection `{BotController} (env : bot_env)
    (userId text : string) (db : database) (ss : sessions)
    : sessions * list outgoing :=
  let now := c_now (b_order env) in
  let '(ss, session) := getUserSession now userId ss in
  let categories := default [] (d_categories (Session.data session)) in
  match chosen text categories with
  | Some selectedCategory =>
      let products := getProductsByCategory (Category.id selectedCategory) db in
      (updateUserSession now userId "product_list"
         (mkData None (Some selectedCategory) (Some products) None) (resumed env ss),
       [ProductsList products (Category.name selectedCategory)])
  | None => (ss, [InvalidChoice])
  end.

Definition handleProductSelection (env : bot_env) (userId text : string)
    (ss : sessions) : sessions * list outgoing :=
  let now := c_now (b_order env) in
  let '(ss, session) := getUserSession now userId ss in
  let products := default [] (d_products (Session.data session)) in
  match chosen text products with
  | Some selectedProduct =>
      if 0 <? Product.stock selectedProduct
      then (updateUserSession now userId "product_detail"
              (mkData None None None (Some selectedProduct)) (resumed env ss),
            [ProductDetail selectedProduct; AskBuy])
      else (ss, [ProductDetail selectedProduct; OutOfStock])
  | None => (ss, [InvalidChoice])
  end.

(** [handleProductAction]: the data that goes into the state 'checkout'
    is read after the send, from the session as it is then. *)
Definition handleProductAction (env : bot_env) (userId text : string)
    (ss : sessions) : sessions * list outgoing :=
  let now := c_now (b_order env) in
  let lowerText := trim (toLowerCase text) in
  if String.eqb lowerText "beli" || String.eqb lowerText "buy" then
    let '(ss, session) := getUserSession now userId (resumed env ss) in
    (updateUserSession now userId "checkout" (Session.data session) ss, [AskEmail])
  else (ss, [TypeBuy]).

(** [handleCheckout]: the one handler that writes to the store. *)
Definition handleCheckout (env : bot_env) (userId text : string)
    (db : database) (ss : sessions) : sessions * database * list outgoing :=
  let now := c_now (b_order env) in
  let email := trim text in
  if negb (includes "@" email) || negb (includes "." email)
  then (ss, db, [InvalidEmail])
  else
    let '(ss, session) := getUserSession now userId ss in
    match d_product (Session.data session) with
    | None =>
        (updateUserSession now userId "menu" no_data (resumed env ss), db,
         [CheckoutExpired])
    | Some product =>
        let whatsappNumber := before_first "@" userId in
        match createOrder (b_order env) product email whatsappNumber db with
        | (db', Returned order) =>
            if generateQRISImage env order
            then (updateUserSession now userId "menu" no_data (resumed env ss), db',
                  [Processing; Invoice order; QrImage order])
            else (ss, db', [Processing; Failed])
        | (db', Thrown _) => (ss, db', [Processing; Failed])
        end
    end.

Definition handleSearch `{BotController} (env : bot_env) (userId text : string)
    (db : database) (ss : sessions) : sessions * list outgoing :=
  let now := c_now (b_order env) in
  let query := trim text in
  if Z.of_nat (String.length query) <? 3 then (ss, [SearchTooShort])
  else
    let products := searchProducts query db in
    match products with
    | [] => (ss, [SearchEmpty query])
    | _ =>
        (updateUserSession now userId "product_list"
           (mkData None None (Some products) None) (resumed env ss),
         [SearchResults query products])
    end.

(** [handleMessage], for the message [body] of the chat [userId].  The
    reset to the menu writes the session before it sends. *)
Definition handleMessage `{BotController} (env : bot_env) (userId body : string)
    (db : database) (ss : sessions) : sessions * database * list outgoing :=
  let now := c_now (b_order env) in
  let messageText := trim body in
  let '(ss, session) := getUserSession now userId ss in
  let lowerText := toLowerCase messageText in
  if String.eqb lowerText "menu" || String.eqb lowerText "start"
     || String.eqb lowerText "/start"
  then (updateUserSession now userId "menu" no_data ss, db, [Welcome])
  else if String.eqb lowerText "bantuan" || String.eqb lowerText "help"
          || String.eqb lowerText "4"
  then (ss, db, [Help])
  else if startsWith "cek " lowerText || startsWith "inv-" lowerText
  then (ss, db, [OrderAnswer])
  else
    let state := Session.state session in
    let with_db (r : sessions * list outgoing) := (fst r, db, snd r) in
    if String.eqb state "menu" then with_db (handleMenuState env userId messageText db ss)
    else if String.eqb state "category_list"
    then with_db (handleCategorySelection env userId messageText db ss)
    else if String.eqb state "product_list"
    then with_db (handleProductSelection env userId messageText ss)
    else if String.eqb state "product_detail"
    then with_db (handleProductAction env userId messageText ss)
    else if String.eqb state "checkout" then handleCheckout env userId messageText db ss
    else if String.eqb state "search" then with_db (handleSearch env userId messageText db ss)
    else (updateUserSession now userId "menu" no_data (resumed env ss), db, [Welcome]).

(** The listener [client.on('message')]: messages of groups and the
    status broadcast are dropped. *)
Definition on_message `{BotController} (env : bot_env) (from body : string)
    (db : database) (ss : sessions) : sessions * database * list outgoing :=
  if includes "@g.us" from then (ss, db, [])
  else if String.eqb from "status@broadcast" then (ss, db, [])
  else handleMessage env from body db ss.

(** ** Runs of the bot beside the shop *)

Inductive bot_event : Type :=
| Message (env : bot_env) (from body : string)
| ClearSessions (now : Z)
| Shop (a : action).

Definition bot_step `{Sanitize} `{SanitizeInvoice} `{BotController} (e : bot_event)
    (st : sessions * database) : sessions * database * list outgoing :=
  let '(ss, db) := st in
  match e with
  | Message env from body => on_message env from body db ss
  | ClearSessions now => (clear_old_sessions now ss, db, [])
  | Shop a => (ss, act a db, [])
  end.

(** The sessions and the store after a list of events, oldest first,
    with all that was sent. *)
Fixpoint bot_run `{Sanitize} `{SanitizeInvoice} `{BotController} (es : list bot_event)
    (st : sessions * database) : sessions * database * list outgoing :=
  match es with
  | [] => (st, [])
  | e :: es' =>
      let '(st', sent) := bot_step e st in
      let '(st'', sent') := bot_run es' st' in
      (st'', sent ++ sent')
  end.

(** An event during which nothing else touches the sessions: the
    handler of a message is not overlapped by another handler or by the
    timer. *)
Definition undisturbed (e : bot_event) : Prop :=
  match e with
  | Message env _ _ => forall ss, b_meanwhile env ss = ss
  | ClearSessions _ | Shop _ => True
  end.

(** A session in one of the two states that lead to an order keeps a
    product that was in stock when it was chosen. *)
Definition session_ok (s : Session.t) : Prop :=
  Session.state s = "product_detail" \/ Session.state s = "checkout" ->
  exists p, d_product (Session.data s) = Some p /\ 0 < Product.stock p.

Definition sessions_ok (ss : sessions) : Prop :=
  forall userId s, ss !! userId = Some s -> session_ok s.


(** ** Sample data for the further scenarios *)

Module SampleRecover.
Import Sample.

(** The buyer of the paid order asks again, writing the email in
    another letter case. *)
Definition request : Recover.request :=
  Recover.mk (Some "INV-0001") (Some "Buyer@Example.COM") None None.

Definition env : webhook_env := mkWebhookEnv (noon - minutes 30) "tok-9".

(** A sweep, a stray payment and a second redemption of the token. *)
Definition later_actions : list action :=
  [ Core (Sweep SampleSweep.after_midnight);
    Core (Webhook SampleWebhook.later (Some "secret") payment_50123);
    Core (Download (noon - minutes 1) "tok-1") ].

End SampleRecover.

Module SampleBot.
Import Sample.

(** A controller with one category that lists the active products. *)
Definition controller : BotController :=
  {| getCategories := fun _ => [Category.mk 1 "E-Book"];
     getProductsByCategory := fun _ db => List.filter Product.is_active (products db);
     searchProducts := fun _ db => List.filter Product.is_active (products db) |}.

Definition chat : string := "6281234567890@c.us".

(** The payment service answers with a code, the image can be drawn,
    and no other handler runs meanwhile. *)
Definition env : bot_env :=
  mkBotEnv (mkCreationEnv (noon - minutes 10) "INV-0001" 122
              (Some "00020101021226570011ID.DANA.WWW5406501236304A1B2"))
           true (fun ss => ss).

(** The catalogue, the category, the product, the purchase, the email. *)
Definition conversation : list bot_event :=
  [ Message env chat "1";
    Message env chat " 1 ";
    Message env chat "1";
    Message env chat "Beli";
    Message env chat "buyer@example.com" ].

(** The same environment, but while the handler awaits its send, the
    chat's message "menu" is handled. *)
Definition env_overlapped : bot_env :=
  mkBotEnv (b_order env) true
           (fun ss => fst (fst (@on_message controller env chat "menu" SampleRun.shop ss))).

(** The conversation with a "menu" that overtakes the answer to "Beli". *)
Definition overlapped : list bot_event :=
  [ Message env chat "1";
    Message env chat " 1 ";
    Message env chat "1";
    Message env_overlapped chat "Beli";
    Message env chat "buyer@example.com" ].

End SampleBot.


(** A token of a paid order, by what redemption reads of it. *)
Definition live_token (tok : string) (expires : Z) (pid : string) (db : database) : Prop :=
  exists dt o,
    In dt (download_tokens db) /\ Token.token dt = tok /\
    Token.expires_at dt = expires /\ Token.product_id dt = pid /\
    In o (orders db) /\ Order.invoice_number o = Token.invoice_number dt /\
    Order.status o = "paid".

(* ===================================================================== *)
(** * Part II: properties                                                 *)
(* ===================================================================== *)

(** ** The order of TEXT values *)

Module SO := Stdlib.Structures.OrderedTypeEx.String_as_OT.

Lemma text_lt_spec (a b : string) : text_lt a b = true <-> SO.lt a b.
Proof.
  unfold text_lt, String.ltb. rewrite <- SO.cmp_lt. unfold SO.cmp.
  destruct (String.compare a b); split; congruence.
Qed.

Lemma text_lt_irrefl (a : string) : text_lt a a = false.
Proof.
  destruct (text_lt a a) eqn:E; [|reflexivity].
  apply text_lt_spec in E. exfalso. exact (SO.lt_not_eq a a E eq_refl).
Qed.

Lemma text_lt_trans (a b c : string) :
  text_lt a b = true -> text_lt b c = true -> text_lt a c = true.
Proof.
  rewrite !text_lt_spec. apply SO.lt_trans.
Qed.

Lemma text_lt_asym (a b : string) : text_lt a b = true -> text_lt b a = false.
Proof.
  intros Hab. destruct (text_lt b a) eqn:Hba; [|reflexivity].
  pose proof (text_lt_trans _ _ _ Hab Hba) as H.
  rewrite text_lt_irrefl in H. discriminate.
Qed.

Lemma text_lt_total (a b : string) :
  text_lt a b = false -> a = b \/ text_lt b a = true.
Proof.
  unfold text_lt, String.ltb. rewrite (String.compare_antisym b a).
  destruct (String.compare a b) eqn:E; simpl; intros H.
  - left. now apply String.compare_eq_iff.
  - discriminate.
  - now right.
Qed.

(** "Not exceeded by" is transitive. *)
Lemma text_not_lt_trans (a b c : string) :
  text_lt a b = false -> text_lt b c = false -> text_lt a c = false.
Proof.
  intros Hab Hbc. destruct (text_lt a c) eqn:Hac; [|reflexivity].
  destruct (text_lt_total _ _ Hab) as [->|Hba]; [congruence|].
  rewrite (text_lt_trans _ _ _ Hba Hac) in Hbc. discriminate.
Qed.

(** Two texts that agree up to a character where the first has the
    smaller code unit: the first is the smaller, whatever follows. *)
Lemma text_lt_common_prefix (d : string) (c1 c2 : ascii) (r1 r2 : string) :
  (code c1 < code c2) ->
  text_lt (d +:+ String c1 r1) (d +:+ String c2 r2) = true.
Proof.
  intros Hc. unfold text_lt, String.ltb.
  assert (String.compare (d +:+ String c1 r1) (d +:+ String c2 r2) = Lt) as ->; [|reflexivity].
  induction d as [|x d IH]; simpl.
  - assert (Ascii.compare c1 c2 = Lt) as ->; [|reflexivity].
    unfold Ascii.compare. apply N.compare_lt_iff. unfold code in Hc. lia.
  - assert (Ascii.compare x x = Eq) as -> by (unfold Ascii.compare; apply N.compare_refl).
    exact IH.
Qed.

(** ** Timestamps and the calendar *)

Lemma all_from_spec fuel z f :
  all_from fuel z f = true -> forall i, z <= i < z + Z.of_nat fuel -> f i = true.
Proof.
  revert z. induction fuel as [|k IH]; intros z H i Hi; [lia|].
  simpl in H. apply andb_true_iff in H as [Hz Hr].
  destruct (Z.eq_dec i z) as [->|Hne]; [exact Hz|].
  apply (IH (z + 1) Hr). lia.
Qed.

Lemma year_of_era_step (doe : Z) : 0 <= doe -> year_of_era doe <= year_of_era (doe + 1).
Proof.
  intros H. unfold year_of_era. apply Z.div_le_mono; [lia|].
  Z.div_mod_to_equations. lia.
Qed.

Lemma year_of_era_mono (a b : Z) : 0 <= a <= b -> year_of_era a <= year_of_era b.
Proof.
  intros [Ha Hab]. replace b with (a + Z.of_nat (Z.to_nat (b - a))) by lia.
  induction (Z.to_nat (b - a)) as [|n IH]; [replace (a + Z.of_nat 0) with a by lia; lia|].
  replace (a + Z.of_nat (S n)) with (a + Z.of_nat n + 1) by lia.
  pose proof (year_of_era_step (a + Z.of_nat n) ltac:(lia)). lia.
Qed.

Lemma year_ends : all_from 400 0 year_ends_ok = true.
Proof. vm_compute. reflexivity. Qed.

Lemma year_length (y : Z) : 0 <= y -> year_start (y + 1) - year_start y <= 366.
Proof. intros H. unfold year_start. Z.div_mod_to_equations. lia. Qed.

(** Every day of the era lies in one of its 400 years. *)
Lemma find_year (doe : Z) :
  0 <= doe < 146097 ->
  exists y, 0 <= y < 400 /\ year_start y <= doe < year_start (y + 1).
Proof.
  intros Hdoe.
  assert (forall n : nat, (n <= 400)%nat -> doe < year_start (Z.of_nat n) ->
            exists y, 0 <= y < Z.of_nat n /\ year_start y <= doe < year_start (y + 1)) as H.
  { induction n as [|n IH]; intros Hn Hlt.
    - change (year_start (Z.of_nat 0)) with 0 in Hlt. lia.
    - destruct (Z_lt_le_dec doe (year_start (Z.of_nat n))) as [Hl|Hl].
      + destruct (IH ltac:(lia) Hl) as (y & Hy & Hin). exists y. split; [lia|exact Hin].
      + exists (Z.of_nat n). split; [lia|].
        replace (Z.of_nat n + 1) with (Z.of_nat (S n)) by lia. lia. }
  destruct (H 400%nat ltac:(lia)) as (y & Hy & Hin).
  - change (year_start (Z.of_nat 400)) with 146097. lia.
  - exists y. split; [lia|exact Hin].
Qed.

(** [year_of_era] is right on every day of a year: it is monotone and
    right at both ends. *)
Lemma year_of_era_spec (doe y : Z) :
  0 <= y < 400 -> year_start y <= doe < year_start (y + 1) -> year_of_era doe = y.
Proof.
  intros Hy Hin.
  pose proof (all_from_spec 400 0 year_ends_ok year_ends y ltac:(lia)) as Hok.
  unfold year_ends_ok in Hok. apply andb_true_iff in Hok as [H1 H2].
  apply Z.eqb_eq in H1, H2.
  assert (0 <= year_start y) as H0 by (unfold year_start; Z.div_mod_to_equations; lia).
  pose proof (year_of_era_mono (year_start y) doe ltac:(lia)).
  pose proof (year_of_era_mono doe (year_start (y + 1) - 1) ltac:(lia)).
  lia.
Qed.

(** [civil_from_days] through the year and the day of the year. *)
Lemma civil_from_days_assemble (z : Z) :
  exists era yoe doy,
    civil_from_days z = assemble era yoe doy /\
    z + 719468 = 146097 * era + year_start yoe + doy /\
    0 <= yoe < 400 /\ 0 <= doy < year_start (yoe + 1) - year_start yoe.
Proof.
  set (era := (z + 719468) / 146097).
  set (doe := z + 719468 - era * 146097).
  assert (0 <= doe < 146097) as Hdoe
      by (subst doe era; Z.div_mod_to_equations; lia).
  destruct (find_year doe Hdoe) as (y & Hy & Hin).
  pose proof (year_of_era_spec doe y Hy Hin) as Hyoe.
  exists era, y, (doe - year_start y). repeat split; try lia.
  unfold civil_from_days, assemble. cbv zeta. fold era. fold doe.
  unfold year_of_era in Hyoe. rewrite Hyoe.
  assert (365 * y + y / 4 - y / 100 = year_start y) as ->
      by (unfold year_start; Z.div_mod_to_equations; lia).
  reflexivity.
Qed.

Lemma assemble_in_range (era yoe doy : Z) :
  0 <= doy <= 365 -> date_in_range (assemble era yoe doy) = true.
Proof.
  intros H. unfold assemble, date_in_range. cbv zeta.
  destruct (Z.ltb_spec ((5 * doy + 2) / 153) 10);
    Z.div_mod_to_equations; lia.
Qed.

(** Within an era, later days of later years give later dates. *)
Lemma assemble_lt (era1 yoe1 doy1 era2 yoe2 doy2 : Z) :
  0 <= yoe1 < 400 -> 0 <= yoe2 < 400 -> 0 <= doy1 <= 365 -> 0 <= doy2 <= 365 ->
  era1 < era2 \/ (era1 = era2 /\ (yoe1 < yoe2 \/ (yoe1 = yoe2 /\ doy1 < doy2))) ->
  date_ltb (assemble era1 yoe1 doy1) (assemble era2 yoe2 doy2) = true.
Proof.
  intros Hy1 Hy2 Hd1 Hd2 Hlt. unfold assemble, date_ltb. cbv zeta.
  destruct (Z.ltb_spec ((5 * doy1 + 2) / 153) 10);
    destruct (Z.ltb_spec ((5 * doy2 + 2) / 153) 10);
    repeat match goal with |- context [?a <=? 2] => destruct (Z.leb_spec a 2) end;
    Z.div_mod_to_equations; lia.
Qed.

Lemma year_start_le (y1 y2 : Z) : 0 <= y1 <= y2 -> year_start y1 <= year_start y2.
Proof. intros H. unfold year_start. Z.div_mod_to_equations. lia. Qed.

(** Later days have later dates. *)
Lemma civil_from_days_increasing (a b : Z) :
  a < b -> date_ltb (civil_from_days a) (civil_from_days b) = true.
Proof.
  intros Hab.
  destruct (civil_from_days_assemble a) as (era1 & y1 & d1 & -> & Ha & Hy1 & Hd1).
  destruct (civil_from_days_assemble b) as (era2 & y2 & d2 & -> & Hb & Hy2 & Hd2).
  pose proof (year_length y1 ltac:(lia)). pose proof (year_length y2 ltac:(lia)).
  pose proof (year_start_le 0 y1 ltac:(lia)) as L1. pose proof (year_start_le 0 y2 ltac:(lia)) as L2.
  pose proof (year_start_le (y1 + 1) 400 ltac:(lia)) as U1.
  pose proof (year_start_le (y2 + 1) 400 ltac:(lia)) as U2.
  change (year_start 0) with 0 in L1, L2. change (year_start 400) with 146097 in U1, U2.
  apply assemble_lt; try lia.
  destruct (Z.lt_trichotomy era1 era2) as [He|[He|He]]; [now left| |lia].
  right. split; [exact He|]. subst era2.
  destruct (Z.lt_trichotomy y1 y2) as [Hy|[Hy|Hy]]; [now left| |].
  - right. split; [exact Hy|]. subst y2. lia.
  - pose proof (year_start_le (y2 + 1) y1 ltac:(lia)). lia.
Qed.

Lemma civil_from_days_in_range (z : Z) : date_in_range (civil_from_days z) = true.
Proof.
  destruct (civil_from_days_assemble z) as (era & y & d & -> & _ & Hy & Hd).
  pose proof (year_length y ltac:(lia)). apply assemble_in_range. lia.
Qed.

Lemma append_assoc (a b c : string) : (a +:+ b) +:+ c = a +:+ (b +:+ c).
Proof.
  induction a as [|x a IH]; [reflexivity|].
  change (String x ((a +:+ b) +:+ c) = String x (a +:+ b +:+ c)). now rewrite IH.
Qed.

Lemma text_lt_cancel_prefix (p s t : string) :
  text_lt (p +:+ s) (p +:+ t) = text_lt s t.
Proof.
  unfold text_lt, String.ltb.
  assert (String.compare (p +:+ s) (p +:+ t) = String.compare s t) as ->; [|reflexivity].
  induction p as [|x p IH]; [reflexivity|].
  change (String.compare (String x (p +:+ s)) (String x (p +:+ t)) = String.compare s t).
  simpl.
  assert (Ascii.compare x x = Eq) as -> by (unfold Ascii.compare; apply N.compare_refl).
  exact IH.
Qed.

Lemma text_lt_first_char (c1 c2 : ascii) (s t : string) :
  code c1 < code c2 -> text_lt (String c1 s) (String c2 t) = true.
Proof. intros H. exact (text_lt_common_prefix "" c1 c2 s t H). Qed.

Lemma code_digit_char (d : Z) : code (digit_char d) = 48 + d mod 10.
Proof.
  unfold code, digit_char. pose proof (Z.mod_pos_bound d 10 ltac:(lia)).
  rewrite N_ascii_embedding; lia.
Qed.

Lemma pad_succ (w : nat) (n : Z) (s : string) :
  pad (S w) n +:+ s = pad w (n / 10) +:+ String (digit_char n) s.
Proof.
  change (pad (S w) n) with (pad w (n / 10) +:+ String (digit_char n) "").
  now rewrite append_assoc.
Qed.

(** Decimal numerals of equal width compare as the numbers do. *)
Lemma pad_lt (w : nat) (m n : Z) (s t : string) :
  0 <= m < n -> n < 10 ^ Z.of_nat w ->
  text_lt (pad w m +:+ s) (pad w n +:+ t) = true.
Proof.
  revert m n s t. induction w as [|w IH]; intros m n s t Hmn Hn.
  - simpl in Hn. lia.
  - rewrite !pad_succ.
    assert (n / 10 < 10 ^ Z.of_nat w) as Hq.
    { apply Z.div_lt_upper_bound; [lia|].
      replace (Z.of_nat (S w)) with (Z.succ (Z.of_nat w)) in Hn by lia.
      rewrite Z.pow_succ_r in Hn by lia. lia. }
    destruct (Z.eq_dec (m / 10) (n / 10)) as [E|E].
    + rewrite E, text_lt_cancel_prefix. apply text_lt_first_char.
      rewrite !code_digit_char.
      pose proof (Z.div_mod m 10 ltac:(lia)). pose proof (Z.div_mod n 10 ltac:(lia)). lia.
    + apply IH; [|exact Hq].
      pose proof (Z.div_le_mono m n 10 ltac:(lia) ltac:(lia)).
      pose proof (Z.div_pos m 10 ltac:(lia) ltac:(lia)). lia.
Qed.

(** Date texts compare as the dates do. *)
Lemma date_text_lt (a b : Z * Z * Z) (s t : string) :
  four_digit_year a = true -> four_digit_year b = true ->
  date_in_range a = true -> date_in_range b = true ->
  date_ltb a b = true ->
  text_lt (date_text a +:+ s) (date_text b +:+ t) = true.
Proof.
  destruct a as [[y1 m1] d1], b as [[y2 m2] d2]. unfold date_text. simpl four_digit_year.
  simpl date_in_range. simpl date_ltb. intros Ha Hb Hra Hrb Hlt.
  rewrite !append_assoc.
  destruct (Z.eq_dec y1 y2) as [->|Hy].
  - rewrite text_lt_cancel_prefix.
    rewrite (text_lt_cancel_prefix "-").
    destruct (Z.eq_dec m1 m2) as [->|Hm].
    + rewrite text_lt_cancel_prefix, (text_lt_cancel_prefix "-").
      apply pad_lt; simpl; lia.
    + apply pad_lt; simpl; lia.
  - apply pad_lt; simpl; lia.
Qed.

Lemma append_nil_r (s : string) : s +:+ "" = s.
Proof.
  induction s as [|x s IH]; [reflexivity|].
  change (String x (s +:+ "") = String x s). now rewrite IH.
Qed.

Lemma time_text_lt (s1 s2 : Z) (x y : string) :
  0 <= s1 < s2 -> s2 < 86400 ->
  text_lt (time_text s1 +:+ x) (time_text s2 +:+ y) = true.
Proof.
  intros H1 H2. unfold time_text. rewrite !append_assoc.
  destruct (Z.eq_dec (s1 / 3600) (s2 / 3600)) as [Eh|Eh].
  - rewrite Eh, text_lt_cancel_prefix, (text_lt_cancel_prefix ":").
    destruct (Z.eq_dec (s1 / 60 mod 60) (s2 / 60 mod 60)) as [Em|Em].
    + rewrite Em, text_lt_cancel_prefix, (text_lt_cancel_prefix ":").
      apply pad_lt; simpl; Z.div_mod_to_equations; lia.
    + apply pad_lt; simpl; Z.div_mod_to_equations; lia.
  - apply pad_lt; simpl; Z.div_mod_to_equations; lia.
Qed.

Lemma utc_time_text (ms : Z) : utc_time ms = time_text (ms mod ms_per_day / 1000).
Proof. reflexivity. Qed.

Lemma civil_four_digits (ms : Z) :
  four_digit_instant ms ->
  four_digit_year (civil_from_days (ms / ms_per_day)) = true /\
  date_in_range (civil_from_days (ms / ms_per_day)) = true.
Proof.
  intros Hr. split; [|apply civil_from_days_in_range].
  assert (-719528 <= ms / ms_per_day <= 2932896) as Hd
      by (unfold four_digit_instant, ms_per_day in *; Z.div_mod_to_equations; lia).
  set (day := ms / ms_per_day) in *.
  assert (date_ltb (civil_from_days (-719529)) (civil_from_days day) = true) as Hlo
      by (apply civil_from_days_increasing; lia).
  assert (date_ltb (civil_from_days day) (civil_from_days 2932897) = true) as Hhi
      by (apply civil_from_days_increasing; lia).
  pose proof (civil_from_days_in_range day) as Hrange.
  change (civil_from_days (-719529)) with (-1, 12, 31) in Hlo.
  change (civil_from_days 2932897) with (10000, 1, 1) in Hhi.
  destruct (civil_from_days day) as [[y m] d]. simpl in *. lia.
Qed.

Lemma utc_date_text (ms : Z) :
  four_digit_instant ms -> utc_date ms = date_text (civil_from_days (ms / ms_per_day)).
Proof.
  intros Hr. destruct (civil_four_digits ms Hr) as [Hy _]. unfold utc_date.
  destruct (civil_from_days (ms / ms_per_day)) as [[y m] d]. simpl in Hy.
  rewrite Hy. reflexivity.
Qed.

Lemma timestamp_lt (a b : Z) :
  four_digit_instant a -> four_digit_instant b ->
  a / 1000 < b / 1000 ->
  text_lt (CURRENT_TIMESTAMP a) (CURRENT_TIMESTAMP b) = true.
Proof.
  intros Ha Hb Hlt. unfold CURRENT_TIMESTAMP.
  rewrite (utc_date_text a Ha), (utc_date_text b Hb), !utc_time_text.
  destruct (civil_four_digits a Ha) as [Hya Hra].
  destruct (civil_four_digits b Hb) as [Hyb Hrb].
  destruct (Z.eq_dec (a / ms_per_day) (b / ms_per_day)) as [E|E].
  - rewrite E, text_lt_cancel_prefix, (text_lt_cancel_prefix " ").
    rewrite <- (append_nil_r (time_text (a mod ms_per_day / 1000))).
    rewrite <- (append_nil_r (time_text (b mod ms_per_day / 1000))).
    apply time_text_lt; unfold ms_per_day in *; Z.div_mod_to_equations; lia.
  - apply date_text_lt; try assumption.
    apply civil_from_days_increasing.
    unfold ms_per_day in *. Z.div_mod_to_equations. lia.
Qed.

Lemma timestamp_same_second (a b : Z) :
  a / 1000 = b / 1000 -> CURRENT_TIMESTAMP a = CURRENT_TIMESTAMP b.
Proof.
  intros E.
  assert (a / ms_per_day = b / ms_per_day) as Ed
      by (unfold ms_per_day; Z.div_mod_to_equations; lia).
  assert (a mod ms_per_day / 1000 = b mod ms_per_day / 1000) as Es
      by (unfold ms_per_day in *; Z.div_mod_to_equations; lia).
  unfold CURRENT_TIMESTAMP, utc_date, utc_time. cbv zeta. now rewrite Ed, Es.
Qed.

(** Timestamps of the store compare as their instants do, to the second. *)
Lemma timestamp_order (a b : Z) :
  four_digit_instant a -> four_digit_instant b ->
  text_lt (CURRENT_TIMESTAMP a) (CURRENT_TIMESTAMP b) = true <-> a / 1000 < b / 1000.
Proof.
  intros Ha Hb. split; [|now apply timestamp_lt].
  intros Hlt. destruct (Z.lt_trichotomy (a / 1000) (b / 1000)) as [H|[H|H]]; [exact H| |].
  - rewrite (timestamp_same_second a b H), text_lt_irrefl in Hlt. discriminate.
  - rewrite (text_lt_asym _ _ (timestamp_lt b a Hb Ha H)) in Hlt. discriminate.
Qed.

(** The timestamp of the store and the ISO text of the sweep differ at
    the eleventh character, a blank against a [T]: on equal dates the
    stored one is the smaller text, whatever the times of day. *)
Lemma same_date_compares_older (created limit : Z) (oneHourAgo : string) :
  toISOString (Num limit) = Returned oneHourAgo ->
  utc_date created = utc_date limit ->
  text_lt (CURRENT_TIMESTAMP created) oneHourAgo = true.
Proof.
  unfold toISOString. destruct (_ && _); [|discriminate].
  intros Hiso Hdate. inversion Hiso; subst oneHourAgo. unfold CURRENT_TIMESTAMP.
  rewrite Hdate.
  change (utc_date limit +:+ " " +:+ utc_time created)
    with (utc_date limit +:+ String " " (utc_time created)).
  change (utc_date limit +:+ "T" +:+ utc_time limit +:+ "." +:+ pad 3 (limit mod 1000) +:+ "Z")
    with (utc_date limit +:+ String "T" (utc_time limit +:+ "." +:+ pad 3 (limit mod 1000) +:+ "Z")).
  apply text_lt_common_prefix. vm_compute. reflexivity.
Qed.

(** A timestamp of the store against the ISO text of an instant: the
    comparison sees the dates only. *)
Lemma timestamp_lt_iso (created limit : Z) (iso : string) :
  four_digit_instant created -> four_digit_instant limit ->
  toISOString (Num limit) = Returned iso ->
  text_lt (CURRENT_TIMESTAMP created) iso = true
  <-> created / ms_per_day <= limit / ms_per_day.
Proof.
  intros Hc Hl Hiso.
  destruct (civil_four_digits created Hc) as [Hyc Hrc].
  destruct (civil_four_digits limit Hl) as [Hyl Hrl].
  destruct (Z.lt_trichotomy (created / ms_per_day) (limit / ms_per_day)) as [H|[H|H]].
  - split; [lia|intros _].
    unfold toISOString in Hiso. destruct (_ && _); [|discriminate].
    inversion Hiso; subst iso. unfold CURRENT_TIMESTAMP.
    rewrite (utc_date_text created Hc), (utc_date_text limit Hl).
    apply date_text_lt; try assumption. now apply civil_from_days_increasing.
  - split; [lia|intros _]. apply (same_date_compares_older created limit iso Hiso).
    unfold utc_date. now rewrite H.
  - split; [|lia]. intros Hlt. exfalso.
    unfold toISOString in Hiso. destruct (_ && _); [|discriminate].
    inversion Hiso; subst iso. unfold CURRENT_TIMESTAMP in Hlt.
    rewrite (utc_date_text created Hc), (utc_date_text limit Hl) in Hlt.
    rewrite (text_lt_asym _ _ (date_text_lt _ _ _ _ Hyl Hyc Hrl Hrc
               (civil_from_days_increasing _ _ H))) in Hlt.
    discriminate.
Qed.

(** ** Authentication of the webhook *)

Lemma key_rejected_unconfigured (s : gmap string string) (apiKey : option string) :
  s !! "webhook_api_key" = None \/ s !! "webhook_api_key" = Some "" ->
  key_rejected s apiKey = false.
Proof.
  unfold key_rejected. intros [-> | ->]; reflexivity.
Qed.

Lemma key_rejected_inv (s : gmap string string) (apiKey : option string) :
  key_rejected s apiKey = true ->
  exists key, s !! "webhook_api_key" = Some key /\ key <> "" /\ apiKey <> Some key.
Proof.
  unfold key_rejected. destruct (s !! "webhook_api_key") as [key|]; [|discriminate].
  intros H. apply andb_true_iff in H as [Hne Hk]. exists key. split; [reflexivity|].
  split.
  - intros ->. discriminate.
  - apply negb_true_iff in Hk. now apply bool_decide_eq_false in Hk.
Qed.

Lemma process_payment_not_401 (env : webhook_env) (n : notification) (db : database) :
  status_code_of (snd (process_payment env n db)) <> Some 401.
Proof.
  unfold process_payment.
  destruct (extractAmount n) as [[|z|b]|e]; simpl; try discriminate.
  - destruct (find_pending_order NaN db); [|simpl; discriminate].
    destruct (expiresAt _ _); simpl; discriminate.
  - destruct z; simpl; try discriminate;
      (destruct (find_pending_order _ db); [|simpl; discriminate];
       destruct (expiresAt _ _); simpl; discriminate).
  - destruct (find_pending_order _ db); [|simpl; discriminate].
    destruct (expiresAt _ _); simpl; discriminate.
Qed.

(** C10.  When the setting [webhook_api_key] is absent or the empty
    string, the key test lets every request through: with any [x-api-key]
    header or none, the handler does exactly what it does after the test
    (amount extraction and matching) and never answers 401.  A 401
    answer implies that a non-empty key is configured and that the
    header differs from it. *)
Theorem webhook_open_without_configured_key :
  (forall env apiKey n db,
      settings db !! "webhook_api_key" = None \/
      settings db !! "webhook_api_key" = Some "" ->
      webhook_payment env apiKey n db = process_payment env n db /\
      status_code_of (snd (webhook_payment env apiKey n db)) <> Some 401) /\
  (forall env apiKey n db,
      status_code_of (snd (webhook_payment env apiKey n db)) = Some 401 ->
      exists key, settings db !! "webhook_api_key" = Some key /\
                  key <> "" /\ apiKey <> Some key).
Proof.
  split.
  - intros env apiKey n db Hkey.
    assert (webhook_payment env apiKey n db = process_payment env n db) as E.
    { unfold webhook_payment, getSettings.
      now rewrite (key_rejected_unconfigured _ apiKey Hkey). }
    split; [exact E|]. rewrite E. apply process_payment_not_401.
  - intros env apiKey n db H. unfold webhook_payment, getSettings in H.
    destruct (key_rejected (settings db) apiKey) eqn:K.
    + now apply key_rejected_inv.
    + exfalso. exact (process_payment_not_401 env n db H).
Qed.

(** ** Amount extraction *)

Ltac by_cases_on_char c :=
  destruct c as [[] [] [] [] [] [] [] []]; try discriminate; try reflexivity.

Lemma digit_not_space (c : ascii) : is_amount_char c = true -> is_js_space c = false.
Proof. by_cases_on_char c. Qed.

Lemma digit_value_of_digit (c : ascii) :
  is_digit c = true -> digit_value c = Some (code c - 48) /\ 0 <= code c - 48 < 10.
Proof.
  unfold is_digit, digit_value. cbv zeta. intros H. rewrite H.
  apply andb_true_iff in H as [H1 H2]. split; [reflexivity|lia].
Qed.

Lemma read_digits_decimal (s : string) (acc : Z) :
  all_chars is_digit s = true ->
  read_digits 10 s (Some acc) = Some (decimal_from acc s).
Proof.
  revert acc. induction s as [|c s IH]; intros acc H; simpl in *; [reflexivity|].
  apply andb_true_iff in H as [Hc Hs].
  destruct (digit_value_of_digit c Hc) as [-> Hr].
  assert ((code c - 48 <? 10) = true) as -> by lia.
  now rewrite IH.
Qed.

Lemma strip_sign_digit (c : ascii) (s : string) :
  is_digit c = true -> strip_sign (String c s) = (1, String c s).
Proof. by_cases_on_char c. Qed.

(** An integer below 2^53 is its own Number value. *)
Lemma to_number_safe (v : Z) : 0 <= v < 2 ^ 53 -> to_number false v = Num v.
Proof.
  intros Hv. unfold to_number, nearest_double.
  assert ((v <? 2 ^ 53) = true) as -> by (apply Z.ltb_lt; lia).
  assert ((2 ^ 1024 <=? v) = false) as ->; [|reflexivity].
  apply Z.leb_gt. assert (2 ^ 53 < 2 ^ 1024) by (apply Z.pow_lt_mono_r; lia). lia.
Qed.

(** [parseInt] of a non-empty string of decimal digits is the Number
    value of what the digits denote. *)
Lemma parseInt10_digits (s : string) :
  all_chars is_digit s = true -> nonempty s = true ->
  parseInt10_string s = to_number false (decimal_value s).
Proof.
  destruct s as [|c s]; [discriminate|]. intros H _.
  pose proof H as H'. simpl in H'. apply andb_true_iff in H' as [Hc Hs].
  unfold parseInt10_string.
  assert (skip_while is_js_space (String c s) = String c s) as ->.
  { simpl. rewrite digit_not_space; [reflexivity|].
    unfold is_amount_char. now rewrite Hc. }
  rewrite (strip_sign_digit c s Hc).
  cbn [read_digits].
  destruct (digit_value_of_digit c Hc) as [-> Hr].
  assert ((code c - 48 <? 10) = true) as -> by lia.
  rewrite (read_digits_decimal s _ Hs).
  reflexivity.
Qed.

Lemma parseInt10_empty : parseInt10_string "" = NaN.
Proof. reflexivity. Qed.

(** Removing the separators from a run of the pattern's class leaves
    decimal digits only. *)
Lemma remove_separators_digits (body : string) :
  all_chars is_amount_char body = true ->
  all_chars is_digit (remove_chars is_separator body) = true.
Proof.
  induction body as [|c body IH]; simpl; [reflexivity|].
  intros H. apply andb_true_iff in H as [Hc Hb].
  destruct (is_separator c) eqn:Hsep; [now apply IH|].
  simpl. rewrite (IH Hb), andb_true_r.
  unfold is_amount_char in Hc. unfold is_separator in Hsep.
  rewrite <- orb_assoc, Hsep, orb_false_r in Hc. exact Hc.
Qed.

Lemma skip_spaces_app (ws s : string) :
  all_chars is_js_space ws = true -> stops is_js_space s = true ->
  skip_while is_js_space (ws +:+ s) = s.
Proof.
  intros Hws Hs. induction ws as [|c ws IH]; simpl in *.
  - destruct s as [|c s]; [reflexivity|]. simpl in *.
    now apply negb_true_iff in Hs as ->.
  - apply andb_true_iff in Hws as [-> Hws]. now apply IH.
Qed.

Lemma take_amount_app (body rest : string) :
  all_chars is_amount_char body = true -> stops is_amount_char rest = true ->
  take_while is_amount_char (body +:+ rest) = body.
Proof.
  intros Hb Hr. induction body as [|c body IH]; simpl in *.
  - destruct rest as [|c rest]; [reflexivity|]. simpl in *.
    now apply negb_true_iff in Hr as ->.
  - apply andb_true_iff in Hb as [-> Hb]. now rewrite IH.
Qed.

Lemma amount_pattern_here_not_R (c : ascii) (s : string) :
  not_R c = true -> amount_pattern_here (String c s) = None.
Proof. by_cases_on_char c. Qed.

Lemma amount_pattern_unfold (s : string) :
  amount_pattern s =
  match amount_pattern_here s with
  | Some cap => Some cap
  | None => match s with String _ s' => amount_pattern s' | EmptyString => None end
  end.
Proof. destruct s; reflexivity. Qed.

Lemma prefix_cons (a b : ascii) (s1 s2 : string) :
  String.prefix (String a s1) (String b s2)
  = if ascii_dec a b then String.prefix s1 s2 else false.
Proof. reflexivity. Qed.

Lemma prefix_nil_r (a : ascii) (s1 : string) : String.prefix (String a s1) "" = false.
Proof. reflexivity. Qed.

Lemma prefix_nil_l (s : string) : String.prefix "" s = true.
Proof. now destruct s. Qed.

Lemma amount_pattern_here_not_p (c d : ascii) (s : string) :
  d <> "p"%char -> amount_pattern_here (String c (String d s)) = None.
Proof.
  intros Hd. unfold amount_pattern_here.
  destruct c as [[] [] [] [] [] [] [] []]; try reflexivity.
  destruct d as [[] [] [] [] [] [] [] []]; try reflexivity. now elim Hd.
Qed.

Lemma includes_cons (needle : string) (c : ascii) (s : string) :
  includes needle (String c s) = String.prefix needle (String c s) || includes needle s.
Proof. reflexivity. Qed.

(** The pattern finds the first [Rp] that is followed, after optional
    white space, by a run of digits, dots and commas, and captures the
    whole run; what stands before it may be any text without [Rp]. *)
Lemma amount_pattern_finds (pre ws body rest : string) :
  includes "Rp" pre = false ->
  all_chars is_js_space ws = true ->
  all_chars is_amount_char body = true -> nonempty body = true ->
  stops is_amount_char rest = true ->
  amount_pattern (pre +:+ "Rp" +:+ ws +:+ body +:+ rest) = Some body.
Proof.
  intros Hpre Hws Hbody Hne Hrest.
  induction pre as [|c pre IH].
  - change ("" +:+ "Rp" +:+ ws +:+ body +:+ rest)
      with (String "R" (String "p" (ws +:+ body +:+ rest))).
    rewrite amount_pattern_unfold. unfold amount_pattern_here.
    assert (stops is_js_space (body +:+ rest) = true) as Hstop.
    { destruct body as [|c body]; [discriminate|]. simpl in *.
      apply andb_true_iff in Hbody as [Hc _]. now rewrite (digit_not_space c Hc). }
    rewrite (skip_spaces_app ws _ Hws Hstop), (take_amount_app body rest Hbody Hrest).
    now rewrite Hne.
  - rewrite includes_cons in Hpre. apply orb_false_iff in Hpre as [Hhere Hpre].
    change (String c pre +:+ "Rp" +:+ ws +:+ body +:+ rest)
      with (String c (pre +:+ "Rp" +:+ ws +:+ body +:+ rest)).
    rewrite amount_pattern_unfold.
    assert (amount_pattern_here (String c (pre +:+ "Rp" +:+ ws +:+ body +:+ rest)) = None)
      as ->; [|now apply IH].
    destruct pre as [|d pre].
    + change ("" +:+ "Rp" +:+ ws +:+ body +:+ rest)
        with (String "R" (String "p" (ws +:+ body +:+ rest))).
      apply amount_pattern_here_not_p. discriminate.
    + change (String d pre +:+ "Rp" +:+ ws +:+ body +:+ rest)
        with (String d (pre +:+ "Rp" +:+ ws +:+ body +:+ rest)).
      destruct (ascii_dec d "p") as [->|Hd]; [|now apply amount_pattern_here_not_p].
      destruct (ascii_dec c "R") as [->|Hc].
      * exfalso. rewrite !prefix_cons in Hhere.
        destruct (ascii_dec "R" "R") as [_|N]; [|now elim N].
        destruct (ascii_dec "p" "p") as [_|N]; [|now elim N].
        rewrite prefix_nil_l in Hhere. discriminate Hhere.
      * apply amount_pattern_here_not_R. unfold not_R.
        destruct c as [[] [] [] [] [] [] [] []]; try reflexivity. now elim Hc.
Qed.

Lemma find_pending_order_NaN (db : database) : find_pending_order NaN db = None.
Proof.
  unfold find_pending_order.
  assert (List.filter (pending_with_amount NaN) (orders db) = []) as ->; [|reflexivity].
  induction (orders db) as [|o l IH]; [reflexivity|exact IH].
Qed.

Lemma find_pending_order_Infinite (b : bool) (db : database) :
  find_pending_order (Infinite b) db = None.
Proof.
  unfold find_pending_order.
  assert (List.filter (pending_with_amount (Infinite b)) (orders db) = []) as ->;
    [|reflexivity].
  induction (orders db) as [|o l IH]; [reflexivity|exact IH].
Qed.

(** A number of the body below 2^53 in magnitude is read as itself. *)
Lemma parseInt10_safe_integer (z : Z) :
  - 2 ^ 53 < z < 2 ^ 53 -> parseInt10 (JNum z) = Num z.
Proof.
  intros Hz. unfold parseInt10.
  assert (to_number (z <? 0) (Z.abs z) = Num z) as ->.
  { unfold to_number, nearest_double.
    assert ((Z.abs z <? 2 ^ 53) = true) as -> by (apply Z.ltb_lt; lia).
    assert ((2 ^ 1024 <=? Z.abs z) = false) as ->.
    { apply Z.leb_gt. assert (2 ^ 53 < 2 ^ 1024) by (apply Z.pow_lt_mono_r; lia). lia. }
    destruct (z <? 0) eqn:Hs; f_equal; lia. }
  assert ((Z.abs z <? 10 ^ 21) = true) as ->; [|reflexivity].
  apply Z.ltb_lt. assert (2 ^ 53 < 10 ^ 21) by reflexivity. lia.
Qed.

(** What the extraction of the webhook reads, field by field.  It
    reads [amountDetected] when it is true, else [amount] when it is
    true, and only then the text, where the first run of digits, dots
    and commas after an [Rp] is read with the dots and commas removed;
    with none of the three the amount is 0.  What is read is a Number:
    itself below 2^53, the nearest double above.  When extraction ends
    with 0, [NaN] or an infinity, an authenticated request is answered
    200 with status "success" and the store is left as it was; when the
    text is true and no string, the callback throws and nothing is
    answered. *)
Theorem webhook_amount_extraction :
  (forall n, truthy (amountDetected n) = true ->
             extractAmount n = Returned (parseInt10 (amountDetected n))) /\
  (forall n, truthy (amountDetected n) = false -> truthy (amount n) = true ->
             extractAmount n = Returned (parseInt10 (amount n))) /\
  (forall z, - 2 ^ 53 < z < 2 ^ 53 -> parseInt10 (JNum z) = Num z) /\
  (forall digits, all_chars is_digit digits = true -> nonempty digits = true ->
                  parseInt10 (JStr digits) = to_number false (decimal_value digits) /\
                  (decimal_value digits < 2 ^ 53 ->
                   parseInt10 (JStr digits) = Num (decimal_value digits))) /\
  (forall n pre ws body rest,
      truthy (amountDetected n) = false -> truthy (amount n) = false ->
      text n = JStr (pre +:+ "Rp" +:+ ws +:+ body +:+ rest) ->
      includes "Rp" pre = false -> all_chars is_js_space ws = true ->
      all_chars is_amount_char body = true -> nonempty body = true ->
      stops is_amount_char rest = true ->
      let digits := remove_chars is_separator body in
      extractAmount n =
        Returned (if nonempty digits then to_number false (decimal_value digits)
                  else NaN)) /\
  (forall n, truthy (amountDetected n) = false -> truthy (amount n) = false ->
             truthy (text n) = false -> extractAmount n = Returned (Num 0)) /\
  (forall env apiKey n db,
      key_rejected (getSettings db) apiKey = false ->
      (extractAmount n = Returned (Num 0) \/ extractAmount n = Returned NaN \/
       exists b, extractAmount n = Returned (Infinite b)) ->
      exists message,
        webhook_payment env apiKey n db = (db, Json 200 "success" message None)) /\
  (forall env apiKey n db,
      key_rejected (getSettings db) apiKey = false ->
      truthy (amountDetected n) = false -> truthy (amount n) = false ->
      truthy (text n) = true -> (forall s, text n <> JStr s) ->
      webhook_payment env apiKey n db
      = (db, Uncaught "TypeError: notification.text.match is not a function")).
Proof.
  assert (forall digits, all_chars is_digit digits = true -> 0 <= decimal_value digits)
    as Hpos.
  { intros digits. unfold decimal_value.
    assert (forall acc, 0 <= acc -> all_chars is_digit digits = true ->
                        0 <= decimal_from acc digits) as Hacc.
    { induction digits as [|c digits IH]; intros acc Hacc Hd; [exact Hacc|].
      cbn [all_chars] in Hd. apply andb_true_iff in Hd as [Hc Hd]. cbn [decimal_from].
      apply IH; [|exact Hd]. destruct (digit_value_of_digit c Hc) as [_ Hr]. lia. }
    apply Hacc. lia. }
  split; [|split; [|split; [|split; [|split; [|split; [|split]]]]]].
  - intros n H. unfold extractAmount. now rewrite H.
  - intros n H1 H2. unfold extractAmount. now rewrite H1, H2.
  - exact parseInt10_safe_integer.
  - intros digits Hd Hne. cbn [parseInt10]. rewrite (parseInt10_digits digits Hd Hne).
    split; [reflexivity|]. intros Hsmall. apply to_number_safe.
    split; [now apply Hpos|exact Hsmall].
  - intros n pre ws body rest H1 H2 Ht Hpre Hws Hbody Hne Hrest digits.
    unfold extractAmount. rewrite H1, H2, Ht.
    assert (truthy (JStr (pre +:+ "Rp" +:+ ws +:+ body +:+ rest)) = true) as ->.
    { destruct pre; reflexivity. }
    rewrite (amount_pattern_finds pre ws body rest Hpre Hws Hbody Hne Hrest).
    fold digits. destruct (nonempty digits) eqn:Hd.
    + now rewrite (parseInt10_digits digits (remove_separators_digits body Hbody) Hd).
    + destruct digits; [reflexivity|discriminate].
  - intros n H1 H2 H3. unfold extractAmount. now rewrite H1, H2, H3.
  - intros env apiKey n db Hkey Hamount.
    unfold webhook_payment, process_payment. rewrite Hkey.
    destruct Hamount as [-> |[-> |(b & ->)]].
    + now exists "No amount detected".
    + rewrite find_pending_order_NaN. now exists "No matching order".
    + rewrite find_pending_order_Infinite. now exists "No matching order".
  - intros env apiKey n db Hkey H1 H2 H3 Hstr.
    unfold webhook_payment, process_payment, extractAmount.
    rewrite Hkey, H1, H2, H3.
    destruct (text n) as [| |b|z|s]; try reflexivity. now elim (Hstr s).
Qed.

(** C9.  A body whose [text] is a number and that has no
    [amountDetected] and no [amount]: no amount is extracted, and the
    request is not accepted.  The callback throws at [text.match], so
    nothing is answered; the store is left as it was. *)
Theorem webhook_text_not_a_string_is_not_accepted :
  let n := mkNotification JUndefined JUndefined (JNum 50123) in
  extractAmount n = Thrown "TypeError: notification.text.match is not a function" /\
  webhook_payment SampleWebhook.at_noon (Some "secret") n SampleWebhook.single_db
  = (SampleWebhook.single_db,
     Uncaught "TypeError: notification.text.match is not a function").
Proof. split; reflexivity. Qed.

(** ** The payment matcher *)

Lemma latest_In (rows : list Order.row) (o : Order.row) :
  latest rows = Some o -> In o rows.
Proof.
  revert o. induction rows as [|x rows IH]; intros o H; simpl in *; [discriminate|].
  destruct (latest rows) as [o'|] eqn:E.
  - destruct (text_lt (Order.created_at x) (Order.created_at o')); inversion H; subst.
    + right. now apply IH.
    + now left.
  - inversion H. now left.
Qed.

Lemma latest_None (rows : list Order.row) : latest rows = None -> rows = [].
Proof.
  destruct rows as [|x rows]; [reflexivity|]. simpl.
  destruct (latest rows) as [o'|]; [|discriminate].
  destruct (text_lt _ _); discriminate.
Qed.

(** No row has a later [created_at] than the one that [latest] returns. *)
Lemma latest_max (rows : list Order.row) (o : Order.row) :
  latest rows = Some o ->
  forall x, In x rows -> text_lt (Order.created_at o) (Order.created_at x) = false.
Proof.
  revert o. induction rows as [|y rows IH]; intros o H x Hx; simpl in *; [contradiction|].
  destruct (latest rows) as [o'|] eqn:E.
  - specialize (IH o' eq_refl).
    destruct (text_lt (Order.created_at y) (Order.created_at o')) eqn:Hlt;
      inversion H; subst; clear H.
    + destruct Hx as [<-|Hx]; [now apply text_lt_asym|now apply IH].
    + destruct Hx as [<-|Hx]; [apply text_lt_irrefl|].
      exact (text_not_lt_trans _ _ _ Hlt (IH x Hx)).
  - inversion H; subst. apply latest_None in E. subst rows.
    destruct Hx as [<-|[]]. apply text_lt_irrefl.
Qed.

Lemma find_pending_order_spec (a : Z) (db : database) (o : Order.row) :
  find_pending_order (Num a) db = Some o ->
  In o (orders db) /\ Order.total_amount o = a /\ Order.status o = "pending" /\
  forall o', In o' (orders db) -> Order.total_amount o' = a ->
             Order.status o' = "pending" ->
             text_lt (Order.created_at o) (Order.created_at o') = false.
Proof.
  unfold find_pending_order. intros H.
  pose proof (latest_In _ _ H) as Hin. apply filter_In in Hin as [Hin Hq].
  simpl in Hq. apply andb_true_iff in Hq as [Ha Hs].
  apply Z.eqb_eq in Ha. apply String.eqb_eq in Hs.
  repeat split; try assumption.
  intros o' Hin' Ha' Hs'. apply (latest_max _ _ H). apply filter_In. split; [assumption|].
  simpl. rewrite Ha', Hs', Z.eqb_refl. reflexivity.
Qed.

Lemma find_pending_order_none (a : jsnumber) (db : database) :
  find_pending_order a db = None ->
  forall o, In o (orders db) -> pending_with_amount a o = false.
Proof.
  unfold find_pending_order. intros H o Hin. apply latest_None in H.
  destruct (pending_with_amount a o) eqn:E; [|reflexivity].
  assert (In o (List.filter (pending_with_amount a) (orders db))) as Hf
      by (apply filter_In; now split).
  rewrite H in Hf. contradiction.
Qed.

Lemma pay_rows_other (now : Z) (invoice : string) (rows : list Order.row) :
  ~ In invoice (map Order.invoice_number rows) ->
  map (pay_row now invoice) rows = rows.
Proof.
  induction rows as [|x rows IH]; simpl; [reflexivity|]. intros H.
  unfold pay_row at 1.
  destruct (String.eqb_spec (Order.invoice_number x) invoice) as [Heq|_].
  - exfalso. apply H. now left.
  - rewrite IH; [reflexivity|]. intros Hin. apply H. now right.
Qed.

(** With invoice numbers unique, the UPDATE rewrites the one row of the
    order that was found and nothing else. *)
Lemma mark_paid_one_row (now : Z) (before after : list Order.row) (o : Order.row) :
  List.NoDup (map Order.invoice_number (before ++ o :: after)) ->
  map (pay_row now (Order.invoice_number o)) (before ++ o :: after)
  = before ++ paid now o :: after.
Proof.
  intros Hnd. rewrite map_app in Hnd. simpl in Hnd.
  pose proof (NoDup_remove_2 _ _ _ Hnd) as Hnot.
  rewrite map_app. simpl. unfold pay_row at 2. rewrite String.eqb_refl.
  rewrite !pay_rows_other; [reflexivity| |];
    intros Hin; apply Hnot; apply in_or_app; [now right|now left].
Qed.

Lemma orders_insert_token now expires tok invoice pid db :
  orders (insert_token now expires tok invoice pid db) = orders db.
Proof. unfold insert_token. now destruct (List.existsb _ _). Qed.

Lemma products_insert_token now expires tok invoice pid db :
  products (insert_token now expires tok invoice pid db) = products db.
Proof. unfold insert_token. now destruct (List.existsb _ _). Qed.

Lemma settings_insert_token now expires tok invoice pid db :
  settings (insert_token now expires tok invoice pid db) = settings db.
Proof. unfold insert_token. now destruct (List.existsb _ _). Qed.

(** What a delivery does once an amount other than 0 has been read. *)
Lemma process_payment_amount (env : webhook_env) (n : notification) (db : database)
    (a : jsnumber) :
  extractAmount n = Returned a -> a <> Num 0 ->
  process_payment env n db =
  match find_pending_order a db with
  | None => (db, Json 200 "success" "No matching order" None)
  | Some order =>
      let db2 := decrease_stock (Order.product_id order)
                   (mark_paid (w_now env) (Order.invoice_number order) db) in
      match expiresAt (w_now env) (expiryMinutes (getSettings db)) with
      | Thrown e => (db, Uncaught e)
      | Returned expires =>
          (insert_token (w_now env) expires (w_token env)
                        (Order.invoice_number order) (Order.product_id order) db2,
           Json 200 "success" "Payment processed" (Some (Order.invoice_number order)))
      end
  end.
Proof.
  intros E Ha. unfold process_payment. rewrite E.
  destruct a as [|[| |]|b]; try reflexivity. congruence.
Qed.

Lemma orders_after_match (env : webhook_env) (n : notification) (db : database)
    (a : jsnumber) (order : Order.row) (expires : Z) :
  extractAmount n = Returned a -> a <> Num 0 ->
  find_pending_order a db = Some order ->
  expiresAt (w_now env) (expiryMinutes (getSettings db)) = Returned expires ->
  orders (fst (process_payment env n db))
  = map (pay_row (w_now env) (Order.invoice_number order)) (orders db).
Proof.
  intros E Ha F X. rewrite (process_payment_amount env n db a E Ha), F. cbv zeta.
  rewrite X. simpl. apply orders_insert_token.
Qed.

(** The matcher at work.  Let the amount [a] be extracted from a
    notification, and let the expiry of the new token be computable
    (the setting [token_expiry_minutes] is absent, empty or a number
    that gives a valid date).  Then the matcher either finds no pending
    order whose [total_amount] is [a] and leaves the store alone, or it
    selects one order: its [total_amount] is [a], its status is
    'pending', no other such order has a later [created_at] (as texts,
    and so, for timestamps that the store wrote, none was created in a
    later second), and that row alone is rewritten, to status 'paid'
    with [paid_at] set to the current timestamp. *)
Theorem payment_matcher_selects_latest_pending
    (env : webhook_env) (apiKey : option string) (n : notification)
    (db : database) (a expires : Z) :
  List.NoDup (map Order.invoice_number (orders db)) ->
  key_rejected (getSettings db) apiKey = false ->
  extractAmount n = Returned (Num a) -> a <> 0 ->
  expiresAt (w_now env) (expiryMinutes (getSettings db)) = Returned expires ->
  let db' := fst (webhook_payment env apiKey n db) in
  ((forall o, In o (orders db) ->
              ~ (Order.total_amount o = a /\ Order.status o = "pending")) /\ db' = db)
  \/
  (exists before o after,
      orders db = before ++ o :: after /\
      Order.total_amount o = a /\ Order.status o = "pending" /\
      (forall o', In o' (orders db) -> Order.total_amount o' = a ->
                  Order.status o' = "pending" ->
                  text_lt (Order.created_at o) (Order.created_at o') = false) /\
      (forall o' c c', In o' (orders db) -> Order.total_amount o' = a ->
                       Order.status o' = "pending" ->
                       four_digit_instant c -> four_digit_instant c' ->
                       Order.created_at o = CURRENT_TIMESTAMP c ->
                       Order.created_at o' = CURRENT_TIMESTAMP c' ->
                       c' / 1000 <= c / 1000) /\
      orders db' = before ++ paid (w_now env) o :: after /\
      Order.status (paid (w_now env) o) = "paid" /\
      Order.paid_at (paid (w_now env) o) = Some (CURRENT_TIMESTAMP (w_now env))).
Proof.
  intros Hnd Hkey E Ha X db'. subst db'. unfold webhook_payment. rewrite Hkey.
  assert (Num a <> Num 0) as Ha' by congruence.
  destruct (find_pending_order (Num a) db) as [o|] eqn:F.
  - right. destruct (find_pending_order_spec a db o F) as (Hin & Htot & Hst & Hmax).
    destruct (in_split _ _ Hin) as (before & after & Hsplit).
    exists before, o, after. repeat split; try assumption.
    + intros o' c c' Hin' Htot' Hst' Hc Hc' Ec Ec'.
      specialize (Hmax o' Hin' Htot' Hst'). rewrite Ec, Ec' in Hmax.
      destruct (Z_lt_le_dec (c / 1000) (c' / 1000)) as [Hlt|Hle]; [|exact Hle].
      rewrite (timestamp_lt c c' Hc Hc' Hlt) in Hmax. discriminate.
    + rewrite (orders_after_match env n db (Num a) o expires E Ha' F X), Hsplit.
      apply mark_paid_one_row. now rewrite <- Hsplit.
  - left. split.
    + intros o Hin [Htot Hst].
      pose proof (find_pending_order_none (Num a) db F o Hin) as Hq.
      simpl in Hq. rewrite Htot, Hst, Z.eqb_refl in Hq. discriminate Hq.
    + now rewrite (process_payment_amount env n db (Num a) E Ha'), F.
Qed.

(** C1.  A store whose setting [token_expiry_minutes] is the text "abc"
    and that holds one pending order of total 50123; a delivery with
    the right key reports the amount 50123.  The amount is extracted
    and the order qualifies, but it is not transitioned: the expiry of
    the token cannot be computed, the callback throws before the
    UPDATEs it has queued are run, nothing is answered and the store
    is as it was, the order still 'pending'. *)
Theorem payment_lost_on_unreadable_expiry_setting :
  let db := SampleWebhook.bad_expiry_db in
  let r := webhook_payment SampleWebhook.at_noon (Some "secret") Sample.payment_50123 db in
  extractAmount Sample.payment_50123 = Returned (Num 50123) /\
  map (fun o => (Order.total_amount o, Order.status o)) (orders db)
  = [(50123, "pending")] /\
  getSetting "token_expiry_minutes" db = Some "abc" /\
  r = (db, Uncaught "RangeError: Invalid time value") /\
  map Order.status (orders (fst r)) = ["pending"].
Proof. repeat split. Qed.

(** ** A repeated delivery *)

Lemma settings_after_webhook env apiKey n db :
  settings (fst (webhook_payment env apiKey n db)) = settings db.
Proof.
  unfold webhook_payment, process_payment.
  destruct (key_rejected _ _); [reflexivity|].
  destruct (extractAmount n) as [[|z|b]|e]; try reflexivity.
  - destruct (find_pending_order NaN db); [|reflexivity].
    destruct (expiresAt _ _); simpl; [now rewrite settings_insert_token|reflexivity].
  - destruct z; try reflexivity;
      (destruct (find_pending_order _ db); [|reflexivity];
       destruct (expiresAt _ _); simpl; [now rewrite settings_insert_token|reflexivity]).
  - destruct (find_pending_order _ db); [|reflexivity].
    destruct (expiresAt _ _); simpl; [now rewrite settings_insert_token|reflexivity].
Qed.

Lemma paid_not_pending (now : Z) (a : jsnumber) (o : Order.row) :
  pending_with_amount a (paid now o) = false.
Proof. destruct a; simpl; [reflexivity| |reflexivity]. apply andb_false_r. Qed.

(** After the UPDATE no row qualifies any more, provided the rows that
    qualified all carried the invoice number that was paid. *)
Lemma no_pending_after_pay (now : Z) (a : jsnumber) (invoice : string)
    (rows : list Order.row) :
  (forall o, In o rows -> pending_with_amount a o = true ->
             Order.invoice_number o = invoice) ->
  List.filter (pending_with_amount a) (map (pay_row now invoice) rows) = [].
Proof.
  induction rows as [|x rows IH]; intros H; simpl; [reflexivity|].
  rewrite IH by (intros o Ho; apply H; now right).
  unfold pay_row. destruct (String.eqb_spec (Order.invoice_number x) invoice) as [Heq|Hne].
  - now rewrite paid_not_pending.
  - destruct (pending_with_amount a x) eqn:E; [|reflexivity].
    exfalso. apply Hne. apply H; [now left|assumption].
Qed.

(** The counterexample to C2 as stated: with two pending orders of the
    same total, the second delivery of the same payload pays the other
    order, takes one more unit of stock and adds a second token. *)
Lemma second_delivery_pays_twin_order :
  let first := webhook_payment (mkWebhookEnv Sample.noon "tok-1") (Some "secret")
                 Sample.payment_50123 Sample.twin_db in
  let second := webhook_payment (mkWebhookEnv (Sample.noon + 1000) "tok-2") (Some "secret")
                  Sample.payment_50123 (fst first) in
  snd first = Json 200 "success" "Payment processed" (Some "INV-0002") /\
  map Order.status (orders (fst first)) = ["pending"; "paid"] /\
  snd second = Json 200 "success" "Payment processed" (Some "INV-0001") /\
  map Order.status (orders (fst second)) = ["paid"; "paid"] /\
  map Product.stock (products (fst first)) = [4] /\
  map Product.stock (products (fst second)) = [3] /\
  map Token.token (download_tokens (fst first)) = ["tok-1"] /\
  map Token.token (download_tokens (fst second)) = ["tok-1"; "tok-2"].
Proof. vm_compute. repeat split. Qed.

(** C2, amended.  When the first delivery paid an order and no other
    pending order had the same [total_amount], a second delivery of the
    same payload changes nothing: the store is returned as it was (no
    status, stock or token changes) and the answer is "No matching
    order". *)
Theorem second_delivery_is_noop
    (env1 env2 : webhook_env) (apiKey : option string) (n : notification)
    (db : database) (a : jsnumber) (invoice : string) :
  extractAmount n = Returned a ->
  (forall o1 o2, In o1 (orders db) -> In o2 (orders db) ->
                 pending_with_amount a o1 = true -> pending_with_amount a o2 = true ->
                 Order.invoice_number o1 = Order.invoice_number o2) ->
  snd (webhook_payment env1 apiKey n db)
  = Json 200 "success" "Payment processed" (Some invoice) ->
  let db1 := fst (webhook_payment env1 apiKey n db) in
  webhook_payment env2 apiKey n db1
  = (db1, Json 200 "success" "No matching order" None).
Proof.
  intros E Huniq Hfirst db1.
  assert (key_rejected (getSettings db) apiKey = false) as Hkey.
  { unfold webhook_payment in Hfirst.
    destruct (key_rejected (getSettings db) apiKey); [discriminate|reflexivity]. }
  assert (a <> Num 0) as Ha.
  { intros ->. unfold webhook_payment, process_payment in Hfirst.
    rewrite Hkey, E in Hfirst. discriminate. }
  assert (exists order expires,
            find_pending_order a db = Some order /\
            Order.invoice_number order = invoice /\
            expiresAt (w_now env1) (expiryMinutes (getSettings db)) = Returned expires)
    as (order & expires & F & Hinv & X).
  { unfold webhook_payment in Hfirst.
    rewrite Hkey, (process_payment_amount env1 n db a E Ha) in Hfirst.
    destruct (find_pending_order a db) as [order|]; [|discriminate].
    cbv zeta in Hfirst.
    destruct (expiresAt _ _) as [expires|] eqn:X; simpl in Hfirst; [|discriminate].
    exists order, expires. split; [reflexivity|]. split; [congruence|reflexivity]. }
  assert (orders db1 = map (pay_row (w_now env1) invoice) (orders db)) as Horders.
  { subst db1 invoice. unfold webhook_payment. rewrite Hkey.
    exact (orders_after_match env1 n db a order expires E Ha F X). }
  assert (find_pending_order a db1 = None) as F1.
  { unfold find_pending_order. rewrite Horders, no_pending_after_pay; [reflexivity|].
    intros o Ho Hq. rewrite <- Hinv. apply Huniq; try assumption.
    - apply latest_In in F. now apply filter_In in F as [? _].
    - apply latest_In in F. now apply filter_In in F as [_ ?]. }
  unfold webhook_payment.
  assert (getSettings db1 = getSettings db) as -> by apply settings_after_webhook.
  rewrite Hkey, (process_payment_amount env2 n db1 a E Ha), F1. reflexivity.
Qed.

(** ** Invariants of the store *)

Section Runs.
Context `{Sanitize}.

Lemma run_cons (e : event) (es : list event) (db : database) :
  run (e :: es) db = run es (step e db).
Proof. reflexivity. Qed.

(** An invariant of single steps is an invariant of runs. *)
Lemma run_invariant (P : database -> Prop) :
  (forall e db, P db -> P (step e db)) ->
  forall es db, P db -> P (run es db).
Proof.
  intros Hstep es. induction es as [|e es IH]; intros db Hdb; [exact Hdb|].
  rewrite run_cons. apply IH, Hstep, Hdb.
Qed.

Lemma checkout_cases (env : creation_env) (req : checkout_request) (db : database) :
  fst (checkout env req db) = db \/
  exists p email whatsapp telegram,
    active_product (productId req) db = Some p /\
    fst (checkout env req db)
    = set_orders db (orders db ++ [new_order env (getSettings db) p email whatsapp telegram]).
Proof.
  unfold checkout.
  destruct (negb (nonempty (sanitizeEmail (customer_email req)))); [now left|].
  destruct (active_product (productId req) db) as [p|] eqn:Hp; [|now left].
  destruct (Product.stock p <=? 0); [now left|].
  unfold insert_order. destruct (List.existsb _ _); [now left|].
  right. now eexists p, _, _, _.
Qed.

Lemma createOrder_cases (env : creation_env) (p : Product.row)
    (email whatsapp : string) (db : database) :
  fst (createOrder env p email whatsapp db) = db \/
  fst (createOrder env p email whatsapp db)
  = set_orders db (orders db ++ [new_order env (getSettings db) p
                                   (or_null email) (or_null whatsapp) None]).
Proof.
  unfold createOrder, insert_order. destruct (List.existsb _ _); [now left|now right].
Qed.

Lemma webhook_cases (env : webhook_env) (apiKey : option string) (n : notification)
    (db : database) :
  fst (webhook_payment env apiKey n db) = db \/
  exists order,
    In order (orders db) /\
    orders (fst (webhook_payment env apiKey n db))
    = map (pay_row (w_now env) (Order.invoice_number order)) (orders db) /\
    products (fst (webhook_payment env apiKey n db))
    = map (decrease_row (Order.product_id order)) (products db).
Proof.
  unfold webhook_payment. destruct (key_rejected _ _); [now left|].
  destruct (extractAmount n) as [a|e] eqn:E; [|unfold process_payment; rewrite E; now left].
  assert (a = Num 0 \/ a <> Num 0) as [->|Ha]
      by (destruct a as [|[| |]|b]; [right|left|right|right|right]; congruence);
    [unfold process_payment; rewrite E; now left|].
  rewrite (process_payment_amount env n db a E Ha).
  destruct (find_pending_order a db) as [order|] eqn:F; [|now left].
  cbv zeta. destruct (expiresAt _ _); [|now left].
  right. exists order. split.
  - apply latest_In in F. now apply filter_In in F as [? _].
  - simpl. rewrite orders_insert_token, products_insert_token. now split.
Qed.



(** The row of a new order: the price is the product's, the total is
    the price plus the unique code. *)
Lemma new_order_total env s p email whatsapp telegram :
  let o := new_order env s p email whatsapp telegram in
  Order.product_price o = Product.price p /\
  Order.unique_code o = generateUniqueCode (c_entropy env) /\
  Order.total_amount o = Product.price p + generateUniqueCode (c_entropy env) /\
  Order.status o = "pending".
Proof. repeat split. Qed.



Lemma decrease_row_stock_ok pid p : stock_ok p -> stock_ok (decrease_row pid p).
Proof.
  unfold stock_ok, decrease_row.
  destruct (String.eqb _ _ && (0 <? Product.stock p)) eqn:E; [|trivial].
  apply andb_true_iff in E as [_ E]. simpl. lia.
Qed.

(** The decrement takes at most one unit and never takes a stock that
    is zero or more below zero. *)
Lemma decrease_row_floor pid p :
  Z.min 0 (Product.stock p) <= Product.stock (decrease_row pid p) <= Product.stock p.
Proof.
  unfold decrease_row.
  destruct (String.eqb _ _ && (0 <? Product.stock p)) eqn:E; [|lia].
  apply andb_true_iff in E as [_ E]. simpl. lia.
Qed.

Lemma step_stock_ok (e : event) (db : database) :
  Forall stock_ok (products db) -> Forall stock_ok (products (step e db)).
Proof.
  intros Hdb. destruct e as [env req|env p email whatsapp|env apiKey n|now|now tok]; simpl.
  - now destruct (checkout_cases env req db) as [->|(p & em & wa & tg & _ & ->)].
  - now destruct (createOrder_cases env p email whatsapp db) as [->| ->].
  - destruct (webhook_cases env apiKey n db) as [->|(order & _ & _ & ->)]; [exact Hdb|].
    rewrite List.Forall_map. eapply List.Forall_impl; [|exact Hdb].
    intros p. apply decrease_row_stock_ok.
  - unfold cleanupExpiredOrders. now destruct (toISOString _).
  - unfold download. destruct (head _) as [[[dt o] p]|]; [|exact Hdb].
    destruct (_ <? _); [exact Hdb|]. destruct (negb _); exact Hdb.
Qed.

End Runs.



(** C6.  Stock never goes below zero: the decrement of a payment match
    applies only to a row with [stock > 0], so when no product has a
    negative stock, none has one after any list of payments and other
    events. *)
Theorem stock_never_negative `{Sanitize} (es : list event) (db : database) :
  Forall stock_ok (products db) -> Forall stock_ok (products (run es db)).
Proof.
  revert db. apply (run_invariant (fun d => Forall stock_ok (products d))).
  apply step_stock_ok.
Qed.

Lemma stock_never_negative_witness :
  Forall stock_ok (products SampleRun.shop) /\
  Forall stock_ok (products (@run passthrough SampleRun.history SampleRun.shop)).
Proof.
  assert (Forall stock_ok (products SampleRun.shop)) as Hshop
      by (simpl; constructor; [unfold stock_ok; simpl; lia|constructor]).
  split; [exact Hshop|].
  exact (@stock_never_negative passthrough SampleRun.history SampleRun.shop Hshop).
Defined.

(** ** Redemption of download tokens *)

Lemma download_joined (now : Z) (tok : string) (db : database)
    (dt : Token.row) (o : Order.row) (p : Product.row) :
  head (token_join tok db) = Some (dt, o, p) ->
  download now tok db =
  if Token.expires_at dt <? now then (db, RedirectExpired)
  else if negb (String.eqb (Order.status o) "paid")
       then (db, Forbidden "Order is not paid yet")
       else (count_download now tok db, deliver p).
Proof. intros Hj. unfold download. now rewrite Hj. Qed.

Lemma filter_map_same {A : Type} (f : A -> bool) (g : A -> A) (l : list A) :
  (forall x, f (g x) = f x) ->
  List.filter f (map g l) = map g (List.filter f l).
Proof.
  intros Hfg. induction l as [|x l IH]; simpl; [reflexivity|].
  rewrite Hfg, IH. now destruct (f x).
Qed.

Lemma map_flat_map {A B C : Type} (f : B -> C) (g : A -> list B) (l : list A) :
  map f (flat_map g l) = flat_map (fun x => map f (g x)) l.
Proof.
  induction l as [|x l IH]; simpl; [reflexivity|]. now rewrite map_app, IH.
Qed.

(** Counting a download rewrites the token component of the joined
    rows and leaves their number, order and other components alone. *)
Lemma token_join_count_download (now : Z) (tok tok' : string) (db : database) :
  token_join tok' (count_download now tok db)
  = map (counted now tok) (token_join tok' db).
Proof.
  unfold token_join, count_download. simpl.
  rewrite filter_map_same
    by (intros t; unfold count_row; now destruct (String.eqb (Token.token t) tok)).
  induction (List.filter (fun dt => String.eqb (Token.token dt) tok') (download_tokens db))
    as [|dt l IH]; simpl; [reflexivity|].
  rewrite map_app, IH. f_equal.
  assert (Token.invoice_number (count_row now tok dt) = Token.invoice_number dt) as ->
      by (unfold count_row; now destruct (String.eqb _ _)).
  assert (Token.product_id (count_row now tok dt) = Token.product_id dt) as ->
      by (unfold count_row; now destruct (String.eqb _ _)).
  rewrite map_flat_map. apply flat_map_ext. intros o. now rewrite map_map.
Qed.

Lemma expires_at_count_row now tok dt :
  Token.expires_at (count_row now tok dt) = Token.expires_at dt.
Proof. unfold count_row. now destruct (String.eqb _ _). Qed.

(** A redemption, whatever token it is for and however it ends, keeps
    the row that another token joins to, up to the counters. *)
Lemma download_keeps_join (now' : Z) (tok' tok : string) (db : database)
    (dt : Token.row) (o : Order.row) (p : Product.row) :
  head (token_join tok db) = Some (dt, o, p) ->
  exists dt', head (token_join tok (fst (download now' tok' db))) = Some (dt', o, p) /\
              Token.expires_at dt' = Token.expires_at dt.
Proof.
  intros Hj. unfold download.
  destruct (head (token_join tok' db)) as [[[dt1 o1] p1]|]; [|now exists dt].
  destruct (_ <? _); [now exists dt|]. destruct (negb _); [now exists dt|].
  simpl. rewrite token_join_count_download.
  destruct (token_join tok db) as [|r l]; [discriminate|].
  simpl in *. inversion Hj; subst r. simpl.
  exists (count_row now' tok' dt). split; [reflexivity|apply expires_at_count_row].
Qed.

Lemma redeem_all_keeps_join (prior : list (Z * string)) (tok : string) (db : database)
    (dt : Token.row) (o : Order.row) (p : Product.row) :
  head (token_join tok db) = Some (dt, o, p) ->
  exists dt', head (token_join tok (redeem_all prior db)) = Some (dt', o, p) /\
              Token.expires_at dt' = Token.expires_at dt.
Proof.
  revert db dt. induction prior as [|[now' tok'] prior IH]; intros db dt Hj.
  - now exists dt.
  - destruct (download_keeps_join now' tok' tok db dt o p Hj) as (dt1 & Hj1 & He1).
    destruct (IH _ dt1 Hj1) as (dt' & Hj' & He'). exists dt'. split; [exact Hj'|congruence].
Qed.

(** The counterexample to C7 as stated: a token that is bound to a
    pending order and is past its expiry is answered with the expired
    redirect, not with the forbidden answer. *)
Lemma expired_token_of_unpaid_order_is_expired :
  (exists dt o p,
      head (token_join "tok-1" SampleToken.unpaid_db) = Some (dt, o, p) /\
      Order.status o = "pending") /\
  download (Sample.noon + 1) "tok-1" SampleToken.unpaid_db
  = (SampleToken.unpaid_db, RedirectExpired).
Proof.
  split; [|reflexivity]. eexists _, _, _. split; reflexivity.
Qed.

(** C8.  Let the token join to a row with expiry [expires_at].  After
    any list of earlier redemptions, successful or not: a redemption
    later than [expires_at] gets the expired redirect and changes
    nothing; a redemption not later than [expires_at], the order being
    'paid', is served (the deliverable of the product), whatever the
    counters of the token say by then. *)
Theorem redemption_depends_on_expiry_only
    (prior : list (Z * string)) (now : Z) (tok : string) (db : database)
    (dt : Token.row) (o : Order.row) (p : Product.row) :
  head (token_join tok db) = Some (dt, o, p) ->
  let db' := redeem_all prior db in
  (Token.expires_at dt < now -> download now tok db' = (db', RedirectExpired)) /\
  (now <= Token.expires_at dt -> Order.status o = "paid" ->
   download now tok db' = (count_download now tok db', deliver p)).
Proof.
  intros Hj db'.
  destruct (redeem_all_keeps_join prior tok db dt o p Hj) as (dt' & Hj' & He).
  fold db' in Hj'. rewrite (download_joined now tok db' dt' o p Hj'), He.
  split.
  - intros Hlate. now apply Z.ltb_lt in Hlate as ->.
  - intros Hearly Hpaid. assert ((Token.expires_at dt <? now) = false) as -> by lia.
    now rewrite Hpaid.
Qed.

(** ** Checkout *)

Lemma fresh_invoice_not_found (invoice : string) (rows : list Order.row) :
  (forall o, In o rows -> Order.invoice_number o <> invoice) ->
  List.existsb (fun o' => String.eqb (Order.invoice_number o') invoice) rows = false.
Proof.
  intros Hfresh. induction rows as [|x rows IH]; simpl; [reflexivity|].
  rewrite IH by (intros o Ho; apply Hfresh; now right).
  rewrite orb_false_r. apply String.eqb_neq. apply Hfresh. now left.
Qed.

(** The counterexample to C4 as stated: the product exists, is active
    and in stock, a phone number and a chat handle are given, and the
    web checkout refuses the request because the email is missing. *)
Lemma checkout_without_email_is_rejected :
  active_product (productId SampleCheckout.without_email) SampleRun.shop = Some Sample.ebook /\
  0 < Product.stock Sample.ebook /\
  @sanitizePhone passthrough (customer_whatsapp SampleCheckout.without_email) <> "" /\
  @checkout passthrough SampleCheckout.env SampleCheckout.without_email SampleRun.shop
  = (SampleRun.shop, SendStatus 400 "Email is required").
Proof.
  split; [reflexivity|]. split; [reflexivity|]. split; [discriminate|reflexivity].
Qed.

(** C4, amended.  For a checkout request that names an existing, active,
    in-stock product, with an invoice number not yet in the ledger: when
    the email is non-empty after sanitization, the web checkout adds one
    order in status 'pending' and shows it, whether or not a phone or
    chat handle is given; when the email is empty after sanitization it
    answers 400 "Email is required" and adds nothing, whatever the other
    two channels hold. *)
Theorem web_checkout_requires_email
    `{Sanitize} (env : creation_env) (req : checkout_request) (db : database)
    (p : Product.row) :
  active_product (productId req) db = Some p ->
  0 < Product.stock p ->
  (forall o, In o (orders db) -> Order.invoice_number o <> c_invoiceNumber env) ->
  let email := sanitizeEmail (customer_email req) in
  (email <> "" ->
   exists o,
     checkout env req db = (set_orders db (orders db ++ [o]), RenderCheckout (view_of o)) /\
     Order.status o = "pending" /\
     Order.invoice_number o = c_invoiceNumber env /\
     Order.product_id o = Product.id p /\
     Order.customer_email o = Some email) /\
  (email = "" -> checkout env req db = (db, SendStatus 400 "Email is required")).
Proof.
  intros Hp Hstock Hfresh email. split.
  - intros Hemail. unfold checkout. fold email.
    apply String.eqb_neq in Hemail. unfold nonempty at 1. rewrite Hemail. simpl negb.
    rewrite Hp. assert ((Product.stock p <=? 0) = false) as -> by lia.
    unfold insert_order, new_order. cbn [Order.invoice_number].
    rewrite (fresh_invoice_not_found _ _ Hfresh).
    eexists. split; [reflexivity|]. simpl. repeat split.
    unfold or_null, nonempty. now rewrite Hemail.
  - intros Hemail. unfold checkout. fold email. now rewrite Hemail.
Qed.

(** ** The cleanup sweep *)

(** An order whose status is not 'pending' survives every sweep,
    whatever its age. *)
Lemma sweep_keeps_other_statuses (now : Z) (db : database) (o : Order.row) :
  In o (orders db) -> Order.status o <> "pending" ->
  In o (orders (cleanupExpiredOrders now db)).
Proof.
  intros Hin Hst. unfold cleanupExpiredOrders. destruct (toISOString _); [|exact Hin].
  simpl. apply filter_In. split; [exact Hin|].
  unfold expired_pending. apply String.eqb_neq in Hst. now rewrite Hst.
Qed.

(** The sweep removes pending orders only. *)
Lemma sweep_removes_pending_only (now : Z) (db : database) (o : Order.row) :
  In o (orders db) -> ~ In o (orders (cleanupExpiredOrders now db)) ->
  Order.status o = "pending".
Proof.
  intros Hin Hout. destruct (String.eqb_spec (Order.status o) "pending") as [E|E];
    [exact E|]. exfalso. apply Hout. now apply sweep_keeps_other_statuses.
Qed.

(** Every pending order created on the UTC date of the instant one hour
    before the sweep is deleted, however recent it is. *)
Lemma sweep_deletes_same_date_pending (now created : Z) (db : database) (o : Order.row) :
  - max_date <= now - 60 * 60 * 1000 <= max_date ->
  utc_date created = utc_date (now - 60 * 60 * 1000) ->
  Order.status o = "pending" ->
  Order.created_at o = CURRENT_TIMESTAMP created ->
  ~ In o (orders (cleanupExpiredOrders now db)).
Proof.
  intros Hrange Hdate Hst Hcreated. unfold cleanupExpiredOrders.
  destruct (toISOString (Num (now - 60 * 60 * 1000))) as [oneHourAgo|e] eqn:Hiso.
  - simpl. intros Hin. apply filter_In in Hin as [_ Hkeep].
    unfold expired_pending in Hkeep.
    rewrite Hst, Hcreated, (same_date_compares_older _ _ _ Hiso Hdate) in Hkeep.
    discriminate.
  - exfalso. unfold toISOString in Hiso.
    assert (((- max_date <=? now - 60 * 60 * 1000) && (now - 60 * 60 * 1000 <=? max_date)) = true)
      as Hr by (apply andb_true_iff; split; lia).
    rewrite Hr in Hiso. discriminate.
Qed.

Lemma four_digit_instant_valid (ms : Z) :
  four_digit_instant ms -> exists iso, toISOString (Num ms) = Returned iso.
Proof.
  intros Hr. unfold toISOString.
  assert (((- max_date <=? ms) && (ms <=? max_date)) = true) as ->
      by (unfold four_digit_instant, max_date in *; lia).
  eauto.
Qed.

(** What the sweep deletes: the pending orders created on or before
    the UTC date of the instant one hour before the sweep; an order
    created on a later date stays. *)
Lemma sweep_deletes_by_date (now created : Z) (db : database) (o : Order.row) :
  four_digit_instant created -> four_digit_instant (now - 60 * 60 * 1000) ->
  In o (orders db) ->
  Order.status o = "pending" ->
  Order.created_at o = CURRENT_TIMESTAMP created ->
  In o (orders (cleanupExpiredOrders now db))
  <-> (now - 60 * 60 * 1000) / ms_per_day < created / ms_per_day.
Proof.
  intros Hc Hl Hin Hst Hcreated. unfold cleanupExpiredOrders.
  destruct (four_digit_instant_valid _ Hl) as (iso & Hiso). rewrite Hiso. simpl.
  pose proof (timestamp_lt_iso created _ iso Hc Hl Hiso) as Hcmp.
  rewrite filter_In. unfold expired_pending. rewrite Hst, Hcreated. simpl.
  destruct (text_lt (CURRENT_TIMESTAMP created) iso); simpl; split.
  - intros [_ ?]. discriminate.
  - intros Hlt. pose proof (proj1 Hcmp eq_refl). lia.
  - intros _. destruct (Z_lt_le_dec ((now - 60 * 60 * 1000) / ms_per_day)
                                    (created / ms_per_day)) as [H|H]; [exact H|].
    pose proof (proj2 Hcmp H). discriminate.
  - intros _. now split.
Qed.

(** A pending order that is an hour old or older is deleted. *)
Lemma sweep_deletes_hour_old (now created : Z) (db : database) (o : Order.row) :
  four_digit_instant created -> four_digit_instant (now - 60 * 60 * 1000) ->
  In o (orders db) ->
  Order.status o = "pending" ->
  Order.created_at o = CURRENT_TIMESTAMP created ->
  created <= now - 60 * 60 * 1000 ->
  ~ In o (orders (cleanupExpiredOrders now db)).
Proof.
  intros Hc Hl Hin Hst Hcreated Hold Hkept.
  apply (sweep_deletes_by_date now created db o Hc Hl Hin Hst Hcreated) in Hkept.
  pose proof (Z.div_le_mono created (now - 60 * 60 * 1000) ms_per_day
                ltac:(unfold ms_per_day; lia) Hold).
  lia.
Qed.

(** C3, at the input where the code departs from it.  A pending order
    written at 11:50:00 UTC has [created_at] "2024-01-01 11:50:00"; the
    sweep of 12:00:00 UTC compares it with "2024-01-01T11:00:00.000Z"
    and deletes the order, ten minutes after its creation.  The same
    happens to the order that a checkout of 11:50:00 wrote. *)
Theorem sweep_deletes_ten_minute_old_order :
  let created := Sample.noon - Sample.minutes 10 in
  orders (SampleSweep.with_pending_order created)
  = [Sample.order_at "INV-0001" "2024-01-01 11:50:00"] /\
  toISOString (Num (Sample.noon - 60 * 60 * 1000)) = Returned "2024-01-01T11:00:00.000Z" /\
  orders (cleanupExpiredOrders Sample.noon (SampleSweep.with_pending_order created)) = [] /\
  map Order.created_at
      (orders (@run passthrough [Checkout SampleCheckout.env SampleRun.buy] SampleRun.shop))
  = ["2024-01-01 11:50:00"] /\
  orders (@run passthrough [Checkout SampleCheckout.env SampleRun.buy; Sweep Sample.noon]
               SampleRun.shop) = [].
Proof. vm_compute. repeat split. Qed.

(** The other scenarios of the sweep: an order of ninety minutes is
    deleted; a paid order of any age stays; an order of ten minutes
    stays when midnight (UTC) lies between the instant one hour before
    the sweep and its creation. *)
Example sweep_scenarios :
  orders (cleanupExpiredOrders Sample.noon
            (SampleSweep.with_pending_order (Sample.noon - Sample.minutes 90))) = [] /\
  orders (cleanupExpiredOrders Sample.noon
            (SampleSweep.with_paid_order (Sample.noon - Sample.minutes 90)))
  = orders (SampleSweep.with_paid_order (Sample.noon - Sample.minutes 90)) /\
  orders (cleanupExpiredOrders SampleSweep.after_midnight
            (SampleSweep.with_pending_order (SampleSweep.after_midnight - Sample.minutes 10)))
  = [Sample.order_at "INV-0001" "2024-01-02 00:05:00"].
Proof. vm_compute. repeat split. Qed.

(** ** The theorems at sample inputs *)

Lemma payment_matcher_selects_latest_pending_witness :
  let env := SampleWebhook.at_noon in
  let db := Sample.twin_db in
  let db' := fst (webhook_payment env (Some "secret") Sample.payment_50123 db) in
  ((forall o, In o (orders db) ->
              ~ (Order.total_amount o = 50123 /\ Order.status o = "pending")) /\ db' = db)
  \/
  (exists before o after,
      orders db = before ++ o :: after /\
      Order.total_amount o = 50123 /\ Order.status o = "pending" /\
      (forall o', In o' (orders db) -> Order.total_amount o' = 50123 ->
                  Order.status o' = "pending" ->
                  text_lt (Order.created_at o) (Order.created_at o') = false) /\
      (forall o' c c', In o' (orders db) -> Order.total_amount o' = 50123 ->
                       Order.status o' = "pending" ->
                       four_digit_instant c -> four_digit_instant c' ->
                       Order.created_at o = CURRENT_TIMESTAMP c ->
                       Order.created_at o' = CURRENT_TIMESTAMP c' ->
                       c' / 1000 <= c / 1000) /\
      orders db' = before ++ paid (w_now env) o :: after /\
      Order.status (paid (w_now env) o) = "paid" /\
      Order.paid_at (paid (w_now env) o) = Some (CURRENT_TIMESTAMP (w_now env))).
Proof.
  apply (payment_matcher_selects_latest_pending
           SampleWebhook.at_noon (Some "secret") Sample.payment_50123 Sample.twin_db 50123
           (Sample.noon + 3600000)).
  - simpl. constructor; [intros [E|[]]; discriminate|].
    constructor; [intros []|constructor].
  - reflexivity.
  - reflexivity.
  - lia.
  - reflexivity.
Defined.

Lemma second_delivery_is_noop_witness :
  let db1 := fst (webhook_payment SampleWebhook.at_noon (Some "secret")
                    Sample.payment_50123 SampleWebhook.single_db) in
  snd (webhook_payment SampleWebhook.at_noon (Some "secret")
         Sample.payment_50123 SampleWebhook.single_db)
  = Json 200 "success" "Payment processed" (Some "INV-0001") /\
  webhook_payment SampleWebhook.later (Some "secret") Sample.payment_50123 db1
  = (db1, Json 200 "success" "No matching order" None).
Proof.
  split; [reflexivity|].
  apply (second_delivery_is_noop SampleWebhook.at_noon SampleWebhook.later (Some "secret")
           Sample.payment_50123 SampleWebhook.single_db (Num 50123) "INV-0001").
  - reflexivity.
  - intros o1 o2 [<-|[]] [<-|[]] _ _. reflexivity.
  - reflexivity.
Defined.

Lemma web_checkout_requires_email_witness :
  active_product (productId SampleRun.buy) SampleRun.shop = Some Sample.ebook /\
  0 < Product.stock Sample.ebook /\
  let email := @sanitizeEmail passthrough (customer_email SampleRun.buy) in
  (email <> "" ->
   exists o,
     @checkout passthrough SampleCheckout.env SampleRun.buy SampleRun.shop
     = (set_orders SampleRun.shop (orders SampleRun.shop ++ [o]), RenderCheckout (view_of o)) /\
     Order.status o = "pending" /\
     Order.invoice_number o = c_invoiceNumber SampleCheckout.env /\
     Order.product_id o = Product.id Sample.ebook /\
     Order.customer_email o = Some email) /\
  (email = "" ->
   @checkout passthrough SampleCheckout.env SampleRun.buy SampleRun.shop
   = (SampleRun.shop, SendStatus 400 "Email is required")).
Proof.
  split; [reflexivity|]. split; [reflexivity|].
  apply (@web_checkout_requires_email passthrough SampleCheckout.env SampleRun.buy
           SampleRun.shop Sample.ebook).
  - reflexivity.
  - reflexivity.
  - intros o [].
Defined.

Lemma redemption_depends_on_expiry_only_witness :
  let prior := [(Sample.noon - Sample.minutes 30, "tok-1");
                (Sample.noon - Sample.minutes 20, "tok-1")] in
  let db' := redeem_all prior SampleToken.paid_db in
  map Token.download_count (download_tokens db') = [2] /\
  download (Sample.noon + 1) "tok-1" db' = (db', RedirectExpired) /\
  download (Sample.noon - Sample.minutes 10) "tok-1" db'
  = (count_download (Sample.noon - Sample.minutes 10) "tok-1" db',
     SendFile "uploads/ebook.pdf" "E-Book").
Proof.
  intros prior db'. split; [reflexivity|]. split.
  - apply (proj1 (redemption_depends_on_expiry_only prior (Sample.noon + 1) "tok-1"
                    SampleToken.paid_db
                    (Token.mk "tok-1" "INV-0001" "P1" "2024-01-01 11:00:00"
                              Sample.noon false 0 None)
                    (paid (Sample.noon - Sample.minutes 60)
                          (Sample.order_at "INV-0001" "2024-01-01 10:40:00"))
                    Sample.ebook eq_refl)).
    simpl. lia.
  - apply (proj2 (redemption_depends_on_expiry_only prior (Sample.noon - Sample.minutes 10)
                    "tok-1" SampleToken.paid_db
                    (Token.mk "tok-1" "INV-0001" "P1" "2024-01-01 11:00:00"
                              Sample.noon false 0 None)
                    (paid (Sample.noon - Sample.minutes 60)
                          (Sample.order_at "INV-0001" "2024-01-01 10:40:00"))
                    Sample.ebook eq_refl)).
    + simpl. unfold Sample.noon, Sample.minutes. lia.
    + reflexivity.
Defined.

Lemma webhook_amount_extraction_witness :
  extractAmount Sample.payment_50123 = Returned (Num 50123) /\
  extractAmount SampleWebhook.amount_75000 = Returned (Num 75000) /\
  extractAmount SampleWebhook.text_50123 = Returned (Num 50123) /\
  extractAmount SampleWebhook.nothing = Returned (Num 0) /\
  exists message,
    webhook_payment SampleWebhook.at_noon (Some "secret") SampleWebhook.nothing
                    SampleWebhook.single_db
    = (SampleWebhook.single_db, Json 200 "success" message None).
Proof.
  destruct webhook_amount_extraction
    as (Hdetected & Hamount & _ & _ & Htext & Hnone & Hack & _).
  split; [exact (Hdetected Sample.payment_50123 eq_refl)|].
  split; [exact (Hamount SampleWebhook.amount_75000 eq_refl eq_refl)|].
  split; [exact (Htext SampleWebhook.text_50123 "Pembayaran " " " "50.123" " diterima"
                   eq_refl eq_refl eq_refl eq_refl eq_refl eq_refl eq_refl eq_refl)|].
  split; [exact (Hnone SampleWebhook.nothing eq_refl eq_refl eq_refl)|].
  exact (Hack SampleWebhook.at_noon (Some "secret") SampleWebhook.nothing
           SampleWebhook.single_db eq_refl (or_introl eq_refl)).
Defined.

Lemma webhook_open_without_configured_key_witness :
  webhook_payment SampleWebhook.at_noon None Sample.payment_50123 SampleWebhook.open_db
  = process_payment SampleWebhook.at_noon Sample.payment_50123 SampleWebhook.open_db /\
  status_code_of (snd (webhook_payment SampleWebhook.at_noon (Some "guess")
                         Sample.payment_50123 SampleWebhook.open_db)) <> Some 401 /\
  exists key, settings SampleWebhook.single_db !! "webhook_api_key" = Some key /\
              key <> "" /\ Some "guess" <> Some key.
Proof.
  split; [|split].
  - apply (proj1 webhook_open_without_configured_key SampleWebhook.at_noon None
             Sample.payment_50123 SampleWebhook.open_db). left. reflexivity.
  - apply (proj1 webhook_open_without_configured_key SampleWebhook.at_noon (Some "guess")
             Sample.payment_50123 SampleWebhook.open_db). left. reflexivity.
  - apply (proj2 webhook_open_without_configured_key SampleWebhook.at_noon (Some "guess")
             Sample.payment_50123 SampleWebhook.single_db). reflexivity.
Defined.

(** ** Scenarios of the specification *)

(** Price 50,000 and unique code 123 give the total 50,123; the payment
    of 50123 turns the order to 'paid', takes one unit of stock and adds
    one token that expires sixty minutes after the payment. *)
Example scenario_payment :
  let db := @run passthrough SampleRun.history SampleRun.shop in
  map (fun o => (Order.total_amount o, Order.status o, Order.paid_at o)) (orders db)
  = [(50123, "paid", Some "2024-01-01 11:55:00")] /\
  map Product.stock (products db) = [4] /\
  map (fun t => (Token.token t, Token.invoice_number t, Token.expires_at t))
      (download_tokens db)
  = [("tok-1", "INV-0001", Sample.noon - Sample.minutes 5 + Sample.minutes 60)].
Proof. vm_compute. repeat split. Qed.

(** An amount that no pending order has: success, no match, no change. *)
Example scenario_no_match :
  webhook_payment SampleWebhook.at_noon (Some "secret")
                  (mkNotification (JNum 999999) JUndefined JUndefined)
                  SampleWebhook.single_db
  = (SampleWebhook.single_db, Json 200 "success" "No matching order" None).
Proof. reflexivity. Qed.

(** A wrong API key: 401, no change. *)
Example scenario_wrong_key :
  webhook_payment SampleWebhook.at_noon (Some "guess") Sample.payment_50123
                  SampleWebhook.single_db
  = (SampleWebhook.single_db, Json 401 "error" "Unauthorized" None).
Proof. reflexivity. Qed.

(** A [text] that is a number has no [match] method: the callback
    throws before any statement is issued. *)
Example scenario_text_not_a_string :
  process_payment SampleWebhook.at_noon
                  (mkNotification JUndefined JUndefined (JNum 50123))
                  SampleWebhook.single_db
  = (SampleWebhook.single_db,
     Uncaught "TypeError: notification.text.match is not a function").
Proof. reflexivity. Qed.

(* ===================================================================== *)
(** * Part II, continued: properties of the rest of the code             *)
(* ===================================================================== *)

(** ** The number of a payment notification *)

Lemma remove_chars_all (p : ascii -> bool) (s : string) :
  all_chars (fun c => negb (p c)) (remove_chars p s) = true.
Proof.
  induction s as [|c s IH]; simpl; [reflexivity|].
  destruct (p c) eqn:E; simpl; [exact IH|]. now rewrite E, IH.
Qed.

Lemma remove_chars_none (p : ascii -> bool) (s : string) :
  all_chars (fun c => negb (p c)) s = true -> remove_chars p s = s.
Proof.
  induction s as [|c s IH]; simpl; [reflexivity|]. intros H.
  apply andb_true_iff in H as [Hc Hs]. apply negb_true_iff in Hc.
  now rewrite Hc, IH.
Qed.

Lemma all_chars_ext (p q : ascii -> bool) (s : string) :
  (forall c, p c = q c) -> all_chars p s = all_chars q s.
Proof.
  intros E. induction s as [|c s IH]; simpl; [reflexivity|]. now rewrite E, IH.
Qed.

Lemma digits_only_digits (s : string) : all_chars is_digit (digits_only s) = true.
Proof.
  unfold digits_only.
  rewrite (all_chars_ext is_digit (fun c => negb (negb (is_digit c))))
    by (intros c; now rewrite negb_involutive).
  apply remove_chars_all.
Qed.

Lemma digits_only_fixed (s : string) :
  all_chars is_digit s = true -> digits_only s = s.
Proof.
  intros H. unfold digits_only. apply remove_chars_none.
  rewrite <- H. apply all_chars_ext. intros c. now rewrite negb_involutive.
Qed.

Lemma startsWith_62 (s : string) :
  startsWith "62" s = true -> exists rest, s = String "6" (String "2" rest).
Proof.
  unfold startsWith. destruct s as [|a [|b rest]]; intros H.
  - discriminate H.
  - rewrite prefix_cons in H. destruct (ascii_dec "6" a); [|discriminate H].
    rewrite prefix_nil_r in H. discriminate H.
  - rewrite !prefix_cons in H.
    destruct (ascii_dec "6" a) as [<-|]; [|discriminate H].
    destruct (ascii_dec "2" b) as [<-|]; [|discriminate H].
    now exists rest.
Qed.

Lemma startsWith_62_intro (rest : string) :
  startsWith "62" (String "6" (String "2" rest)) = true.
Proof.
  unfold startsWith. rewrite !prefix_cons.
  destruct (ascii_dec "6" "6") as [_|N]; [|now elim N].
  destruct (ascii_dec "2" "2") as [_|N]; [|now elim N].
  apply prefix_nil_l.
Qed.

Lemma format_phone_digits_62 (customer_whatsapp : string) :
  all_chars is_digit (format_phone customer_whatsapp) = true /\
  startsWith "62" (format_phone customer_whatsapp) = true.
Proof.
  unfold format_phone. pose proof (digits_only_digits customer_whatsapp) as Hd.
  set (p := digits_only customer_whatsapp) in *.
  assert (forall q, all_chars is_digit q = true ->
            all_chars is_digit (if startsWith "62" q then q else "62" +:+ q) = true /\
            startsWith "62" (if startsWith "62" q then q else "62" +:+ q) = true) as Hq.
  { intros q Hq. destruct (startsWith "62" q) eqn:E; [now split|].
    change ("62" +:+ q) with (String "6" (String "2" q)).
    split; [exact Hq|apply startsWith_62_intro]. }
  destruct p as [|c rest]; [now apply Hq|].
  destruct (Ascii.eqb_spec c "0") as [->|Hc].
  - apply Hq. simpl in Hd. exact Hd.
  - assert (match String c rest with
            | String "0" r => "62" +:+ r
            | _ => String c rest
            end = String c rest) as ->.
    { destruct c as [[] [] [] [] [] [] [] []]; try reflexivity. now elim Hc. }
    now apply Hq.
Qed.

(** X1.  Whatever text the order holds as its WhatsApp number, the
    number that the notification is sent to consists of decimal digits
    only and begins with 62. *)
Theorem format_phone_shape (customer_whatsapp : string) :
  all_chars is_digit (format_phone customer_whatsapp) = true /\
  startsWith "62" (format_phone customer_whatsapp) = true.
Proof. apply format_phone_digits_62. Qed.

(** X2.  Formatting is idempotent: a number that has been formatted is
    left as it is by a second formatting. *)
Theorem format_phone_idempotent (customer_whatsapp : string) :
  format_phone (format_phone customer_whatsapp) = format_phone customer_whatsapp.
Proof.
  destruct (format_phone_digits_62 customer_whatsapp) as [Hd Hp].
  set (r := format_phone customer_whatsapp) in *.
  destruct (startsWith_62 r Hp) as (rest & Hr).
  unfold format_phone at 1. rewrite (digits_only_fixed r Hd), Hr.
  cbv zeta. now rewrite startsWith_62_intro.
Qed.

(** X3.  The three usual spellings of one number reach the same chat:
    for a run of digits [d], the local form 0[d], the international form
    62[d] and the form +62 [d] are all formatted as 62[d]. *)
Theorem format_phone_spellings (d : string) :
  all_chars is_digit d = true ->
  format_phone ("0" +:+ d) = "62" +:+ d /\
  format_phone ("62" +:+ d) = "62" +:+ d /\
  format_phone ("+62 " +:+ d) = "62" +:+ d.
Proof.
  intros Hd.
  assert (format_phone ("62" +:+ d) = "62" +:+ d) as H62.
  { unfold format_phone. rewrite (digits_only_fixed ("62" +:+ d)) by exact Hd.
    change ("62" +:+ d) with (String "6" (String "2" d)). cbv beta iota zeta.
    now rewrite startsWith_62_intro. }
  repeat split; [|exact H62|].
  - unfold format_phone. rewrite (digits_only_fixed ("0" +:+ d)) by exact Hd.
    change ("0" +:+ d) with (String "0" d). cbv beta iota zeta.
    change ("62" +:+ d) with (String "6" (String "2" d)).
    now rewrite startsWith_62_intro.
  - unfold format_phone at 1. 
    assert (digits_only ("+62 " +:+ d) = digits_only ("62" +:+ d)) as -> by reflexivity.
    exact H62.
Qed.

Lemma format_phone_spellings_witness :
  format_phone "081234567890" = "6281234567890" /\
  format_phone "6281234567890" = "6281234567890" /\
  format_phone "+62 81234567890" = "6281234567890".
Proof. exact (format_phone_spellings "81234567890" eq_refl). Defined.

(** ** The settings helpers *)

Lemma settings_updateSetting (key value : string) (db : database) :
  products (updateSetting key value db) = products db /\
  orders (updateSetting key value db) = orders db /\
  download_tokens (updateSetting key value db) = download_tokens db.
Proof. unfold updateSetting. now destruct (settings db !! key). Qed.

Lemma fold_insert_or_ignore (rows : list (string * string)) (s : gmap string string)
    (k : string) :
  fold_left insert_or_ignore rows s !! k
  = match s !! k with
    | Some v => Some v
    | None => snd <$> List.find (fun row => String.eqb (fst row) k) rows
    end.
Proof.
  revert s. induction rows as [|[key v] rows IH]; intros s; simpl.
  - now destruct (s !! k).
  - rewrite IH. unfold insert_or_ignore. simpl.
    destruct (String.eqb_spec key k) as [->|Hne].
    + destruct (s !! k) as [old|] eqn:E; [now rewrite E|].
      now rewrite lookup_insert_eq.
    + destruct (s !! key); [reflexivity|]. now rewrite lookup_insert_ne.
Qed.

Lemma database_eq (a b : database) :
  products a = products b -> orders a = orders b ->
  download_tokens a = download_tokens b -> settings a = settings b -> a = b.
Proof. destruct a, b. simpl. now intros -> -> -> ->. Qed.

Lemma getSetting_eq (k : string) (db : database) : getSetting k db = settings db !! k.
Proof. reflexivity. Qed.

Lemma getSetting_initDatabase (db : database) (k : string) :
  getSetting k (initDatabase db)
  = match getSetting k db with
    | Some v => Some v
    | None => default_of k
    end.
Proof. exact (fold_insert_or_ignore defaultSettings (settings db) k). Qed.

Lemma tables_initDatabase (db : database) :
  products (initDatabase db) = products db /\
  orders (initDatabase db) = orders db /\
  download_tokens (initDatabase db) = download_tokens db.
Proof. repeat split. Qed.

(** X5.  [initDatabase] keeps every setting that is there and gives the
    keys that are missing their default; it leaves products, orders and
    tokens alone, and running it again changes nothing. *)
Theorem initDatabase_settings (db : database) :
  (forall k, getSetting k (initDatabase db)
             = match getSetting k db with
               | Some v => Some v
               | None => default_of k
               end) /\
  products (initDatabase db) = products db /\
  orders (initDatabase db) = orders db /\
  download_tokens (initDatabase db) = download_tokens db /\
  initDatabase (initDatabase db) = initDatabase db.
Proof.
  split; [apply getSetting_initDatabase|].
  destruct (tables_initDatabase db) as (Hp0 & Ho0 & Ht0).
  split; [exact Hp0|]. split; [exact Ho0|]. split; [exact Ht0|].
  destruct (tables_initDatabase (initDatabase db)) as (Hp & Ho & Ht).
  apply (database_eq (initDatabase (initDatabase db)) (initDatabase db) Hp Ho Ht).
  apply map_eq. intros k. rewrite <- !getSetting_eq.
  rewrite (getSetting_initDatabase (initDatabase db) k).
  destruct (getSetting k (initDatabase db)) eqn:E; [reflexivity|].
  rewrite getSetting_initDatabase in E.
  destruct (getSetting k db); [discriminate|]. exact E.
Qed.

(** What the key test does when a non-empty key is configured. *)
Lemma webhook_with_key (env : webhook_env) (apiKey : option string) (n : notification)
    (db : database) (key : string) :
  getSetting "webhook_api_key" db = Some key -> key <> "" ->
  webhook_payment env apiKey n db
  = if decide (apiKey = Some key)
    then process_payment env n db
    else (db, Json 401 "error" "Unauthorized" None).
Proof.
  intros Hk Hne. unfold webhook_payment, key_rejected, getSettings.
  rewrite getSetting_eq in Hk. rewrite Hk.
  apply String.eqb_neq in Hne. unfold nonempty. rewrite Hne. simpl.
  destruct (decide (apiKey = Some key)) as [->|Hd].
  - now rewrite bool_decide_eq_true_2.
  - now rewrite bool_decide_eq_false_2.
Qed.

(** X6.  A store in which no API key was ever set is not open after
    [initDatabase]: the webhook answers 401 and changes nothing unless
    the header carries the default key of the source, and with that key
    the request is processed. *)
Theorem fresh_install_webhook_key
    (env : webhook_env) (apiKey : option string) (n : notification) (db : database) :
  getSetting "webhook_api_key" db = None ->
  webhook_payment env apiKey n (initDatabase db)
  = if decide (apiKey = Some "CHANGE_THIS_SECRET_KEY")
    then process_payment env n (initDatabase db)
    else (initDatabase db, Json 401 "error" "Unauthorized" None).
Proof.
  intros Hnone. apply webhook_with_key; [|discriminate].
  rewrite getSetting_initDatabase, Hnone. reflexivity.
Qed.

Lemma fresh_install_webhook_key_witness :
  webhook_payment SampleWebhook.at_noon (Some "secret") Sample.payment_50123
                  (initDatabase SampleWebhook.open_db)
  = (initDatabase SampleWebhook.open_db, Json 401 "error" "Unauthorized" None).
Proof.
  exact (fresh_install_webhook_key SampleWebhook.at_noon (Some "secret")
           Sample.payment_50123 SampleWebhook.open_db eq_refl).
Defined.

(** ** Lists of rows *)

Lemma find_none_existsb {A : Type} (p : A -> bool) (l : list A) :
  List.existsb p l = false -> List.find p l = None.
Proof.
  induction l as [|x l IH]; simpl; [reflexivity|]. intros H.
  apply orb_false_iff in H as [Hx Hl]. now rewrite Hx, IH.
Qed.

Lemma find_app_new {A : Type} (p : A -> bool) (l : list A) (x : A) :
  List.find p l = None -> p x = true -> List.find p (l ++ [x]) = Some x.
Proof.
  induction l as [|y l IH]; simpl; intros Hn Hx; [now rewrite Hx|].
  destruct (p y); [discriminate|]. now apply IH.
Qed.

Lemma find_app_old {A : Type} (p : A -> bool) (l l' : list A) (y : A) :
  List.find p l = Some y -> List.find p (l ++ l') = Some y.
Proof.
  induction l as [|z l IH]; simpl; [discriminate|]. destruct (p z); [trivial|exact IH].
Qed.

Lemma find_map_same {A : Type} (p : A -> bool) (f : A -> A) (l : list A) :
  (forall x, p (f x) = p x) ->
  List.find p (map f l) = option_map f (List.find p l).
Proof.
  intros Hp. induction l as [|x l IH]; simpl; [reflexivity|].
  rewrite Hp. destruct (p x); [reflexivity|exact IH].
Qed.

Lemma find_filter_kept {A : Type} (p keep : A -> bool) (l : list A) (x : A) :
  List.find p l = Some x -> keep x = true -> List.find p (List.filter keep l) = Some x.
Proof.
  induction l as [|y l IH]; simpl; [discriminate|]. intros Hf Hk.
  destruct (p y) eqn:Hy.
  - inversion Hf; subst y. rewrite Hk. simpl. now rewrite Hy.
  - destruct (keep y); simpl; [rewrite Hy|]; now apply IH.
Qed.

Lemma find_filter_first {A : Type} (p : A -> bool) (l : list A) (x : A) :
  List.find p l = Some x -> exists rest, List.filter p l = x :: rest.
Proof.
  induction l as [|y l IH]; simpl; [discriminate|]. intros Hf.
  destruct (p y) eqn:Hy.
  - inversion Hf; subst y. eauto.
  - now apply IH.
Qed.

Lemma NoDup_map_filter {A B : Type} (f : A -> B) (keep : A -> bool) (l : list A) :
  List.NoDup (map f l) -> List.NoDup (map f (List.filter keep l)).
Proof.
  induction l as [|x l IH]; simpl; [trivial|]. intros Hnd.
  inversion Hnd as [|? ? Hnot Hrest]; subst.
  destruct (keep x); simpl; [|now apply IH].
  constructor; [|now apply IH].
  intros Hin. apply Hnot. apply in_map_iff in Hin as (y & Hy & Hiny).
  apply filter_In in Hiny as [Hiny _]. apply in_map_iff. eauto.
Qed.

Lemma NoDup_map_snoc {A B : Type} (f : A -> B) (l : list A) (x : A) :
  List.NoDup (map f l) -> ~ In (f x) (map f l) -> List.NoDup (map f (l ++ [x])).
Proof.
  intros Hnd Hnot. rewrite map_app. simpl.
  apply NoDup_rev in Hnd. rewrite <- (rev_involutive (map f l ++ [f x])).
  apply NoDup_rev. rewrite rev_app_distr. simpl. constructor; [|exact Hnd].
  intros Hin. apply Hnot. now apply in_rev.
Qed.

Lemma NoDup_map_same_key {A B : Type} (f : A -> B) (l : list A) (x y : A) :
  List.NoDup (map f l) -> In x l -> In y l -> f x = f y -> x = y.
Proof.
  induction l as [|z l IH]; simpl; [contradiction|]. intros Hnd Hx Hy E.
  inversion Hnd as [|? ? Hnot Hrest]; subst.
  destruct Hx as [->|Hx], Hy as [->|Hy]; [reflexivity| | |now apply IH].
  - exfalso. apply Hnot. rewrite E. now apply in_map.
  - exfalso. apply Hnot. rewrite <- E. now apply in_map.
Qed.

Lemma existsb_false_not_in {A : Type} (key : A -> string) (k : string) (l : list A) :
  List.existsb (fun x => String.eqb (key x) k) l = false -> ~ In k (map key l).
Proof.
  intros H Hin. apply in_map_iff in Hin as (x & Hx & Hin).
  assert (List.existsb (fun x => String.eqb (key x) k) l = true) as Ht.
  { apply existsb_exists. exists x. split; [exact Hin|]. now apply String.eqb_eq. }
  congruence.
Qed.

(** ** What a processed payment and a created order are *)

Lemma invoice_pay_row now invoice o :
  Order.invoice_number (pay_row now invoice o) = Order.invoice_number o.
Proof. unfold pay_row. now destruct (String.eqb _ _). Qed.

Lemma order_by_invoice_pay_rows now invoice' invoice rows db :
  orders db = map (pay_row now invoice') rows ->
  order_by_invoice invoice db
  = option_map (pay_row now invoice')
      (List.find (fun o => String.eqb (Order.invoice_number o) invoice) rows).
Proof.
  intros E. unfold order_by_invoice. rewrite E. apply find_map_same.
  intros x. now rewrite invoice_pay_row.
Qed.

(** The shape of a delivery that answers "Payment processed". *)
Lemma webhook_processed (env : webhook_env) (apiKey : option string) (n : notification)
    (db : database) (invoice : string) :
  snd (webhook_payment env apiKey n db)
  = Json 200 "success" "Payment processed" (Some invoice) ->
  exists a order expires,
    key_rejected (getSettings db) apiKey = false /\
    extractAmount n = Returned a /\ a <> Num 0 /\
    find_pending_order a db = Some order /\
    Order.invoice_number order = invoice /\
    expiresAt (w_now env) (expiryMinutes (getSettings db)) = Returned expires /\
    fst (webhook_payment env apiKey n db)
    = insert_token (w_now env) expires (w_token env) invoice (Order.product_id order)
        (decrease_stock (Order.product_id order) (mark_paid (w_now env) invoice db)).
Proof.
  intros Hreply. unfold webhook_payment in *.
  destruct (key_rejected (getSettings db) apiKey) eqn:Hkey; [discriminate|].
  destruct (extractAmount n) as [a|e] eqn:E;
    [|unfold process_payment in Hreply; rewrite E in Hreply; discriminate].
  assert (a <> Num 0) as Ha.
  { intros ->. unfold process_payment in Hreply. rewrite E in Hreply. discriminate. }
  rewrite (process_payment_amount env n db a E Ha) in *.
  destruct (find_pending_order a db) as [order|] eqn:F; [|discriminate].
  cbv zeta in *.
  destruct (expiresAt (w_now env) (expiryMinutes (getSettings db))) as [expires|e] eqn:X;
    [|discriminate].
  simpl in Hreply. inversion Hreply as [Hinv]. simpl.
  exists a, order, expires. repeat split; try assumption; try reflexivity.
Qed.

Lemma find_pending_order_In a db order :
  find_pending_order a db = Some order -> In order (orders db).
Proof. intros F. apply latest_In in F. now apply filter_In in F as [? _]. Qed.

Lemma In_find_some {A : Type} (p : A -> bool) (l : list A) (x : A) :
  In x l -> p x = true -> exists y, List.find p l = Some y /\ p y = true.
Proof.
  induction l as [|z l IH]; simpl; [contradiction|]. intros Hin Hp.
  destruct (p z) eqn:Hz; [eauto|].
  destruct Hin as [->|Hin]; [congruence|now apply IH].
Qed.

(** X7.  An order that a checkout has just written, on the web or in
    the bot, is what the status API reports for its invoice number: the
    number was unknown before (404 "not_found") and reads "pending"
    after. *)
Theorem new_order_reports_pending `{Sanitize} (env : creation_env) (db db' : database)
    (view : OrderView.t) :
  (forall req, checkout env req db = (db', RenderCheckout view) ->
     order_status (OrderView.invoice_number view) db = StatusJson 404 "not_found" /\
     order_status (OrderView.invoice_number view) db' = StatusJson 200 "pending") /\
  (forall product email whatsapp,
     createOrder env product email whatsapp db = (db', Returned view) ->
     order_status (OrderView.invoice_number view) db = StatusJson 404 "not_found" /\
     order_status (OrderView.invoice_number view) db' = StatusJson 200 "pending").
Proof.
  assert (forall o, insert_order o db = Some db' -> view = view_of o ->
            Order.status o = "pending" ->
            order_status (OrderView.invoice_number view) db = StatusJson 404 "not_found" /\
            order_status (OrderView.invoice_number view) db' = StatusJson 200 "pending")
    as Hins.
  { intros o Hi -> Hst. unfold insert_order in Hi.
    destruct (List.existsb _ (orders db)) eqn:Hex; [discriminate|].
    inversion Hi; subst db'. apply find_none_existsb in Hex.
    unfold order_status, order_by_invoice. simpl. rewrite Hex. split; [reflexivity|].
    rewrite (find_app_new _ _ o Hex (String.eqb_refl _)). now rewrite Hst. }
  split.
  - intros req Hc. unfold checkout in Hc.
    destruct (negb _); [discriminate|].
    destruct (active_product _ db) as [p|]; [|discriminate].
    destruct (_ <=? _); [discriminate|].
    destruct (insert_order _ db) as [d|] eqn:Hi; [|discriminate].
    inversion Hc; subst. eapply Hins; [exact Hi|reflexivity|reflexivity].
  - intros product email whatsapp Hc. unfold createOrder in Hc.
    destruct (insert_order _ db) as [d|] eqn:Hi; [|discriminate].
    inversion Hc; subst. eapply Hins; [exact Hi|reflexivity|reflexivity].
Qed.

(** X8.  When the webhook answers "Payment processed" with an invoice
    number, the status API reports "paid" for that number from then
    on. *)
Theorem processed_payment_reports_paid (env : webhook_env) (apiKey : option string)
    (n : notification) (db : database) (invoice : string) :
  snd (webhook_payment env apiKey n db)
  = Json 200 "success" "Payment processed" (Some invoice) ->
  order_status invoice (fst (webhook_payment env apiKey n db)) = StatusJson 200 "paid".
Proof.
  intros Hreply.
  destruct (webhook_processed env apiKey n db invoice Hreply)
    as (a & order & expires & _ & _ & _ & F & Hinv & _ & ->).
  unfold order_status.
  rewrite (order_by_invoice_pay_rows (w_now env) invoice invoice (orders db))
    by (rewrite orders_insert_token; reflexivity).
  destruct (In_find_some (fun o => String.eqb (Order.invoice_number o) invoice)
              (orders db) order (find_pending_order_In _ _ _ F))
    as (y & -> & Hy); [now apply String.eqb_eq|].
  simpl. unfold pay_row. now rewrite Hy.
Qed.

(** ** Every handler as a sequence of row changes *)

Lemma insert_order_change (o : Order.row) (db db' : database) :
  insert_order o db = Some db' -> Order.status o = "pending" -> row_change db db'.
Proof.
  unfold insert_order. intros Hi Hst.
  destruct (List.existsb _ (orders db)) eqn:Hex; [discriminate|].
  inversion Hi; subst db'.
  apply (order_added _ _ o); try reflexivity; [exact Hst|].
  now apply existsb_false_not_in.
Qed.

Lemma insert_token_change now expires tok invoice pid db (o : Order.row) :
  In o (orders db) -> Order.status o = "paid" -> Order.invoice_number o = invoice ->
  row_change db (insert_token now expires tok invoice pid db).
Proof.
  intros Hin Hst Hinv. unfold insert_token.
  destruct (List.existsb _ (download_tokens db)) eqn:Hex.
  - now apply rows_kept.
  - apply (token_added _ _ (Token.mk tok invoice pid (CURRENT_TIMESTAMP now) expires
                              false 0 None) o); try reflexivity; try assumption.
    simpl. now apply existsb_false_not_in.
Qed.

Lemma status_pay_row_same now o :
  Order.status (pay_row now (Order.invoice_number o) o) = "paid".
Proof. unfold pay_row. now rewrite String.eqb_refl. Qed.

Lemma checkout_change `{Sanitize} env req db : row_change db (fst (checkout env req db)).
Proof.
  unfold checkout.
  destruct (negb _); [now apply rows_kept|].
  destruct (active_product _ db) as [p|]; [|now apply rows_kept].
  destruct (_ <=? _); [now apply rows_kept|].
  destruct (insert_order _ db) as [d|] eqn:Hi; [|now apply rows_kept].
  simpl. eapply insert_order_change; [exact Hi|reflexivity].
Qed.

Lemma createOrder_change env p email whatsapp db :
  row_change db (fst (createOrder env p email whatsapp db)).
Proof.
  unfold createOrder.
  destruct (insert_order _ db) as [d|] eqn:Hi; [|now apply rows_kept].
  simpl. eapply insert_order_change; [exact Hi|reflexivity].
Qed.

Lemma webhook_change env apiKey n db :
  exists mid, row_change db mid /\ row_change mid (fst (webhook_payment env apiKey n db)).
Proof.
  unfold webhook_payment.
  destruct (key_rejected _ _); [exists db; split; now apply rows_kept|].
  destruct (extractAmount n) as [a|e] eqn:E;
    [|unfold process_payment; rewrite E; exists db; split; now apply rows_kept].
  assert (a = Num 0 \/ a <> Num 0) as [->|Ha].
  { destruct a as [|z|b]; [right; discriminate| |right; discriminate].
    destruct (Z.eq_dec z 0) as [->|Hz]; [now left|right; congruence]. }
  { unfold process_payment. rewrite E. exists db; split; now apply rows_kept. }
  rewrite (process_payment_amount env n db a E Ha).
  destruct (find_pending_order a db) as [order|] eqn:F;
    [|exists db; split; now apply rows_kept].
  cbv zeta.
  destruct (expiresAt _ _); [|exists db; split; now apply rows_kept].
  exists (decrease_stock (Order.product_id order)
            (mark_paid (w_now env) (Order.invoice_number order) db)).
  split; [now apply (order_paid _ _ (w_now env) (Order.invoice_number order))|].
  simpl.
  apply (insert_token_change _ _ _ _ _ _
           (pay_row (w_now env) (Order.invoice_number order) order)).
  - simpl. apply in_map. exact (find_pending_order_In _ _ _ F).
  - apply status_pay_row_same.
  - apply invoice_pay_row.
Qed.

Lemma sweep_change now db : row_change db (cleanupExpiredOrders now db).
Proof.
  unfold cleanupExpiredOrders. destruct (toISOString _) as [iso|]; [|now apply rows_kept].
  apply (orders_swept _ _ (fun o => negb (expired_pending iso o))); try reflexivity.
  intros o Hst. unfold expired_pending. apply String.eqb_neq in Hst. now rewrite Hst.
Qed.

Lemma download_change now tok db : row_change db (fst (download now tok db)).
Proof.
  unfold download. destruct (head _) as [[[dt o] p]|]; [|now apply rows_kept].
  destruct (_ <? _); [now apply rows_kept|].
  destruct (negb _); [now apply rows_kept|].
  now apply (token_counted _ _ now tok).
Qed.

Lemma order_by_invoice_In invoice db o :
  order_by_invoice invoice db = Some o ->
  In o (orders db) /\ Order.invoice_number o = invoice.
Proof.
  unfold order_by_invoice. intros Hf. apply find_some in Hf as [Hin He].
  split; [exact Hin|now apply String.eqb_eq].
Qed.

Lemma recover_change `{Sanitize} `{SanitizeInvoice} env req db :
  row_change db (fst (recover env req db)).
Proof.
  unfold recover.
  destruct (negb (nonempty _)); [now apply rows_kept|].
  destruct (order_by_invoice _ db) as [order|] eqn:Ho; [|now apply rows_kept].
  destruct (negb (contact_verified _ _ _ _)); [now apply rows_kept|].
  destruct (negb (String.eqb _ _)) eqn:Hp; [now apply rows_kept|].
  destruct (expiresAt _ _); [|now apply rows_kept].
  destruct (List.existsb _ _) eqn:Hex; [now apply rows_kept|].
  simpl. apply (insert_token_change _ _ _ _ _ _ order).
  - now apply order_by_invoice_In in Ho.
  - apply negb_false_iff in Hp. now apply String.eqb_eq.
  - reflexivity.
Qed.

Lemma updateSetting_change key value db : row_change db (updateSetting key value db).
Proof. unfold updateSetting. destruct (_ !! _); now apply rows_kept. Qed.

(** The rows after any action come from the rows before by two row
    changes. *)
Lemma act_change `{Sanitize} `{SanitizeInvoice} (a : action) (db : database) :
  exists mid, row_change db mid /\ row_change mid (act a db).
Proof.
  destruct a as [[env req|env p email whatsapp|env apiKey n|now|now tok]|env req|key value|];
    simpl.
  - exists db. split; [now apply rows_kept|apply checkout_change].
  - exists db. split; [now apply rows_kept|apply createOrder_change].
  - apply webhook_change.
  - exists db. split; [now apply rows_kept|apply sweep_change].
  - exists db. split; [now apply rows_kept|apply download_change].
  - exists db. split; [now apply rows_kept|apply recover_change].
  - exists db. split; [now apply rows_kept|apply updateSetting_change].
  - exists db. split; now apply rows_kept.
Qed.

Lemma play_cons `{Sanitize} `{SanitizeInvoice} (a : action) (acts : list action)
    (db : database) :
  play (a :: acts) db = play acts (act a db).
Proof. reflexivity. Qed.

(** What every row change keeps, every list of actions keeps. *)
Lemma play_invariant `{Sanitize} `{SanitizeInvoice} (P : database -> Prop) :
  (forall db db', row_change db db' -> P db -> P db') ->
  forall acts db, P db -> P (play acts db).
Proof.
  intros Hstep acts. induction acts as [|a acts IH]; intros db Hdb; [exact Hdb|].
  rewrite play_cons. apply IH.
  destruct (act_change a db) as (mid & H1 & H2). eauto.
Qed.

(** ** Invariants of the rows *)

Lemma order_status_paid invoice db :
  order_status invoice db = StatusJson 200 "paid" <->
  exists o, order_by_invoice invoice db = Some o /\ Order.status o = "paid".
Proof.
  unfold order_status. split.
  - destruct (order_by_invoice invoice db) as [o|]; [|discriminate].
    intros E. inversion E. eauto.
  - intros (o & -> & ->). reflexivity.
Qed.

Lemma status_pay_row_paid now invoice o :
  Order.status o = "paid" -> Order.status (pay_row now invoice o) = "paid".
Proof. unfold pay_row. now destruct (String.eqb _ _). Qed.

Lemma paid_kept_by_change invoice db db' :
  row_change db db' ->
  order_status invoice db = StatusJson 200 "paid" ->
  order_status invoice db' = StatusJson 200 "paid".
Proof.
  intros Hc Hp. apply order_status_paid in Hp as (x & Hf & Hst).
  apply order_status_paid. unfold order_by_invoice in *.
  destruct Hc as [Ho _|o Ho _ _ _|now inv Ho _|keep Ho _ Hkeep|now tok Ho _|t o Ho _ _ _ _ _];
    rewrite Ho.
  - eauto.
  - exists x. split; [now apply find_app_old|exact Hst].
  - rewrite find_map_same by (intros y; now rewrite invoice_pay_row).
    rewrite Hf. simpl. eexists. split; [reflexivity|now apply status_pay_row_paid].
  - exists x. split; [|exact Hst]. apply find_filter_kept; [exact Hf|].
    apply Hkeep. rewrite Hst. discriminate.
  - eauto.
  - eauto.
Qed.

(** X9.  'paid' is final: once the status API reports "paid" for an
    invoice number, it reports "paid" after every further list of
    checkouts, bot orders, webhook deliveries, sweeps, downloads,
    recoveries and settings updates. *)
Theorem paid_is_final `{Sanitize} `{SanitizeInvoice} (acts : list action)
    (db : database) (invoice : string) :
  order_status invoice db = StatusJson 200 "paid" ->
  order_status invoice (play acts db) = StatusJson 200 "paid".
Proof.
  apply (play_invariant (fun d => order_status invoice d = StatusJson 200 "paid")).
  intros d d'. apply paid_kept_by_change.
Qed.

Lemma invoices_pay_rows now invoice rows :
  map Order.invoice_number (map (pay_row now invoice) rows)
  = map Order.invoice_number rows.
Proof.
  rewrite List.map_map. apply List.map_ext. intros o. apply invoice_pay_row.
Qed.

Lemma token_count_row now tok t : Token.token (count_row now tok t) = Token.token t.
Proof. unfold count_row. now destruct (String.eqb _ _). Qed.

Lemma invoice_count_row now tok t :
  Token.invoice_number (count_row now tok t) = Token.invoice_number t.
Proof. unfold count_row. now destruct (String.eqb _ _). Qed.

Lemma unique_keys_change db db' : row_change db db' -> unique_keys db -> unique_keys db'.
Proof.
  unfold unique_keys. intros Hc [Ho Ht].
  destruct Hc as [Eo Et|o Eo Et _ Hf|now inv Eo Et|keep Eo Et _|now tok Eo Et
                 |t o Eo Et Hf _ _ _]; rewrite Eo, Et.
  - now split.
  - split; [now apply NoDup_map_snoc|exact Ht].
  - split; [now rewrite invoices_pay_rows|exact Ht].
  - split; [now apply NoDup_map_filter|exact Ht].
  - split; [exact Ho|].
    rewrite List.map_map.
    rewrite (List.map_ext _ Token.token (token_count_row now tok)). exact Ht.
  - split; [exact Ho|now apply NoDup_map_snoc].
Qed.

(** X10.  The two UNIQUE columns stay unique: when no two orders share
    an invoice number and no two tokens share a token string, the same
    holds after every list of actions, whatever invoice numbers and
    token strings the generators return. *)
Theorem unique_keys_kept `{Sanitize} `{SanitizeInvoice} (acts : list action)
    (db : database) :
  unique_keys db -> unique_keys (play acts db).
Proof. apply (play_invariant unique_keys). intros d d'. apply unique_keys_change. Qed.

Lemma tokens_for_paid_orders_change db db' :
  row_change db db' -> tokens_for_paid_orders db -> tokens_for_paid_orders db'.
Proof.
  unfold tokens_for_paid_orders. intros Hc Hinv.
  destruct Hc as [Eo Et|o Eo Et _ _|now inv Eo Et|keep Eo Et Hkeep|now tok Eo Et
                 |t' o' Eo Et _ Hin' Hst' Hinv']; rewrite Eo, Et; intros t Hin.
  - now apply Hinv.
  - destruct (Hinv t Hin) as (x & Hx & E & Hst). exists x.
    split; [apply in_or_app; now left|now split].
  - destruct (Hinv t Hin) as (x & Hx & E & Hst). exists (pay_row now inv x).
    split; [now apply in_map|]. rewrite invoice_pay_row.
    split; [exact E|now apply status_pay_row_paid].
  - destruct (Hinv t Hin) as (x & Hx & E & Hst). exists x.
    split; [|now split]. apply filter_In. split; [exact Hx|].
    apply Hkeep. rewrite Hst. discriminate.
  - apply in_map_iff in Hin as (t0 & <- & Hin0).
    destruct (Hinv t0 Hin0) as (x & Hx & E & Hst). exists x.
    rewrite invoice_count_row. now repeat split.
  - apply in_app_or in Hin as [Hin|[<-|[]]]; [now apply Hinv|].
    exists o'. now repeat split.
Qed.

Lemma head_In {A : Type} (l : list A) (x : A) : head l = Some x -> In x l.
Proof. destruct l; simpl; [discriminate|]. intros E. inversion E. now left. Qed.

Lemma token_join_In tok db dt o p :
  In (dt, o, p) (token_join tok db) ->
  In dt (download_tokens db) /\ Token.token dt = tok /\
  In o (orders db) /\ Order.invoice_number o = Token.invoice_number dt /\
  In p (products db) /\ Product.id p = Token.product_id dt.
Proof.
  unfold token_join. intros Hin.
  apply in_flat_map in Hin as (dt' & Hdt & Hin). apply filter_In in Hdt as [Hdt Et].
  apply in_flat_map in Hin as (o' & Ho & Hin). apply filter_In in Ho as [Ho Eo].
  apply in_map_iff in Hin as (p' & E & Hp). apply filter_In in Hp as [Hp Ep].
  inversion E; subst dt' o' p'.
  apply String.eqb_eq in Et, Eo, Ep. now repeat split.
Qed.

(** X11.  The 403 answer of the download handler is out of reach: in a
    store where invoice numbers are unique and every token belongs to a
    paid order (an empty store, for one), and after any list of actions
    on it, no redemption of any token at any time is answered with
    "Order is not paid yet". *)
Theorem download_never_forbidden `{Sanitize} `{SanitizeInvoice} (acts : list action)
    (db : database) (now : Z) (tok body : string) :
  unique_keys db -> tokens_for_paid_orders db ->
  snd (download now tok (play acts db)) <> Forbidden body.
Proof.
  intros Hu Ht.
  assert (unique_keys (play acts db) /\ tokens_for_paid_orders (play acts db)) as [Hu' Ht'].
  { apply (play_invariant (fun d => unique_keys d /\ tokens_for_paid_orders d));
      [|now split].
    intros d d' Hc [? ?].
    split; [now apply (unique_keys_change d)|now apply (tokens_for_paid_orders_change d)]. }
  unfold download.
  destruct (head (token_join tok (play acts db))) as [[[dt o] p]|] eqn:Hj; [|discriminate].
  apply head_In, token_join_In in Hj as (Hdt & _ & Ho & Einv & _ & _).
  destruct (Ht' dt Hdt) as (o' & Ho' & Einv' & Hst).
  assert (o = o') as <-.
  { apply (NoDup_map_same_key Order.invoice_number (orders (play acts db)));
      [exact (proj1 Hu')|exact Ho|exact Ho'|congruence]. }
  rewrite Hst. simpl. destruct (_ <? _); simpl; [discriminate|].
  unfold deliver.
  destruct (Product.download_link p) as [link|]; [destruct (nonempty link)|];
    try discriminate; destruct (truthy_text (Product.file_path p)); discriminate.
Qed.

(** ** Tokens of orders that are not paid *)

Lemma token_join_intro tok db dt o p :
  In dt (download_tokens db) -> Token.token dt = tok ->
  In o (orders db) -> Order.invoice_number o = Token.invoice_number dt ->
  In p (products db) -> Product.id p = Token.product_id dt ->
  In (dt, o, p) (token_join tok db).
Proof.
  intros Hdt Htok Ho Hinv Hp Hid. unfold token_join.
  apply in_flat_map. exists dt. split.
  { apply filter_In. split; [exact Hdt|now apply String.eqb_eq]. }
  apply in_flat_map. exists o. split.
  { apply filter_In. split; [exact Ho|now apply String.eqb_eq]. }
  apply in_map_iff. exists p. split; [reflexivity|].
  apply filter_In. split; [exact Hp|now apply String.eqb_eq].
Qed.

(** The token of a pending order whose product row is gone: the join
    is empty, and the answer is the expired redirect before the expiry
    too. *)
Example scenario_token_without_product :
  download (Sample.noon - 1) "tok-1" SampleToken.orphan_db
  = (SampleToken.orphan_db, RedirectExpired).
Proof. reflexivity. Qed.

(** C7, amended.  Let no order that a token is bound to be 'paid':
    every order row that carries the invoice number of a row of the
    token has another status.  Redeeming the token then never serves
    (no file, no external link, no "file not found") and leaves the
    store as it was.  The answer is the forbidden one when the token
    has a row that joins to an order row and to a product row and is
    not past its expiry; it is the expired redirect when the token is
    past its expiry, and also when no row of the token joins to an
    order and a product. *)
Theorem unpaid_order_token_is_refused (now : Z) (tok : string) (db : database) :
  (forall dt o, In dt (download_tokens db) -> Token.token dt = tok ->
                In o (orders db) -> Order.invoice_number o = Token.invoice_number dt ->
                Order.status o <> "paid") ->
  fst (download now tok db) = db /\
  (forall link, snd (download now tok db) <> RedirectTo link) /\
  (forall file name, snd (download now tok db) <> SendFile file name) /\
  (forall body, snd (download now tok db) <> NotFound body) /\
  ((exists dt o p,
       In dt (download_tokens db) /\ Token.token dt = tok /\
       In o (orders db) /\ Order.invoice_number o = Token.invoice_number dt /\
       In p (products db) /\ Product.id p = Token.product_id dt) ->
   (forall dt, In dt (download_tokens db) -> Token.token dt = tok ->
               now <= Token.expires_at dt) ->
   snd (download now tok db) = Forbidden "Order is not paid yet") /\
  ((forall dt, In dt (download_tokens db) -> Token.token dt = tok ->
               Token.expires_at dt < now) ->
   snd (download now tok db) = RedirectExpired) /\
  ((forall dt o p,
       In dt (download_tokens db) -> Token.token dt = tok ->
       In o (orders db) -> Order.invoice_number o = Token.invoice_number dt ->
       In p (products db) -> Product.id p = Token.product_id dt -> False) ->
   snd (download now tok db) = RedirectExpired).
Proof.
  intros Hunpaid. unfold download.
  destruct (head (token_join tok db)) as [[[dt o] p]|] eqn:Hj.
  - pose proof (head_In _ _ Hj) as Hin.
    apply token_join_In in Hin as (Hdt & Htok & Ho & Hinv & Hp & Hid).
    pose proof (Hunpaid dt o Hdt Htok Ho Hinv) as Hst.
    apply String.eqb_neq in Hst. rewrite Hst. cbn [negb].
    destruct (Token.expires_at dt <? now) eqn:Hexp; cbn [fst snd].
    + split; [reflexivity|]. split; [discriminate|]. split; [discriminate|].
      split; [discriminate|]. split; [|split; [reflexivity|reflexivity]].
      intros _ Hlive. specialize (Hlive dt Hdt Htok). apply Z.ltb_lt in Hexp. lia.
    + split; [reflexivity|]. split; [discriminate|]. split; [discriminate|].
      split; [discriminate|]. split; [reflexivity|]. split.
      * intros Hdead. specialize (Hdead dt Hdt Htok). apply Z.ltb_ge in Hexp. lia.
      * intros Hnone. elim (Hnone dt o p Hdt Htok Ho Hinv Hp Hid).
  - cbn [fst snd]. split; [reflexivity|]. split; [discriminate|]. split; [discriminate|].
    split; [discriminate|]. split; [|split; reflexivity].
    intros (dt & o & p & Hdt & Htok & Ho & Hinv & Hp & Hid) _.
    pose proof (token_join_intro tok db dt o p Hdt Htok Ho Hinv Hp Hid) as Hin.
    destruct (token_join tok db); [contradiction|discriminate Hj].
Qed.

Lemma unpaid_order_token_is_refused_witness :
  let db := SampleToken.unpaid_db in
  let now := Sample.noon - 1 in
  (forall dt o, In dt (download_tokens db) -> Token.token dt = "tok-1" ->
                In o (orders db) -> Order.invoice_number o = Token.invoice_number dt ->
                Order.status o <> "paid") /\
  fst (download now "tok-1" db) = db /\
  (forall link, snd (download now "tok-1" db) <> RedirectTo link) /\
  (forall file name, snd (download now "tok-1" db) <> SendFile file name) /\
  (forall body, snd (download now "tok-1" db) <> NotFound body) /\
  ((exists dt o p,
       In dt (download_tokens db) /\ Token.token dt = "tok-1" /\
       In o (orders db) /\ Order.invoice_number o = Token.invoice_number dt /\
       In p (products db) /\ Product.id p = Token.product_id dt) ->
   (forall dt, In dt (download_tokens db) -> Token.token dt = "tok-1" ->
               now <= Token.expires_at dt) ->
   snd (download now "tok-1" db) = Forbidden "Order is not paid yet") /\
  ((forall dt, In dt (download_tokens db) -> Token.token dt = "tok-1" ->
               Token.expires_at dt < now) ->
   snd (download now "tok-1" db) = RedirectExpired) /\
  ((forall dt o p,
       In dt (download_tokens db) -> Token.token dt = "tok-1" ->
       In o (orders db) -> Order.invoice_number o = Token.invoice_number dt ->
       In p (products db) -> Product.id p = Token.product_id dt -> False) ->
   snd (download now "tok-1" db) = RedirectExpired).
Proof.
  intros db now.
  assert (forall dt o, In dt (download_tokens db) -> Token.token dt = "tok-1" ->
                       In o (orders db) ->
                       Order.invoice_number o = Token.invoice_number dt ->
                       Order.status o <> "paid") as Hunpaid.
  { intros dt o _ _ [<-|[]] _. discriminate. }
  split; [exact Hunpaid|].
  exact (unpaid_order_token_is_refused now "tok-1" db Hunpaid).
Defined.


(** ** From a new token to its download *)

Lemma filter_nil_existsb {A : Type} (p : A -> bool) (l : list A) :
  List.existsb p l = false -> List.filter p l = [].
Proof.
  induction l as [|x l IH]; simpl; [reflexivity|]. intros H.
  apply orb_false_iff in H as [-> Hl]. now apply IH.
Qed.

Lemma find_none_filter {A : Type} (p : A -> bool) (l : list A) :
  List.find p l = None -> List.filter p l = [].
Proof.
  induction l as [|x l IH]; simpl; [reflexivity|].
  destruct (p x); [discriminate|exact IH].
Qed.

Lemma flat_map_nil {A B : Type} (l : list A) : flat_map (fun _ : A => @nil B) l = [].
Proof. induction l; simpl; auto. Qed.

Lemma not_in_existsb_false {A : Type} (key : A -> string) (k : string) (l : list A) :
  ~ In k (map key l) -> List.existsb (fun x => String.eqb (key x) k) l = false.
Proof.
  intros Hnot. destruct (List.existsb _ l) eqn:Hex; [|reflexivity].
  exfalso. apply Hnot. apply existsb_exists in Hex as (x & Hin & He).
  apply String.eqb_eq in He. subst k. now apply in_map.
Qed.

(** The join for a token that has just been written. *)
Lemma token_join_new now0 expires tok invoice pid db o :
  List.existsb (fun t => String.eqb (Token.token t) tok) (download_tokens db) = false ->
  order_by_invoice invoice db = Some o ->
  head (token_join tok (insert_token now0 expires tok invoice pid db))
  = option_map (fun p => (Token.mk tok invoice pid (CURRENT_TIMESTAMP now0) expires
                            false 0 None, o, p))
               (product_by_id pid db).
Proof.
  intros Hex Ho. unfold token_join, insert_token. rewrite Hex.
  cbn [download_tokens orders products set_download_tokens].
  rewrite List.filter_app, (filter_nil_existsb _ _ Hex).
  cbn [List.filter app Token.token]. rewrite String.eqb_refl.
  cbn [flat_map Token.invoice_number Token.product_id]. rewrite app_nil_r.
  unfold order_by_invoice in Ho. apply find_filter_first in Ho as (rest & ->).
  unfold product_by_id.
  destruct (List.find _ (products db)) as [p|] eqn:Hp.
  - apply find_filter_first in Hp as (rest' & ->). reflexivity.
  - rewrite (find_none_filter _ _ Hp). cbn [map flat_map app]. now rewrite flat_map_nil.
Qed.

Lemma download_new_token now0 expires tok invoice pid db o now :
  List.existsb (fun t => String.eqb (Token.token t) tok) (download_tokens db) = false ->
  order_by_invoice invoice db = Some o -> Order.status o = "paid" ->
  snd (download now tok (insert_token now0 expires tok invoice pid db))
  = link_answer expires now (product_by_id pid db).
Proof.
  intros Hex Ho Hst. unfold download.
  rewrite (token_join_new now0 expires tok invoice pid db o Hex Ho).
  unfold link_answer. destruct (product_by_id pid db) as [p|]; [|reflexivity].
  cbn [option_map Token.expires_at]. rewrite Hst.
  destruct (expires <? now); reflexivity.
Qed.

(** The shape of a recovery that renders a link. *)
Lemma recover_link `{Sanitize} `{SanitizeInvoice} env req db db' order tok :
  recover env req db = (db', RecoverLink order tok) ->
  order_by_invoice (sanitizeInvoiceNumber (Recover.invoice_number req)) db = Some order /\
  contact_verified (sanitizeEmail (Recover.customer_email req))
                   (sanitizePhone (Recover.customer_whatsapp req))
                   (sanitizeText (Recover.customer_telegram req) 100) order = true /\
  Order.status order = "paid" /\ tok = w_token env /\
  List.existsb (fun t => String.eqb (Token.token t) tok) (download_tokens db) = false /\
  exists expires,
    expiresAt (w_now env) (expiryMinutes (getSettings db)) = Returned expires /\
    db' = insert_token (w_now env) expires tok
            (Order.invoice_number order) (Order.product_id order) db.
Proof.
  unfold recover.
  destruct (negb (nonempty _)); [discriminate|].
  destruct (order_by_invoice _ db) as [o|] eqn:Ho; [|discriminate].
  destruct (negb (contact_verified _ _ _ _)) eqn:Hc; [discriminate|].
  destruct (negb (String.eqb _ _)) eqn:Hp; [discriminate|].
  destruct (expiresAt _ _) as [expires|e] eqn:He; [|discriminate].
  destruct (List.existsb _ _) eqn:Hex; [discriminate|].
  intros E. inversion E; subst.
  apply negb_false_iff in Hc, Hp. apply String.eqb_eq in Hp.
  repeat split; try assumption. exists expires. now split.
Qed.

(** X12.  The link that recovery renders works: redeeming the new token
    serves the deliverable of the order's product at every instant up
    to the expiry that the handler computed, and gets the expired
    redirect later; when the product row is gone the redirect is all
    there is. *)
Theorem recovered_link_is_served `{Sanitize} `{SanitizeInvoice} (env : webhook_env)
    (req : Recover.request) (db db' : database) (order : Order.row) (tok : string) :
  recover env req db = (db', RecoverLink order tok) ->
  exists expires,
    expiresAt (w_now env) (expiryMinutes (getSettings db)) = Returned expires /\
    forall now,
      snd (download now tok db')
      = link_answer expires now (product_by_id (Order.product_id order) db).
Proof.
  intros Hr.
  destruct (recover_link env req db db' order tok Hr)
    as (Ho & _ & Hst & _ & Hex & expires & He & ->).
  exists expires. split; [exact He|]. intros now.
  apply (download_new_token _ _ _ _ _ _ order); try assumption.
  apply order_by_invoice_In in Ho as Hi. destruct Hi as [_ Hi].
  unfold order_by_invoice in *. now rewrite Hi.
Qed.

Lemma deliver_decrease_row pid p : deliver (decrease_row pid p) = deliver p.
Proof. unfold decrease_row. now destruct (_ && _). Qed.

Lemma product_by_id_decrease pid pid' db :
  product_by_id pid (decrease_stock pid' db)
  = option_map (decrease_row pid') (product_by_id pid db).
Proof.
  unfold product_by_id, decrease_stock. cbn [products set_products].
  apply find_map_same. intros p. unfold decrease_row. now destruct (_ && _).
Qed.

(** X13.  The link of a processed payment works: when the webhook
    answers "Payment processed" and the generated token string was not
    in use, redeeming that token serves the deliverable of the paid
    order's product up to the computed expiry and gets the expired
    redirect later. *)
Theorem paid_link_is_served (env : webhook_env) (apiKey : option string)
    (n : notification) (db : database) (invoice : string) :
  snd (webhook_payment env apiKey n db)
  = Json 200 "success" "Payment processed" (Some invoice) ->
  ~ In (w_token env) (map Token.token (download_tokens db)) ->
  exists order expires,
    In order (orders db) /\ Order.invoice_number order = invoice /\
    Order.status order = "pending" /\
    expiresAt (w_now env) (expiryMinutes (getSettings db)) = Returned expires /\
    forall now,
      snd (download now (w_token env) (fst (webhook_payment env apiKey n db)))
      = link_answer expires now (product_by_id (Order.product_id order) db).
Proof.
  intros Hreply Hfresh.
  destruct (webhook_processed env apiKey n db invoice Hreply)
    as (a & order & expires & _ & _ & Ha & F & Hinv & He & ->).
  exists order, expires.
  pose proof (find_pending_order_In _ _ _ F) as Hin.
  assert (Order.status order = "pending") as Hst.
  { apply latest_In, filter_In in F as [_ Hp]. unfold pending_with_amount in Hp.
    destruct a; [discriminate| |discriminate]. apply andb_true_iff in Hp as [_ Hp].
    now apply String.eqb_eq. }
  repeat split; try assumption. intros now.
  destruct (In_find_some (fun o => String.eqb (Order.invoice_number o) invoice)
              (orders db) order Hin) as (y & Hy & Ey); [now apply String.eqb_eq|].
  rewrite (download_new_token _ _ _ _ _ _ (pay_row (w_now env) invoice y)).
  - rewrite product_by_id_decrease. unfold link_answer.
    destruct (product_by_id (Order.product_id order) (mark_paid _ _ db)) as [p|] eqn:Hp;
      unfold product_by_id in *; cbn [products mark_paid set_orders] in Hp; rewrite Hp;
      [|reflexivity].
    cbn [option_map]. now rewrite deliver_decrease_row.
  - now apply not_in_existsb_false.
  - rewrite (order_by_invoice_pay_rows (w_now env) invoice invoice (orders db))
      by reflexivity.
    now rewrite Hy.
  - unfold pay_row. now rewrite Ey.
Qed.

(** ** Recovery asks for a paid order and a contact of its buyer *)

Lemma nonempty_true s : nonempty s = true -> s <> "".
Proof. unfold nonempty. intros H E. subst s. discriminate. Qed.

Lemma same_ignoring_case_true given kept :
  same_ignoring_case given kept = true ->
  given <> "" /\ exists k, kept = Some k /\ k <> "" /\ toLowerCase given = toLowerCase k.
Proof.
  unfold same_ignoring_case. intros E.
  apply andb_true_iff in E as [E E3]. apply andb_true_iff in E as [E1 E2].
  destruct kept as [k|]; [|discriminate]. simpl in *.
  apply String.eqb_eq in E3.
  split; [now apply nonempty_true|]. exists k. repeat split; [now apply nonempty_true|exact E3].
Qed.

Lemma same_exactly_true given kept :
  same_exactly given kept = true -> given <> "" /\ kept = Some given.
Proof.
  unfold same_exactly. intros E.
  apply andb_true_iff in E as [E E3]. apply andb_true_iff in E as [E1 E2].
  destruct kept as [k|]; [|discriminate]. simpl in *.
  apply String.eqb_eq in E3. subst k. split; [now apply nonempty_true|reflexivity].
Qed.

(** X14.  Recovery hands out a link only for an order of the store that
    is paid and only to a request that names one of the order's own
    contacts, not blank: the email or the Telegram name up to letter
    case, or the WhatsApp number exactly.  Every other answer leaves
    the store as it was. *)
Theorem recovery_needs_paid_order_and_contact `{Sanitize} `{SanitizeInvoice}
    (env : webhook_env) (req : Recover.request) (db : database) :
  let email := sanitizeEmail (Recover.customer_email req) in
  let whatsapp := sanitizePhone (Recover.customer_whatsapp req) in
  let telegram := sanitizeText (Recover.customer_telegram req) 100 in
  match snd (recover env req db) with
  | RecoverLink order tok =>
      In order (orders db) /\ Order.status order = "paid" /\
      ((email <> "" /\ exists e, Order.customer_email order = Some e /\ e <> "" /\
                                 toLowerCase email = toLowerCase e) \/
       (whatsapp <> "" /\ Order.customer_whatsapp order = Some whatsapp) \/
       (telegram <> "" /\ exists t, Order.customer_telegram order = Some t /\ t <> "" /\
                                    toLowerCase telegram = toLowerCase t))
  | RecoverError _ | RecoverUncaught _ => fst (recover env req db) = db
  end.
Proof.
  intros email whatsapp telegram.
  destruct (recover env req db) as [db' reply] eqn:Hr.
  destruct reply as [e|order tok|e]; simpl.
  - unfold recover in Hr.
    destruct (negb (nonempty _)); [now inversion Hr|].
    destruct (order_by_invoice _ db); [|now inversion Hr].
    destruct (negb (contact_verified _ _ _ _)); [now inversion Hr|].
    destruct (negb (String.eqb _ _)); [now inversion Hr|].
    destruct (expiresAt _ _); [|now inversion Hr].
    destruct (List.existsb _ _); [now inversion Hr|discriminate].
  - destruct (recover_link env req db db' order tok Hr) as (Ho & Hc & Hst & _).
    apply order_by_invoice_In in Ho as [Hin _].
    split; [exact Hin|]. split; [exact Hst|].
    unfold contact_verified in Hc. fold email whatsapp telegram in Hc.
    apply orb_true_iff in Hc as [Hc|Hc]; [apply orb_true_iff in Hc as [Hc|Hc]|].
    + left. now apply same_ignoring_case_true.
    + right; left. now apply same_exactly_true.
    + right; right. now apply same_ignoring_case_true.
  - unfold recover in Hr.
    destruct (negb (nonempty _)); [discriminate|].
    destruct (order_by_invoice _ db); [|discriminate].
    destruct (negb (contact_verified _ _ _ _)); [discriminate|].
    destruct (negb (String.eqb _ _)); [discriminate|].
    destruct (expiresAt _ _); [|now inversion Hr].
    destruct (List.existsb _ _); discriminate.
Qed.

(** ** The checkout page and the checkout *)

(** X15.  The form and its submission agree on the product: when the
    page of a product is refused (404 for an unknown or inactive
    product, 400 for one out of stock), a submission with an email is
    refused with 400 "Product not available" and writes nothing; when
    the page shows the product, the submission writes an order for
    that product, or fails with 500 on a taken invoice number. *)
Theorem checkout_page_agrees_with_checkout `{Sanitize} (env : creation_env)
    (req : checkout_request) (db : database) :
  nonempty (sanitizeEmail (customer_email req)) = true ->
  match checkout_page (productId req) db with
  | PageStatus _ _ =>
      checkout env req db = (db, SendStatus 400 "Product not available")
  | PageCheckout product =>
      checkout env req db = (db, SendStatus 500 "Server error during checkout") \/
      exists o,
        checkout env req db
        = (set_orders db (orders db ++ [o]), RenderCheckout (view_of o)) /\
        Order.product_id o = Product.id product /\
        Order.product_name o = Product.name product /\
        Order.product_price o = Product.price product /\
        Order.invoice_number o = c_invoiceNumber env
  end.
Proof.
  intros He. unfold checkout_page, checkout. rewrite He. cbn [negb].
  destruct (active_product (productId req) db) as [p|]; [|reflexivity].
  destruct (Product.stock p <=? 0); [reflexivity|].
  unfold insert_order. destruct (List.existsb _ _); [now left|].
  right. eexists. split; [reflexivity|]. now repeat split.
Qed.

(** ** What the actions leave alone *)

Lemma same_product_refl p : same_product_less_stock p p.
Proof. unfold same_product_less_stock. repeat split; lia. Qed.

Lemma same_product_decrease pid p : same_product_less_stock p (decrease_row pid p).
Proof.
  unfold same_product_less_stock, decrease_row.
  destruct (_ && _); simpl; repeat split; lia.
Qed.

Lemma same_product_trans p q r :
  same_product_less_stock p q -> same_product_less_stock q r ->
  same_product_less_stock p r.
Proof.
  unfold same_product_less_stock.
  intros (?&?&?&?&?&?&?) (?&?&?&?&?&?&?). repeat split; try congruence; lia.
Qed.

Lemma Forall2_same_refl (l : list Product.row) : Forall2 same_product_less_stock l l.
Proof. induction l; constructor; [apply same_product_refl|assumption]. Qed.

Lemma Forall2_same_decrease pid (l : list Product.row) :
  Forall2 same_product_less_stock l (map (decrease_row pid) l).
Proof. induction l; constructor; [apply same_product_decrease|assumption]. Qed.

Lemma Forall2_same_trans (l m r : list Product.row) :
  Forall2 same_product_less_stock l m -> Forall2 same_product_less_stock m r ->
  Forall2 same_product_less_stock l r.
Proof.
  intros H. revert r. induction H as [|p q l m Hpq _ IH]; intros r Hr.
  - inversion Hr. constructor.
  - inversion Hr as [|? y ? r' Hqy Hmr]; subst. constructor.
    + now apply (same_product_trans p q y).
    + now apply IH.
Qed.

Lemma products_recover `{Sanitize} `{SanitizeInvoice} env req db :
  products (fst (recover env req db)) = products db /\
  settings (fst (recover env req db)) = settings db.
Proof.
  unfold recover.
  destruct (negb (nonempty _)); [now split|].
  destruct (order_by_invoice _ db); [|now split].
  destruct (negb (contact_verified _ _ _ _)); [now split|].
  destruct (negb (String.eqb _ _)); [now split|].
  destruct (expiresAt _ _); [|now split].
  destruct (List.existsb _ _); [now split|]. simpl.
  now rewrite products_insert_token, settings_insert_token.
Qed.

Lemma products_download now tok db :
  products (fst (download now tok db)) = products db /\
  settings (fst (download now tok db)) = settings db.
Proof.
  unfold download. destruct (head _) as [[[dt o] p]|]; [|now split].
  destruct (_ <? _); [now split|]. destruct (negb _); now split.
Qed.

Lemma products_sweep now db :
  products (cleanupExpiredOrders now db) = products db /\
  settings (cleanupExpiredOrders now db) = settings db.
Proof. unfold cleanupExpiredOrders. destruct (toISOString _); now split. Qed.

Lemma act_products `{Sanitize} `{SanitizeInvoice} (a : action) (db : database) :
  Forall2 same_product_less_stock (products db) (products (act a db)).
Proof.
  destruct a as [[env req|env p email whatsapp|env apiKey n|now|now tok]|env req|key value|];
    simpl.
  - destruct (checkout_cases env req db) as [->|(p & e & w & t & _ & ->)];
      apply Forall2_same_refl.
  - destruct (createOrder_cases env p email whatsapp db) as [->| ->];
      apply Forall2_same_refl.
  - destruct (webhook_cases env apiKey n db) as [->|(order & _ & _ & ->)];
      [apply Forall2_same_refl|apply Forall2_same_decrease].
  - rewrite (proj1 (products_sweep now db)). apply Forall2_same_refl.
  - rewrite (proj1 (products_download now tok db)). apply Forall2_same_refl.
  - rewrite (proj1 (products_recover env req db)). apply Forall2_same_refl.
  - unfold updateSetting. destruct (_ !! _); apply Forall2_same_refl.
  - apply Forall2_same_refl.
Qed.

Lemma products_after_play `{Sanitize} `{SanitizeInvoice} (acts : list action)
    (db : database) :
  Forall2 same_product_less_stock (products db) (products (play acts db)).
Proof.
  revert db. induction acts as [|a acts IH]; intros db.
  - apply Forall2_same_refl.
  - rewrite play_cons.
    apply (Forall2_same_trans _ (products (act a db))); [apply act_products|apply IH].
Qed.

(** X16.  No action adds, removes, reorders or edits a product: after
    any list of actions the product table has the same rows in the same
    places, each with its id, name, price, file, link and active flag,
    and with a stock that is at most what it was. *)
Theorem products_only_lose_stock `{Sanitize} `{SanitizeInvoice} (acts : list action)
    (db : database) :
  Forall2 same_product_less_stock (products db) (products (play acts db)).
Proof. apply products_after_play. Qed.

Lemma settings_checkout `{Sanitize} env req db :
  settings (fst (checkout env req db)) = settings db.
Proof.
  destruct (checkout_cases env req db) as [->|(p & e & w & t & _ & ->)]; reflexivity.
Qed.

Lemma settings_createOrder env p email whatsapp db :
  settings (fst (createOrder env p email whatsapp db)) = settings db.
Proof.
  destruct (createOrder_cases env p email whatsapp db) as [->| ->]; reflexivity.
Qed.

(** X17.  Customer traffic cannot touch the settings: after any list of
    checkouts, bot orders, webhook deliveries, sweeps, downloads and
    recoveries the settings table is what it was; so the webhook key
    and the token lifetime change through the administration only. *)
Theorem settings_kept_by_customer_actions `{Sanitize} `{SanitizeInvoice}
    (acts : list action) (db : database) :
  forallb customer_action acts = true ->
  settings (play acts db) = settings db.
Proof.
  revert db. induction acts as [|a acts IH]; intros db Hc; [reflexivity|].
  simpl in Hc. apply andb_true_iff in Hc as [Ha Hc].
  rewrite play_cons, (IH _ Hc).
  destruct a as [[env req|env p email whatsapp|env apiKey n|now|now tok]|env req|key value|];
    try discriminate; simpl.
  - apply settings_checkout.
  - apply settings_createOrder.
  - apply settings_after_webhook.
  - apply (proj2 (products_sweep now db)).
  - apply (proj2 (products_download now tok db)).
  - apply (proj2 (products_recover env req db)).
Qed.

(** ** The conversation of the bot *)

Ltac other_state :=
  let E := fresh "E" in
  intros [E|E]; simpl in E; discriminate E.

Lemma getUserSession_spec now userId ss :
  fst (getUserSession now userId ss) !! userId = Some (snd (getUserSession now userId ss)) /\
  (sessions_ok ss -> sessions_ok (fst (getUserSession now userId ss))).
Proof.
  unfold getUserSession. destruct (ss !! userId) as [s|] eqn:Hs; simpl.
  - now split.
  - split; [apply lookup_insert_eq|].
    intros Hok u s Hu. destruct (decide (u = userId)) as [->|Hne].
    + rewrite lookup_insert_eq in Hu. inversion Hu. other_state.
    + rewrite lookup_insert_ne in Hu by congruence. now apply (Hok u).
Qed.

Lemma updateUserSession_ok now userId state data ss :
  sessions_ok ss -> session_ok (Session.mk state data now) ->
  sessions_ok (updateUserSession now userId state data ss).
Proof.
  intros Hok Hs. unfold updateUserSession.
  pose proof (proj2 (getUserSession_spec now userId ss) Hok) as Hok1.
  destruct (getUserSession now userId ss) as [ss1 s1]. simpl in Hok1.
  intros u s Hu. destruct (decide (u = userId)) as [->|Hne].
  - rewrite lookup_insert_eq in Hu. now inversion Hu.
  - rewrite lookup_insert_ne in Hu by congruence. now apply (Hok1 u).
Qed.

Lemma clear_old_sessions_ok now ss : sessions_ok ss -> sessions_ok (clear_old_sessions now ss).
Proof.
  intros Hok u s Hu. unfold clear_old_sessions in Hu.
  apply map_lookup_filter_Some in Hu as [Hu _]. now apply (Hok u).
Qed.

Lemma handleMessage_ok `{BotController} env userId body db ss :
  (forall ss', b_meanwhile env ss' = ss') ->
  sessions_ok ss ->
  sessions_ok (fst (fst (handleMessage env userId body db ss))) /\
  ~ In CheckoutExpired (snd (handleMessage env userId body db ss)).
Proof.
  intros Hquiet Hok0.
  assert (forall ss', resumed env ss' = ss') as Hres by exact Hquiet.
  unfold handleMessage.
  destruct (getUserSession_spec (c_now (b_order env)) userId ss) as [Hget Hok1].
  specialize (Hok1 Hok0).
  destruct (getUserSession (c_now (b_order env)) userId ss) as [ss1 session].
  simpl in Hget, Hok1.
  assert (session_ok session) as Hsession by now apply (Hok1 userId).
  assert (forall x : outgoing, x <> CheckoutExpired -> ~ In CheckoutExpired [x]) as Hone.
  { intros x Hx [E|[]]. now apply Hx. }
  destruct (_ || _ || _).
  { simpl. split; [rewrite ?Hres; apply updateUserSession_ok; [exact Hok1|other_state]|].
    apply Hone; discriminate. }
  destruct (_ || _ || _).
  { simpl. split; [exact Hok1|apply Hone; discriminate]. }
  destruct (_ || _).
  { simpl. split; [exact Hok1|apply Hone; discriminate]. }
  destruct (String.eqb (Session.state session) "menu").
  { unfold handleMenuState. rewrite ?Hres. simpl.
    destruct (_ || _); simpl.
    { split; [rewrite ?Hres; apply updateUserSession_ok; [exact Hok1|other_state]|apply Hone; discriminate]. }
    destruct (_ || _); simpl.
    { split; [rewrite ?Hres; apply updateUserSession_ok; [exact Hok1|other_state]|apply Hone; discriminate]. }
    destruct (String.eqb _ "3"); simpl;
      (split; [exact Hok1|apply Hone; discriminate]). }
  destruct (String.eqb (Session.state session) "category_list").
  { unfold handleCategorySelection. rewrite ?Hres.
    destruct (getUserSession_spec (c_now (b_order env)) userId ss1) as [_ Hok2].
    specialize (Hok2 Hok1).
    destruct (getUserSession (c_now (b_order env)) userId ss1) as [ss2 s2]. simpl in Hok2.
    destruct (chosen _ _); simpl.
    - split; [rewrite ?Hres; apply updateUserSession_ok; [exact Hok2|other_state]|apply Hone; discriminate].
    - split; [exact Hok2|apply Hone; discriminate]. }
  destruct (String.eqb (Session.state session) "product_list").
  { unfold handleProductSelection. rewrite ?Hres.
    destruct (getUserSession_spec (c_now (b_order env)) userId ss1) as [_ Hok2].
    specialize (Hok2 Hok1).
    destruct (getUserSession (c_now (b_order env)) userId ss1) as [ss2 s2]. simpl in Hok2.
    destruct (chosen _ _) as [p|]; simpl.
    - destruct (0 <? Product.stock p) eqn:Hstock; simpl.
      + split.
        * rewrite ?Hres; apply updateUserSession_ok; [exact Hok2|]. intros _. exists p.
          split; [reflexivity|]. now apply Z.ltb_lt.
        * intros [E|[E|[]]]; discriminate.
      + split; [exact Hok2|]. intros [E|[E|[]]]; discriminate.
    - split; [exact Hok2|apply Hone; discriminate]. }
  destruct (String.eqb (Session.state session) "product_detail") eqn:Hdetail.
  { unfold handleProductAction. rewrite ?Hres. apply String.eqb_eq in Hdetail.
    destruct (_ || _); simpl.
    - destruct (getUserSession_spec (c_now (b_order env)) userId ss1) as [Hget2 Hok2].
      specialize (Hok2 Hok1).
      assert (getUserSession (c_now (b_order env)) userId ss1 = (ss1, session)) as ->.
      { unfold getUserSession. now rewrite Hget. }
      simpl. split; [|apply Hone; discriminate].
      rewrite ?Hres; apply updateUserSession_ok; [exact Hok1|].
      intros _. simpl. apply Hsession. now left.
    - split; [exact Hok1|apply Hone; discriminate]. }
  destruct (String.eqb (Session.state session) "checkout") eqn:Hcheckout.
  { unfold handleCheckout. rewrite ?Hres. apply String.eqb_eq in Hcheckout.
    destruct (_ || _); simpl.
    { split; [exact Hok1|apply Hone; discriminate]. }
    assert (getUserSession (c_now (b_order env)) userId ss1 = (ss1, session)) as ->.
    { unfold getUserSession. now rewrite Hget. }
    destruct Hsession as (p & -> & _); [now right|].
    destruct (createOrder _ _ _ _ _) as [db' [order|e]];
      [destruct (generateQRISImage env order)|]; simpl.
    - split; [rewrite ?Hres; apply updateUserSession_ok; [exact Hok1|other_state]|].
      intros [E|[E|[E|[]]]]; discriminate.
    - split; [exact Hok1|]. intros [E|[E|[]]]; discriminate.
    - split; [exact Hok1|]. intros [E|[E|[]]]; discriminate. }
  destruct (String.eqb (Session.state session) "search").
  { unfold handleSearch. rewrite ?Hres. destruct (_ <? 3); simpl.
    { split; [exact Hok1|apply Hone; discriminate]. }
    destruct (searchProducts _ _); simpl.
    - split; [exact Hok1|apply Hone; discriminate].
    - split; [rewrite ?Hres; apply updateUserSession_ok; [exact Hok1|other_state]|apply Hone; discriminate]. }
  simpl. rewrite Hres.
  split; [rewrite ?Hres; apply updateUserSession_ok; [exact Hok1|other_state]|apply Hone; discriminate].
Qed.

Lemma bot_step_ok `{Sanitize} `{SanitizeInvoice} `{BotController} e ss db :
  undisturbed e -> sessions_ok ss ->
  sessions_ok (fst (fst (bot_step e (ss, db)))) /\
  ~ In CheckoutExpired (snd (bot_step e (ss, db))).
Proof.
  intros Hquiet Hok. destruct e as [env from body|now|a]; simpl.
  - unfold on_message. destruct (includes _ _); [now split|].
    destruct (String.eqb _ _); [now split|]. now apply handleMessage_ok.
  - split; [now apply clear_old_sessions_ok|intros []].
  - split; [exact Hok|intros []].
Qed.

(** X18.  As long as no handler of the bot is overlapped (during the
    sends and queries that a handler awaits, no other message is
    handled and the sessions are not cleared), a session reaches the
    states 'product_detail' and 'checkout' only with a product that was
    in stock when it was chosen, and keeps it there.  So from sessions
    of this kind (none at all, when the bot starts) no list of such
    messages, session clearings and shop actions makes the bot answer
    that the checkout session has run out. *)
Theorem checkout_session_keeps_product `{Sanitize} `{SanitizeInvoice} `{BotController}
    (es : list bot_event) (ss : sessions) (db : database) :
  List.Forall undisturbed es ->
  sessions_ok ss ->
  sessions_ok (fst (fst (bot_run es (ss, db)))) /\
  ~ In CheckoutExpired (snd (bot_run es (ss, db))).
Proof.
  revert ss db. induction es as [|e es IH]; intros ss db Hquiet Hok.
  - simpl. split; [exact Hok|intros []].
  - cbn [bot_run]. inversion Hquiet as [|? ? He Hes]; subst.
    destruct (bot_step_ok e ss db He Hok) as [Hok1 Hsent1].
    destruct (bot_step e (ss, db)) as [[ss1 db1] sent1]. simpl in Hok1, Hsent1.
    destruct (IH ss1 db1 Hes Hok1) as [Hok2 Hsent2].
    destruct (bot_run es (ss1, db1)) as [[ss2 db2] sent2]. simpl in *.
    split; [exact Hok2|]. intros Hin. apply in_app_or in Hin as [Hin|Hin]; auto.
Qed.

Lemma trimEnd_idempotent (s : string) : trimEnd (trimEnd s) = trimEnd s.
Proof.
  induction s as [|c s IH]; [reflexivity|]. cbn [trimEnd].
  destruct (is_js_space c && negb (nonempty (trimEnd s))) eqn:E; [reflexivity|].
  cbn [trimEnd]. now rewrite IH, E.
Qed.

Lemma skip_while_done (p : ascii -> bool) (s : string) :
  skip_while p (skip_while p s) = skip_while p s.
Proof.
  induction s as [|c s IH]; [reflexivity|]. cbn [skip_while].
  destruct (p c) eqn:E; [exact IH|]. cbn [skip_while]. now rewrite E.
Qed.

Lemma skip_while_trimEnd (s : string) :
  skip_while is_js_space s = s -> skip_while is_js_space (trimEnd s) = trimEnd s.
Proof.
  destruct s as [|c s]; [reflexivity|]. cbn [skip_while trimEnd].
  destruct (is_js_space c) eqn:E.
  - intros Hs. exfalso.
    assert (forall t, String.length (skip_while is_js_space t) <= String.length t)%nat as Hlen.
    { induction t as [|x t IHt]; simpl; [lia|]. destruct (is_js_space x); simpl; lia. }
    specialize (Hlen s). rewrite Hs in Hlen. simpl in Hlen. lia.
  - intros _. cbn [andb skip_while]. now rewrite E.
Qed.

(** [trim] of a trimmed text changes nothing; the handlers trim the
    text that [handleMessage] has trimmed once more. *)
Lemma trim_idempotent (s : string) : trim (trim s) = trim s.
Proof.
  unfold trim. rewrite skip_while_trimEnd by apply skip_while_done.
  apply trimEnd_idempotent.
Qed.

Lemma includes_nonempty (needle s : string) :
  needle <> "" -> includes needle s = true -> s <> "".
Proof.
  intros Hn Hi ->. simpl in Hi. destruct needle; [now elim Hn|discriminate Hi].
Qed.

Lemma or_null_nonempty (s : string) : s <> "" -> or_null s = Some s.
Proof.
  intros Hs. unfold or_null, nonempty.
  destruct (String.eqb_spec s ""); [contradiction|reflexivity].
Qed.

Lemma on_message_store `{BotController} (env : bot_env)
    (from body : string) (db : database) (ss : sessions) :
  snd (fst (on_message env from body db ss)) = db \/
  exists s p,
    ss !! from = Some s /\ Session.state s = "checkout" /\
    d_product (Session.data s) = Some p /\
    includes "@g.us" from = false /\
    includes "@" (trim body) = true /\ includes "." (trim body) = true /\
    snd (fst (on_message env from body db ss))
    = set_orders db
        (orders db ++ [new_order (b_order env) (getSettings db) p
                         (Some (trim body)) (or_null (before_first "@" from)) None]).
Proof.
  unfold on_message. destruct (includes "@g.us" from) eqn:Hgroup; [now left|].
  destruct (String.eqb from "status@broadcast"); [now left|].
  unfold handleMessage, getUserSession.
  destruct (ss !! from) as [s|] eqn:Hs.
  - destruct (_ || _ || _); [now left|].
    destruct (_ || _ || _); [now left|].
    destruct (_ || _); [now left|].
    destruct (String.eqb (Session.state s) "menu"); [now left|].
    destruct (String.eqb (Session.state s) "category_list"); [now left|].
    destruct (String.eqb (Session.state s) "product_list"); [now left|].
    destruct (String.eqb (Session.state s) "product_detail"); [now left|].
    destruct (String.eqb (Session.state s) "checkout") eqn:Hst;
      [|destruct (String.eqb (Session.state s) "search"); now left].
    apply String.eqb_eq in Hst. unfold handleCheckout, getUserSession.
    rewrite trim_idempotent.
    destruct (includes "@" (trim body)) eqn:Hat; [|now left].
    destruct (includes "." (trim body)) eqn:Hdot; [|now left].
    cbn [negb orb]. rewrite Hs.
    destruct (d_product (Session.data s)) as [p|] eqn:Hp; [|now left].
    assert (snd (fst (let '(db', r) := createOrder (b_order env) p (trim body)
                                         (before_first "@" from) db in
                      match r with
                      | Returned order =>
                          if generateQRISImage env order
                          then (updateUserSession (c_now (b_order env)) from "menu" no_data
                                  (resumed env ss),
                                db', [Processing; Invoice order; QrImage order])
                          else (ss, db', [Processing; Failed])
                      | Thrown _ => (ss, db', [Processing; Failed])
                      end))
            = fst (createOrder (b_order env) p (trim body) (before_first "@" from) db))
      as Hdb.
    { destruct (createOrder _ _ _ _ _) as [db' [order|e]];
        [destruct (generateQRISImage env order)|]; reflexivity. }
    destruct (createOrder_cases (b_order env) p (trim body) (before_first "@" from) db)
      as [E|E].
    + left. etransitivity; [|exact E]. etransitivity; [|exact Hdb].
      destruct (createOrder _ _ _ _ _) as [db' [order|e]]; reflexivity.
    + right. exists s, p. repeat split; try assumption.
      rewrite (or_null_nonempty (trim body)) in E
        by (apply (includes_nonempty "@"); [discriminate|exact Hat]).
      etransitivity; [|exact E]. etransitivity; [|exact Hdb].
      destruct (createOrder _ _ _ _ _) as [db' [order|e]]; reflexivity.
  - cbn [Session.state].
    destruct (_ || _ || _); [now left|].
    destruct (_ || _ || _); [now left|].
    destruct (_ || _); [now left|].
    now left.
Qed.

(** X19.  The bot writes an order only at the end of a conversation:
    a message changes the store only when it comes from a single chat
    (no group) whose session is in the state 'checkout' and keeps a
    product, and when its text, blanks at the ends apart, contains an
    at sign and a dot.  The store is then the old one with one more
    order, for the kept product, with that text as the email and the
    part of the chat id before the at sign as the WhatsApp number. *)
Theorem bot_order_needs_session_and_email `{BotController} (env : bot_env)
    (from body : string) (db : database) (ss : sessions) :
  snd (fst (on_message env from body db ss)) = db \/
  exists s p,
    ss !! from = Some s /\ Session.state s = "checkout" /\
    d_product (Session.data s) = Some p /\
    includes "@g.us" from = false /\
    includes "@" (trim body) = true /\ includes "." (trim body) = true /\
    snd (fst (on_message env from body db ss))
    = set_orders db
        (orders db ++ [new_order (b_order env) (getSettings db) p
                         (Some (trim body)) (or_null (before_first "@" from)) None]).
Proof. apply on_message_store. Qed.

(** ** From the chat of a bot order to the chat of its notification *)

Lemma take_while_app (p : ascii -> bool) (a : string) (c : ascii) (r : string) :
  all_chars p a = true -> p c = false -> take_while p (a +:+ String c r) = a.
Proof.
  intros Ha Hc. induction a as [|x a IH].
  - change ("" +:+ String c r) with (String c r). cbn [take_while]. now rewrite Hc.
  - change (String x a +:+ String c r) with (String x (a +:+ String c r)).
    cbn [all_chars] in Ha. apply andb_true_iff in Ha as [Hx Ha].
    cbn [take_while]. now rewrite Hx, IH.
Qed.

Lemma digit_not_at (c : ascii) : is_digit c = true -> negb (Ascii.eqb c "@") = true.
Proof.
  intros Hd. destruct (Ascii.eqb_spec c "@") as [->|_]; [discriminate Hd|reflexivity].
Qed.

Lemma all_chars_impl (p q : ascii -> bool) (s : string) :
  (forall c, p c = true -> q c = true) -> all_chars p s = true -> all_chars q s = true.
Proof.
  intros Hpq. induction s as [|c s IH]; [reflexivity|]. cbn [all_chars]. intros H.
  apply andb_true_iff in H as [Hc Hs]. now rewrite (Hpq c Hc), IH.
Qed.

Lemma before_first_chat (d : string) :
  all_chars is_digit d = true -> before_first "@" (d +:+ "@c.us") = d.
Proof.
  intros Hd. unfold before_first.
  apply (take_while_app _ d "@" "c.us"); [|reflexivity].
  now apply (all_chars_impl is_digit _ d digit_not_at).
Qed.

Lemma format_phone_fixed (d : string) :
  all_chars is_digit d = true -> startsWith "62" d = true -> format_phone d = d.
Proof.
  intros Hd Hp. destruct (startsWith_62 d Hp) as (rest & ->).
  unfold format_phone. rewrite digits_only_fixed by exact Hd.
  cbv beta iota zeta. now rewrite startsWith_62_intro.
Qed.

(** X20.  An order made in the bot stores the chat id up to the at
    sign, and the payment notification formats what is stored and puts
    "@c.us" behind it.  For a chat id of digits followed by "@c.us" the
    notification goes back to the chat that ordered exactly when the
    digits begin with 62. *)
Theorem bot_buyer_notified_in_own_chat (env : creation_env) (s : gmap string string)
    (p : Product.row) (email : option string) (d : string) :
  all_chars is_digit d = true ->
  (notification_chat true
     (new_order env s p email (or_null (before_first "@" (d +:+ "@c.us"))) None)
   = Some (d +:+ "@c.us")
   <-> startsWith "62" d = true).
Proof.
  intros Hd. rewrite (before_first_chat d Hd).
  unfold notification_chat, new_order. cbn [negb Order.customer_whatsapp].
  unfold or_null. destruct (nonempty d) eqn:Hn.
  - rewrite Hn. split.
    + intros E. inversion E as [E'].
      assert (format_phone d = d) as Hfix.
      { rewrite <- (before_first_chat (format_phone d))
          by apply (proj1 (format_phone_digits_62 d)).
        rewrite E'. now apply before_first_chat. }
      rewrite <- Hfix. apply (proj2 (format_phone_digits_62 d)).
    + intros Hp. now rewrite (format_phone_fixed d Hd Hp).
  - split; [discriminate|]. intros Hp.
    unfold nonempty in Hn. apply negb_false_iff, String.eqb_eq in Hn. subst d.
    discriminate Hp.
Qed.

(** X21.  The clearing of sessions keeps a session whose last update is
    at most thirty minutes old, that of exactly thirty minutes
    included, and drops an older one with the product it kept: whatever
    the dropped chat writes next, no order is made of it. *)
Theorem idle_session_is_forgotten `{BotController} (now : Z) (ss : sessions)
    (from : string) (s : Session.t) :
  ss !! from = Some s ->
  (now - Session.lastActivity s <= session_timeout ->
   clear_old_sessions now ss !! from = Some s) /\
  (now - Session.lastActivity s > session_timeout ->
   clear_old_sessions now ss !! from = None /\
   forall env body db,
     snd (fst (on_message env from body db (clear_old_sessions now ss))) = db).
Proof.
  intros Hs. split.
  - intros Hfresh. unfold clear_old_sessions. apply map_lookup_filter_Some.
    split; [exact Hs|]. simpl. lia.
  - intros Hold.
    assert (clear_old_sessions now ss !! from = None) as Hnone.
    { unfold clear_old_sessions. apply map_lookup_filter_None. right.
      intros x Hx. rewrite Hs in Hx. inversion Hx; subst x. simpl. lia. }
    split; [exact Hnone|]. intros env body db.
    destruct (on_message_store env from body db (clear_old_sessions now ss))
      as [E|(s' & p & Hs' & _)]; [exact E|].
    rewrite Hnone in Hs'. discriminate Hs'.
Qed.

(** ** The lifetime of a link *)

(** X22.  With the setting [token_expiry_minutes] absent or empty, the
    expiry that the webhook and recovery compute is sixty minutes after
    the clock reading; this is also so once [initDatabase] has run on
    such a store. *)
Theorem default_link_lifetime (db : database) (now : Z) :
  getSetting "token_expiry_minutes" db = None \/
  getSetting "token_expiry_minutes" db = Some "" ->
  - max_date <= now + 3600000 <= max_date ->
  expiresAt now (expiryMinutes (getSettings db)) = Returned (now + 3600000) /\
  expiresAt now (expiryMinutes (getSettings (initDatabase db))) = Returned (now + 3600000).
Proof.
  intros Hset Hrange.
  assert (expiresAt now (Num 60) = Returned (now + 3600000)) as H60.
  { unfold expiresAt, toISOString. cbv zeta.
    replace (now + 60 * 60 * 1000) with (now + 3600000) by lia.
    assert ((- max_date <=? now + 3600000) && (now + 3600000 <=? max_date) = true) as ->.
    { apply andb_true_iff. split; apply Z.leb_le; lia. }
    reflexivity. }
  assert (forall d, (getSetting "token_expiry_minutes" d = None \/
                     getSetting "token_expiry_minutes" d = Some "" \/
                     getSetting "token_expiry_minutes" d = Some "60") ->
                    expiryMinutes (getSettings d) = Num 60) as Hminutes.
  { intros d Hd. unfold expiryMinutes, setting_or, getSettings.
    rewrite getSetting_eq in Hd. destruct Hd as [-> |[-> | ->]]; reflexivity. }
  split.
  - rewrite Hminutes; [exact H60|]. destruct Hset; auto.
  - rewrite Hminutes; [exact H60|]. rewrite getSetting_initDatabase.
    destruct Hset as [-> | ->]; [right; right; reflexivity|right; left; reflexivity].
Qed.


(** ** Updating a setting *)

Lemma default_of_listed (key : string) :
  In key (map fst defaultSettings) -> exists v, default_of key = Some v.
Proof.
  intros Hin. apply in_map_iff in Hin as ([k v] & Hk & Hin). simpl in Hk. subst k.
  destruct (In_find_some (fun row => String.eqb (fst row) key) defaultSettings (key, v) Hin)
    as ([k' v'] & Hf & _); [apply String.eqb_refl|].
  exists v'. unfold default_of. now rewrite Hf.
Qed.

(** X4.  [updateSetting] updates and does not insert: afterwards the
    key reads as the new value when it was there before and as absent
    when it was not, and every other key reads as before.  So each of
    the keys that [initDatabase] provides can be set once it has run,
    whatever the store was. *)
Theorem updateSetting_getSetting (key value : string) (db : database) :
  (forall k, getSetting k (updateSetting key value db)
             = if decide (k = key)
               then (fun _ => value) <$> getSetting key db
               else getSetting k db) /\
  (In key (map fst defaultSettings) ->
   getSetting key (updateSetting key value (initDatabase db)) = Some value).
Proof.
  assert (forall d k, getSetting k (updateSetting key value d)
                      = if decide (k = key)
                        then (fun _ => value) <$> getSetting key d
                        else getSetting k d) as Hread.
  { intros d k. unfold getSetting, updateSetting.
    destruct (settings d !! key) as [old|] eqn:E; simpl.
    - destruct (decide (k = key)) as [->|Hne].
      + apply lookup_insert_eq.
      + now rewrite lookup_insert_ne.
    - destruct (decide (k = key)) as [->|Hne]; [exact E|reflexivity]. }
  split; [apply Hread|].
  intros Hin. rewrite Hread. destruct (decide (key = key)) as [_|Hne]; [|now elim Hne].
  rewrite getSetting_initDatabase.
  destruct (getSetting key db); [reflexivity|].
  destruct (default_of_listed key Hin) as (v & ->). reflexivity.
Qed.

Lemma updateSetting_getSetting_witness :
  In "webhook_api_key" (map fst defaultSettings) /\
  getSetting "webhook_api_key"
    (updateSetting "webhook_api_key" "s3cret" (initDatabase SampleWebhook.open_db))
  = Some "s3cret".
Proof.
  assert (In "webhook_api_key" (map fst defaultSettings)) as Hin.
  { simpl. do 10 right. now left. }
  split; [exact Hin|].
  exact (proj2 (updateSetting_getSetting "webhook_api_key" "s3cret" SampleWebhook.open_db)
               Hin).
Defined.

(** ** A link stays good until it expires *)

Lemma filter_unique_key {A : Type} (key : A -> string) (l : list A) (x : A) :
  List.NoDup (map key l) -> In x l ->
  List.filter (fun y => String.eqb (key y) (key x)) l = [x].
Proof.
  induction l as [|z l IH]; simpl; [contradiction|]. intros Hnd Hin.
  inversion Hnd as [|? ? Hnot Hrest]; subst.
  destruct Hin as [->|Hin].
  - rewrite String.eqb_refl. f_equal. apply filter_nil_existsb.
    now apply not_in_existsb_false.
  - destruct (String.eqb_spec (key z) (key x)) as [E|_]; [|now apply IH].
    exfalso. apply Hnot. rewrite E. now apply in_map.
Qed.

Lemma head_filter_find {A : Type} (p : A -> bool) (l : list A) :
  head (List.filter p l) = List.find p l.
Proof.
  induction l as [|x l IH]; simpl; [reflexivity|]. destruct (p x); [reflexivity|exact IH].
Qed.

Lemma head_map {A B : Type} (f : A -> B) (l : list A) :
  head (map f l) = option_map f (head l).
Proof. now destruct l. Qed.

(** With unique keys the join of a token is its row, the row of its
    order and the product rows of its product id. *)
Lemma token_join_unique (tok : string) (db : database) (dt : Token.row) (o : Order.row) :
  unique_keys db ->
  In dt (download_tokens db) -> Token.token dt = tok ->
  In o (orders db) -> Order.invoice_number o = Token.invoice_number dt ->
  head (token_join tok db)
  = option_map (fun p => (dt, o, p)) (product_by_id (Token.product_id dt) db).
Proof.
  intros [Ho Ht] Hdt Htok Hin Hinv. unfold token_join. subst tok.
  rewrite (filter_unique_key Token.token (download_tokens db) dt Ht Hdt).
  cbn [flat_map]. rewrite app_nil_r, <- Hinv.
  rewrite (filter_unique_key Order.invoice_number (orders db) o Ho Hin).
  cbn [flat_map]. rewrite app_nil_r, head_map, head_filter_find. reflexivity.
Qed.

Lemma live_token_change tok expires pid db db' :
  row_change db db' -> live_token tok expires pid db -> live_token tok expires pid db'.
Proof.
  unfold live_token.
  intros Hc (dt & o & Hdt & Htok & Hexp & Hpid & Ho & Hinv & Hst).
  destruct Hc as [Eo Et|o' Eo Et _ _|now inv Eo Et|keep Eo Et Hkeep|now tok' Eo Et
                 |t' o' Eo Et _ _ _ _]; rewrite Eo, Et.
  - exists dt, o. now repeat split.
  - exists dt, o. repeat split; try assumption. apply in_or_app. now left.
  - exists dt, (pay_row now inv o). repeat split; try assumption.
    + now apply in_map.
    + now rewrite invoice_pay_row.
    + now apply status_pay_row_paid.
  - exists dt, o. repeat split; try assumption. apply filter_In. split; [exact Ho|].
    apply Hkeep. rewrite Hst. discriminate.
  - exists (count_row now tok' dt), o. repeat split; try assumption.
    + now apply in_map.
    + now rewrite token_count_row.
    + unfold count_row. now destruct (String.eqb _ _).
    + unfold count_row. now destruct (String.eqb _ _).
    + now rewrite invoice_count_row.
  - exists dt, o. repeat split; try assumption. apply in_or_app. now left.
Qed.

Lemma find_same_product (pid : string) (l l' : list Product.row) (p : Product.row) :
  Forall2 same_product_less_stock l l' ->
  List.find (fun q => String.eqb (Product.id q) pid) l = Some p ->
  exists p', List.find (fun q => String.eqb (Product.id q) pid) l' = Some p' /\
             same_product_less_stock p p'.
Proof.
  intros H. induction H as [|q q' l l' Hq _ IH]; simpl; [discriminate|].
  assert (Product.id q' = Product.id q) as -> by apply Hq.
  destruct (String.eqb (Product.id q) pid); [|exact IH].
  intros E. inversion E; subst. eauto.
Qed.

Lemma deliver_same_product p p' : same_product_less_stock p p' -> deliver p' = deliver p.
Proof.
  intros (_ & Hname & _ & Hfile & Hlink & _). unfold deliver. now rewrite Hname, Hfile, Hlink.
Qed.

(** X23.  Nothing takes a link back before its time.  In a store with
    unique invoice numbers and token strings, let a token join to a
    paid order and a product.  Then after any list of actions
    (checkouts, bot orders, payments, sweeps, downloads, recoveries,
    changes of the settings) a redemption not later than the token's
    expiry is served the deliverable of that product. *)
Theorem served_link_stays_valid `{Sanitize} `{SanitizeInvoice} (acts : list action)
    (db : database) (tok : string) (dt : Token.row) (o : Order.row) (p : Product.row)
    (now : Z) :
  unique_keys db ->
  head (token_join tok db) = Some (dt, o, p) ->
  Order.status o = "paid" ->
  now <= Token.expires_at dt ->
  snd (download now tok (play acts db)) = deliver p.
Proof.
  intros Hu Hj Hst Hnow.
  pose proof (head_In _ _ Hj) as Hin.
  apply token_join_In in Hin as (Hdt & Htok & Ho & Hinv & _ & _).
  assert (product_by_id (Token.product_id dt) db = Some p) as Hp.
  { rewrite (token_join_unique tok db dt o Hu Hdt Htok Ho Hinv) in Hj.
    destruct (product_by_id (Token.product_id dt) db) as [q|]; [|discriminate Hj].
    simpl in Hj. now inversion Hj. }
  assert (unique_keys (play acts db) /\
          live_token tok (Token.expires_at dt) (Token.product_id dt) (play acts db))
    as [Hu' (dt' & o' & Hdt' & Htok' & Hexp' & Hpid' & Ho' & Hinv' & Hst')].
  { apply (play_invariant (fun d => unique_keys d /\
             live_token tok (Token.expires_at dt) (Token.product_id dt) d)).
    - intros d d' Hc [? ?].
      split; [now apply (unique_keys_change d)|now apply (live_token_change _ _ _ d)].
    - split; [exact Hu|]. exists dt, o. now repeat split. }
  destruct (find_same_product (Token.product_id dt) _ _ p (products_after_play acts db) Hp)
    as (p' & Hp' & Hsame).
  assert (head (token_join tok (play acts db)) = Some (dt', o', p')) as Hj'.
  { rewrite (token_join_unique tok _ dt' o' Hu' Hdt' Htok' Ho' Hinv').
    unfold product_by_id. rewrite Hpid', Hp'. reflexivity. }
  rewrite (download_joined now tok _ dt' o' p' Hj'), Hexp', Hst'.
  assert ((Token.expires_at dt <? now) = false) as -> by now apply Z.ltb_ge.
  simpl. now apply deliver_same_product.
Qed.

(** ** The further theorems at sample inputs *)

Lemma idle_session_is_forgotten_witness :
  let s := Session.mk "checkout" (mkData None None None (Some Sample.ebook))
             (Sample.noon - Sample.minutes 31) in
  let ss : sessions := <[SampleBot.chat := s]> ∅ in
  ss !! SampleBot.chat = Some s /\
  (Sample.noon - Session.lastActivity s <= session_timeout ->
   clear_old_sessions Sample.noon ss !! SampleBot.chat = Some s) /\
  (Sample.noon - Session.lastActivity s > session_timeout ->
   clear_old_sessions Sample.noon ss !! SampleBot.chat = None /\
   forall env body db,
     snd (fst (@on_message SampleBot.controller env SampleBot.chat body db
                 (clear_old_sessions Sample.noon ss))) = db).
Proof.
  intros s ss.
  assert (ss !! SampleBot.chat = Some s) as Hs by apply lookup_insert_eq.
  split; [exact Hs|].
  exact (@idle_session_is_forgotten SampleBot.controller Sample.noon ss SampleBot.chat s Hs).
Defined.

Lemma default_link_lifetime_witness :
  (getSetting "token_expiry_minutes" SampleWebhook.open_db = None \/
   getSetting "token_expiry_minutes" SampleWebhook.open_db = Some "") /\
  - max_date <= Sample.noon + 3600000 <= max_date /\
  expiresAt Sample.noon (expiryMinutes (getSettings SampleWebhook.open_db))
  = Returned (Sample.noon + 3600000) /\
  expiresAt Sample.noon (expiryMinutes (getSettings (initDatabase SampleWebhook.open_db)))
  = Returned (Sample.noon + 3600000).
Proof.
  assert (getSetting "token_expiry_minutes" SampleWebhook.open_db = None \/
          getSetting "token_expiry_minutes" SampleWebhook.open_db = Some "") as Hset
      by (left; reflexivity).
  assert (- max_date <= Sample.noon + 3600000 <= max_date) as Hrange
      by (unfold max_date, Sample.noon; lia).
  split; [exact Hset|]. split; [exact Hrange|].
  exact (default_link_lifetime SampleWebhook.open_db Sample.noon Hset Hrange).
Defined.


Lemma new_order_reports_pending_witness :
  let env := SampleCheckout.env in
  let o := new_order env Sample.store_settings Sample.ebook
             (Some "buyer@example.com") None None in
  let db' := set_orders SampleRun.shop [o] in
  @checkout passthrough env SampleRun.buy SampleRun.shop = (db', RenderCheckout (view_of o)) /\
  order_status "INV-0001" SampleRun.shop = StatusJson 404 "not_found" /\
  order_status "INV-0001" db' = StatusJson 200 "pending".
Proof.
  intros env o db'.
  assert (@checkout passthrough env SampleRun.buy SampleRun.shop
          = (db', RenderCheckout (view_of o))) as Hc by reflexivity.
  split; [exact Hc|].
  exact (proj1 (@new_order_reports_pending passthrough env SampleRun.shop db' (view_of o))
               SampleRun.buy Hc).
Defined.

Lemma processed_payment_reports_paid_witness :
  let r := webhook_payment SampleWebhook.at_noon (Some "secret") Sample.payment_50123
             SampleWebhook.single_db in
  snd r = Json 200 "success" "Payment processed" (Some "INV-0001") /\
  order_status "INV-0001" (fst r) = StatusJson 200 "paid".
Proof.
  intros r.
  assert (snd r = Json 200 "success" "Payment processed" (Some "INV-0001")) as Hr
      by reflexivity.
  split; [exact Hr|].
  exact (processed_payment_reports_paid SampleWebhook.at_noon (Some "secret")
           Sample.payment_50123 SampleWebhook.single_db "INV-0001" Hr).
Defined.

Lemma paid_is_final_witness :
  order_status "INV-0001" SampleToken.paid_db = StatusJson 200 "paid" /\
  order_status "INV-0001"
    (@play passthrough passthrough_invoice SampleRecover.later_actions SampleToken.paid_db)
  = StatusJson 200 "paid".
Proof.
  assert (order_status "INV-0001" SampleToken.paid_db = StatusJson 200 "paid") as Hp
      by reflexivity.
  split; [exact Hp|].
  exact (@paid_is_final passthrough passthrough_invoice SampleRecover.later_actions
           SampleToken.paid_db "INV-0001" Hp).
Defined.

Lemma unique_keys_kept_witness :
  unique_keys SampleRun.shop /\
  unique_keys (@play passthrough passthrough_invoice (map Core SampleRun.history)
                 SampleRun.shop).
Proof.
  assert (unique_keys SampleRun.shop) as Hu by (split; constructor).
  split; [exact Hu|].
  exact (@unique_keys_kept passthrough passthrough_invoice (map Core SampleRun.history)
           SampleRun.shop Hu).
Defined.

Lemma download_never_forbidden_witness :
  unique_keys SampleRun.shop /\ tokens_for_paid_orders SampleRun.shop /\
  snd (download Sample.noon "tok-1"
         (@play passthrough passthrough_invoice (map Core SampleRun.history)
            SampleRun.shop))
  <> Forbidden "Order is not paid yet".
Proof.
  assert (unique_keys SampleRun.shop) as Hu by (split; constructor).
  assert (tokens_for_paid_orders SampleRun.shop) as Ht by (intros t []).
  split; [exact Hu|]. split; [exact Ht|].
  exact (@download_never_forbidden passthrough passthrough_invoice
           (map Core SampleRun.history) SampleRun.shop Sample.noon "tok-1"
           "Order is not paid yet" Hu Ht).
Defined.

Lemma recovered_link_is_served_witness :
  let db := SampleToken.paid_db in
  let order := paid (Sample.noon - Sample.minutes 60)
                 (Sample.order_at "INV-0001" "2024-01-01 10:40:00") in
  let r := @recover passthrough passthrough_invoice SampleRecover.env
             SampleRecover.request db in
  r = (fst r, RecoverLink order "tok-9") /\
  exists expires,
    expiresAt (w_now SampleRecover.env) (expiryMinutes (getSettings db)) = Returned expires /\
    forall now,
      snd (download now "tok-9" (fst r))
      = link_answer expires now (product_by_id (Order.product_id order) db).
Proof.
  intros db order r.
  assert (r = (fst r, RecoverLink order "tok-9")) as Hr by reflexivity.
  split; [exact Hr|].
  exact (@recovered_link_is_served passthrough passthrough_invoice SampleRecover.env
           SampleRecover.request db (fst r) order "tok-9" Hr).
Defined.

Lemma paid_link_is_served_witness :
  let env := SampleWebhook.at_noon in
  let db := SampleWebhook.single_db in
  let r := webhook_payment env (Some "secret") Sample.payment_50123 db in
  snd r = Json 200 "success" "Payment processed" (Some "INV-0001") /\
  ~ In (w_token env) (map Token.token (download_tokens db)) /\
  exists order expires,
    In order (orders db) /\ Order.invoice_number order = "INV-0001" /\
    Order.status order = "pending" /\
    expiresAt (w_now env) (expiryMinutes (getSettings db)) = Returned expires /\
    forall now,
      snd (download now (w_token env) (fst r))
      = link_answer expires now (product_by_id (Order.product_id order) db).
Proof.
  intros env db r.
  assert (snd r = Json 200 "success" "Payment processed" (Some "INV-0001")) as Hr
      by reflexivity.
  assert (~ In (w_token env) (map Token.token (download_tokens db))) as Hf by (intros []).
  split; [exact Hr|]. split; [exact Hf|].
  exact (paid_link_is_served env (Some "secret") Sample.payment_50123 db "INV-0001" Hr Hf).
Defined.

Lemma checkout_page_agrees_with_checkout_witness :
  nonempty (@sanitizeEmail passthrough (customer_email SampleRun.buy)) = true /\
  match checkout_page (productId SampleRun.buy) SampleRun.shop with
  | PageStatus _ _ =>
      @checkout passthrough SampleCheckout.env SampleRun.buy SampleRun.shop
      = (SampleRun.shop, SendStatus 400 "Product not available")
  | PageCheckout product =>
      @checkout passthrough SampleCheckout.env SampleRun.buy SampleRun.shop
      = (SampleRun.shop, SendStatus 500 "Server error during checkout") \/
      exists o,
        @checkout passthrough SampleCheckout.env SampleRun.buy SampleRun.shop
        = (set_orders SampleRun.shop (orders SampleRun.shop ++ [o]),
           RenderCheckout (view_of o)) /\
        Order.product_id o = Product.id product /\
        Order.product_name o = Product.name product /\
        Order.product_price o = Product.price product /\
        Order.invoice_number o = c_invoiceNumber SampleCheckout.env
  end.
Proof.
  assert (nonempty (@sanitizeEmail passthrough (customer_email SampleRun.buy)) = true)
    as He by reflexivity.
  split; [exact He|].
  exact (@checkout_page_agrees_with_checkout passthrough SampleCheckout.env SampleRun.buy
           SampleRun.shop He).
Defined.

Lemma settings_kept_by_customer_actions_witness :
  forallb customer_action (map Core SampleRun.history) = true /\
  settings (@play passthrough passthrough_invoice (map Core SampleRun.history)
              SampleRun.shop)
  = settings SampleRun.shop.
Proof.
  assert (forallb customer_action (map Core SampleRun.history) = true) as Hc
      by reflexivity.
  split; [exact Hc|].
  exact (@settings_kept_by_customer_actions passthrough passthrough_invoice
           (map Core SampleRun.history) SampleRun.shop Hc).
Defined.

Lemma checkout_session_keeps_product_witness :
  List.Forall undisturbed SampleBot.conversation /\
  sessions_ok ∅ /\
  sessions_ok (fst (fst (@bot_run passthrough passthrough_invoice SampleBot.controller
                           SampleBot.conversation (∅, SampleRun.shop)))) /\
  ~ In CheckoutExpired
       (snd (@bot_run passthrough passthrough_invoice SampleBot.controller
               SampleBot.conversation (∅, SampleRun.shop))).
Proof.
  assert (List.Forall undisturbed SampleBot.conversation) as Hquiet.
  { repeat constructor. }
  assert (sessions_ok ∅) as Hok.
  { intros u s Hu. rewrite lookup_empty in Hu. discriminate Hu. }
  split; [exact Hquiet|]. split; [exact Hok|].
  exact (@checkout_session_keeps_product passthrough passthrough_invoice
           SampleBot.controller SampleBot.conversation ∅ SampleRun.shop Hquiet Hok).
Defined.

Lemma bot_buyer_notified_in_own_chat_witness :
  all_chars is_digit "6281234567890" = true /\
  (notification_chat true
     (new_order SampleCheckout.env Sample.store_settings Sample.ebook
        (Some "buyer@example.com")
        (or_null (before_first "@" ("6281234567890" +:+ "@c.us"))) None)
   = Some ("6281234567890" +:+ "@c.us")
   <-> startsWith "62" "6281234567890" = true).
Proof.
  assert (all_chars is_digit "6281234567890" = true) as Hd by reflexivity.
  split; [exact Hd|].
  exact (bot_buyer_notified_in_own_chat SampleCheckout.env Sample.store_settings
           Sample.ebook (Some "buyer@example.com") "6281234567890" Hd).
Defined.

(** ** The bot at work *)

(** A conversation from the first message to the order: the store gets
    one pending order for the product that was chosen, with the email
    that was typed and the number of the chat, and the session is back
    at the menu. *)
Example scenario_bot_conversation :
  let r := @bot_run passthrough passthrough_invoice SampleBot.controller
             SampleBot.conversation (∅, SampleRun.shop) in
  map (fun o => (Order.invoice_number o, Order.product_id o, Order.customer_email o,
                 Order.customer_whatsapp o, Order.status o))
      (orders (snd (fst r)))
  = [("INV-0001", "P1", Some "buyer@example.com", Some "6281234567890", "pending")] /\
  Session.state <$> (fst (fst r) !! SampleBot.chat) = Some "menu" /\
  List.length (snd r) = 8%nat.
Proof. vm_compute. repeat split. Qed.

(** When a "menu" of the same chat is handled while the answer to
    "Beli" is being sent, the session ends in the state 'checkout' with
    no product, and the email that follows is answered with the
    expired checkout; no order is written. *)
Example scenario_overlapped_conversation :
  let r := @bot_run passthrough passthrough_invoice SampleBot.controller
             SampleBot.overlapped (∅, SampleRun.shop) in
  orders (snd (fst r)) = [] /\
  last (snd r) = Some CheckoutExpired /\
  Session.state <$> (fst (fst r) !! SampleBot.chat) = Some "menu".
Proof. vm_compute. repeat split. Qed.

Lemma served_link_stays_valid_witness :
  let db := SampleToken.paid_db in
  let dt := Token.mk "tok-1" "INV-0001" "P1" "2024-01-01 11:00:00" Sample.noon false 0 None in
  let o := paid (Sample.noon - Sample.minutes 60)
             (Sample.order_at "INV-0001" "2024-01-01 10:40:00") in
  unique_keys db /\
  head (token_join "tok-1" db) = Some (dt, o, Sample.ebook) /\
  Order.status o = "paid" /\
  Sample.noon <= Token.expires_at dt /\
  snd (download Sample.noon "tok-1"
         (@play passthrough passthrough_invoice SampleRecover.later_actions db))
  = deliver Sample.ebook.
Proof.
  intros db dt o.
  assert (unique_keys db) as Hu.
  { split; simpl; (constructor; [intros []|constructor]). }
  assert (head (token_join "tok-1" db) = Some (dt, o, Sample.ebook)) as Hj by reflexivity.
  assert (Order.status o = "paid") as Hst by reflexivity.
  assert (Sample.noon <= Token.expires_at dt) as Hnow by (simpl; lia).
  split; [exact Hu|]. split; [exact Hj|]. split; [exact Hst|]. split; [exact Hnow|].
  exact (@served_link_stays_valid passthrough passthrough_invoice
           SampleRecover.later_actions db "tok-1" dt o Sample.ebook Sample.noon
           Hu Hj Hst Hnow).
Defined.
